(** * MSR206 reader/writer front ends: protocol codec and card generator

    A shallow embedding of [msre206_cc.py], [msre206_debug.py] and
    [msre206_v0.2.py].  Python [str] values are lists of code points,
    [bytes] values are lists of [Byte.byte], Python integers are [Z].
    Code that prints, reads the serial device, reads the clock, draws
    random numbers or touches the Tk variables runs in a small state and
    exception monad over an explicit [world]. *)

From Stdlib Require Import List ZArith NArith Lia Bool String Ascii QArith.
From Stdlib.Strings Require Import Byte.
Import ListNotations.
Close Scope Q_scope.
Close Scope string_scope.
Open Scope list_scope.

(** ** Python values *)

(** A Python [str]: the list of its code points. *)
Definition str := list N.

(** A Python [bytes] object. *)
Definition bytes := list byte.

(** An ASCII literal of the source as a [str].  The literals below are
    written without escapes: a backslash stands for itself. *)
Definition py (s : string) : str :=
  map N_of_ascii (list_ascii_of_string s).

(** The exceptions the modelled code can raise. *)
Inductive exn : Type :=
| ValueError (msg : str)
| KeyError (key : str)
| IndexError
| UnicodeDecodeError
| UnicodeEncodeError.

(** Result of a side-effect free operation that may raise. *)
Inductive pure (A : Type) : Type :=
| Ok (a : A)
| Err (e : exn).
Arguments Ok {A} a.
Arguments Err {A} e.

Definition pbind {A B} (m : pure A) (k : A -> pure B) : pure B :=
  match m with
  | Ok a => k a
  | Err e => Err e
  end.

Fixpoint pmap {A B} (f : A -> pure B) (l : list A) : pure (list B) :=
  match l with
  | [] => Ok []
  | a :: r => pbind (f a) (fun b => pbind (pmap f r) (fun bs => Ok (b :: bs)))
  end.

(** ** Builtins on [bytes] *)

Definition byte_of_N (n : N) : byte :=
  match Byte.of_N n with
  | Some b => b
  | None => x00
  end.

Definition ESC : byte := x1b.
Definition FS : byte := x1c.

Fixpoint bytes_eqb (a b : bytes) : bool :=
  match a, b with
  | [], [] => true
  | x :: a', y :: b' => Byte.eqb x y && bytes_eqb a' b'
  | _, _ => false
  end.

(** [b.startswith(p)] *)
Fixpoint startswith (p b : bytes) : bool :=
  match p, b with
  | [], _ => true
  | x :: p', y :: b' => Byte.eqb x y && startswith p' b'
  | _ :: _, [] => false
  end.

(** [b.endswith(p)] *)
Definition endswith (p b : bytes) : bool :=
  startswith (rev p) (rev b).

(** [b[-1:]]: the last byte as a bytes object, empty for the empty input. *)
Definition last_slice (b : bytes) : bytes :=
  match rev b with
  | [] => []
  | x :: _ => [x]
  end.

Definition hex_digit (n : N) : N :=
  if (n <? 10)%N then (48 + n)%N else (87 + n)%N.

(** [b.hex()]: two lowercase hexadecimal digits per byte. *)
Definition hex (b : bytes) : str :=
  flat_map (fun x => [hex_digit (Byte.to_N x / 16); hex_digit (Byte.to_N x mod 16)]) b.

(** [repr(b)], which is what an f-string shows for a bytes value: the
    quote and the backslash are escaped, tab, newline and carriage return
    are written with their letter, the other bytes outside the printable
    range as a backslash, x and two hexadecimal digits. *)
Definition repr_byte (quote : N) (x : byte) : str :=
  let c := Byte.to_N x in
  if ((c =? quote) || (c =? 92))%N then [92; c]%N
  else if (c =? 9)%N then py "\t"
  else if (c =? 10)%N then py "\n"
  else if (c =? 13)%N then py "\r"
  else if ((c <? 32) || (127 <=? c))%N
       then py "\x" ++ [hex_digit (c / 16); hex_digit (c mod 16)]
  else [c].

Definition bytes_repr (b : bytes) : str :=
  let has c := existsb (fun x => (Byte.to_N x =? c)%N) b in
  let quote := if has 39%N && negb (has 34%N) then 34%N else 39%N in
  py "b" ++ [quote] ++ flat_map (repr_byte quote) b ++ [quote].

(** ** UTF-8, the default codec of [str.encode] and [bytes.decode] *)

Definition is_surrogate (c : N) : bool := ((55296 <=? c) && (c <=? 57343))%N.

Definition encode_cp (c : N) : pure bytes :=
  if (c <? 128)%N then Ok [byte_of_N c]
  else if (c <? 2048)%N then
    Ok [byte_of_N (192 + c / 64); byte_of_N (128 + c mod 64)]
  else if is_surrogate c then Err UnicodeEncodeError
  else if (c <? 65536)%N then
    Ok [byte_of_N (224 + c / 4096); byte_of_N (128 + (c / 64) mod 64);
        byte_of_N (128 + c mod 64)]
  else if (c <? 1114112)%N then
    Ok [byte_of_N (240 + c / 262144); byte_of_N (128 + (c / 4096) mod 64);
        byte_of_N (128 + (c / 64) mod 64); byte_of_N (128 + c mod 64)]
  else Err UnicodeEncodeError.

(** [s.encode()] *)
Fixpoint encode (s : str) : pure bytes :=
  match s with
  | [] => Ok []
  | c :: r => pbind (encode_cp c) (fun h => pbind (encode r) (fun t => Ok (h ++ t)))
  end.

Definition in_range (lo hi x : N) : bool := ((lo <=? x) && (x <=? hi))%N.
Definition is_cont (x : N) : bool := in_range 128 191 x.

(** [b.decode()] with strict error handling: [None] stands for
    [UnicodeDecodeError]. *)
Fixpoint decode (b : bytes) : option str :=
  match b with
  | [] => Some []
  | b0 :: r0 =>
    let c0 := Byte.to_N b0 in
    if (c0 <? 128)%N then option_map (cons c0) (decode r0)
    else match r0 with
    | [] => None
    | b1 :: r1 =>
      let c1 := Byte.to_N b1 in
      if in_range 194 223 c0 then
        if is_cont c1
        then option_map (cons ((c0 - 192) * 64 + (c1 - 128))%N) (decode r1)
        else None
      else match r1 with
      | [] => None
      | b2 :: r2 =>
        let c2 := Byte.to_N b2 in
        if in_range 224 239 c0 then
          if (if (c0 =? 224)%N then in_range 160 191 c1
              else if (c0 =? 237)%N then in_range 128 159 c1
              else is_cont c1) && is_cont c2
          then option_map
                 (cons ((c0 - 224) * 4096 + (c1 - 128) * 64 + (c2 - 128))%N)
                 (decode r2)
          else None
        else match r2 with
        | [] => None
        | b3 :: r3 =>
          let c3 := Byte.to_N b3 in
          if in_range 240 244 c0 then
            if (if (c0 =? 240)%N then in_range 144 191 c1
                else if (c0 =? 244)%N then in_range 128 143 c1
                else is_cont c1) && is_cont c2 && is_cont c3
            then option_map
                   (cons ((c0 - 240) * 262144 + (c1 - 128) * 4096
                          + (c2 - 128) * 64 + (c3 - 128))%N)
                   (decode r3)
            else None
          else None
        end
      end
    end
  end.

(** ** Builtins on [str] *)

(** [c.isspace()] for one code point, the test [str.strip()] applies. *)
Definition isspace (c : N) : bool :=
  in_range 9 13 c || in_range 28 32 c || (c =? 133)%N || (c =? 160)%N
  || (c =? 5760)%N || in_range 8192 8202 c || (c =? 8232)%N || (c =? 8233)%N
  || (c =? 8239)%N || (c =? 8287)%N || (c =? 12288)%N.

Fixpoint lstrip (s : str) : str :=
  match s with
  | [] => []
  | c :: r => if isspace c then lstrip r else s
  end.

(** [s.strip()] *)
Definition strip (s : str) : str := rev (lstrip (rev (lstrip s))).

(** [s.split(sep)] for a one-character separator: never an empty list. *)
Fixpoint split (sep : N) (s : str) : list str :=
  match s with
  | [] => [[]]
  | c :: r =>
    if (c =? sep)%N then [] :: split sep r
    else match split sep r with
         | h :: t => (c :: h) :: t
         | [] => [[c]]
         end
  end.

(** [int(d)] for a one-character string.  The scripts apply it to ASCII
    digits only; every other character is reported as [ValueError] here
    (Python also accepts the decimal digits of other scripts). *)
Definition int_of_char (c : N) : pure Z :=
  if in_range 48 57 c then Ok (Z.of_N c - 48)%Z
  else Err (ValueError (py "invalid literal for int()")).

Fixpoint uint_digits (u : Decimal.uint) : str :=
  match u with
  | Decimal.Nil => []
  | Decimal.D0 r => 48%N :: uint_digits r
  | Decimal.D1 r => 49%N :: uint_digits r
  | Decimal.D2 r => 50%N :: uint_digits r
  | Decimal.D3 r => 51%N :: uint_digits r
  | Decimal.D4 r => 52%N :: uint_digits r
  | Decimal.D5 r => 53%N :: uint_digits r
  | Decimal.D6 r => 54%N :: uint_digits r
  | Decimal.D7 r => 55%N :: uint_digits r
  | Decimal.D8 r => 56%N :: uint_digits r
  | Decimal.D9 r => 57%N :: uint_digits r
  end.

(** [str(n)] for an integer. *)
Definition str_of_int (z : Z) : str :=
  if (z <? 0)%Z then py "-" ++ uint_digits (N.to_uint (Z.abs_N z))
  else uint_digits (N.to_uint (Z.abs_N z)).

(** [f"{n:02}"]: zero padding, after the sign, up to width two. *)
Definition format_02 (z : Z) : str :=
  let d := uint_digits (N.to_uint (Z.abs_N z)) in
  if (z <? 0)%Z then py "-" ++ repeat 48%N (1 - List.length d) ++ d
  else repeat 48%N (2 - List.length d) ++ d.

(** [sum(divmod(n, 10))] *)
Definition sum_divmod10 (n : Z) : Z := (n / 10 + n mod 10)%Z.

Definition zsum (l : list Z) : Z := fold_left Z.add l 0%Z.


(** [seq[i]] *)
Definition getitem {A} (l : list A) (i : nat) : pure A :=
  match nth_error l i with
  | Some a => Ok a
  | None => Err IndexError
  end.

(** A [dict] with [str] keys, as the literal lists its items. *)
Definition dict (V : Type) := list (str * V).

Fixpoint str_eqb (a b : str) : bool :=
  match a, b with
  | [], [] => true
  | x :: a', y :: b' => (x =? y)%N && str_eqb a' b'
  | _, _ => false
  end.

Fixpoint dict_find {V} (d : dict V) (k : str) : option V :=
  match d with
  | [] => None
  | (k', v) :: r => if str_eqb k' k then Some v else dict_find r k
  end.

(** [d[k]] *)
Definition dict_getitem {V} (d : dict V) (k : str) : pure V :=
  match dict_find d k with
  | Some v => Ok v
  | None => Err (KeyError k)
  end.

(** [d.get(k, default)] on a dict with [bytes] keys. *)
Fixpoint bytes_dict_get (d : list (bytes * str)) (k : bytes) (default : str) : str :=
  match d with
  | [] => default
  | (k', v) :: r => if bytes_eqb k' k then v else bytes_dict_get r k default
  end.

(** [s[-1::-2]] and [s[-2::-2]]: every second element from the right end,
    starting at the last and at the last but one. *)
Fixpoint every_other {A} (l : list A) : list A :=
  match l with
  | [] => []
  | [a] => [a]
  | a :: _ :: r => a :: every_other r
  end.

Definition slice_m1_m2 {A} (l : list A) : list A := every_other (rev l).
Definition slice_m2_m2 {A} (l : list A) : list A := every_other (tl (rev l)).

(** [enumerate(reversed(s))] *)
Definition enumerate_reversed {A} (l : list A) : list (nat * A) :=
  combine (seq 0 (List.length l)) (rev l).

(** ** The [luhn] package *)

Module Luhn.

(** Modelled from the spec: [verify] and [append] are imported from the
    third-party package [luhn], whose source is not part of the repository.
    [verify] is the spec's Luhn verification: the weighted sum over all the
    digits, the last one at even offset from the right, digits at odd offset
    doubled with the two digits of the double added, accepted when the sum
    is 0 modulo 10.  [append] adds the check digit that makes the number
    valid: the one [generate] computes from the checksum of the string
    extended by a zero. *)
Definition checksum (s : str) : pure Z :=
  pbind (pmap int_of_char s) (fun digits =>
  let odd_sum := zsum (slice_m1_m2 digits) in
  let even_sum := zsum (map (fun d => sum_divmod10 (2 * d)) (slice_m2_m2 digits)) in
  Ok ((odd_sum + even_sum) mod 10)%Z).

(** Modelled from the spec: [luhn.verify], which accepts a digit string
    when the weighted sum over all its digits is 0 modulo 10. *)
Definition verify (s : str) : pure bool :=
  pbind (checksum s) (fun c => Ok (c =? 0)%Z).

(** Modelled from the spec: [luhn.generate], the check digit
    [(10 - sum mod 10) mod 10] for the string with its check digit still to
    come. *)
Definition generate (s : str) : pure Z :=
  pbind (checksum (s ++ py "0")) (fun cksum => Ok ((10 - cksum) mod 10)%Z).

(** Modelled from the spec: [luhn.append], the string followed by its check
    digit. *)
Definition append (s : str) : pure str :=
  pbind (generate s) (fun g => Ok (s ++ str_of_int g)).

End Luhn.

(** ** The world the scripts run in *)

Record world : Type := mkWorld {
  track1_var : str;            (* the Tk string variables *)
  track2_var : str;
  track3_var : str;
  raw_data_var : str;
  card_type_var : str;
  out : list str;              (* lines printed, or logged to the debug window *)
  port_fault : option str;     (* the error opening the serial port, if any *)
  written : list bytes;        (* what [device.write] was given, oldest first *)
  rx : nat -> bytes;           (* what the successive device reads return *)
  rx_pos : nat;
  clock : nat -> Q;            (* the successive readings of [time.time()] *)
  clock_pos : nat;
  rnd : nat -> nat;            (* the successive raw draws of [random] *)
  rnd_pos : nat
}.

Definition set_track1 (v : str) (w : world) : world :=
  mkWorld v (track2_var w) (track3_var w) (raw_data_var w) (card_type_var w)
    (out w) (port_fault w) (written w) (rx w) (rx_pos w) (clock w) (clock_pos w)
    (rnd w) (rnd_pos w).
Definition set_track2 (v : str) (w : world) : world :=
  mkWorld (track1_var w) v (track3_var w) (raw_data_var w) (card_type_var w)
    (out w) (port_fault w) (written w) (rx w) (rx_pos w) (clock w) (clock_pos w)
    (rnd w) (rnd_pos w).
Definition set_track3 (v : str) (w : world) : world :=
  mkWorld (track1_var w) (track2_var w) v (raw_data_var w) (card_type_var w)
    (out w) (port_fault w) (written w) (rx w) (rx_pos w) (clock w) (clock_pos w)
    (rnd w) (rnd_pos w).
Definition set_out (v : list str) (w : world) : world :=
  mkWorld (track1_var w) (track2_var w) (track3_var w) (raw_data_var w)
    (card_type_var w) v (port_fault w) (written w) (rx w) (rx_pos w) (clock w)
    (clock_pos w) (rnd w) (rnd_pos w).
Definition set_written (v : list bytes) (w : world) : world :=
  mkWorld (track1_var w) (track2_var w) (track3_var w) (raw_data_var w)
    (card_type_var w) (out w) (port_fault w) v (rx w) (rx_pos w) (clock w)
    (clock_pos w) (rnd w) (rnd_pos w).
Definition set_rx_pos (v : nat) (w : world) : world :=
  mkWorld (track1_var w) (track2_var w) (track3_var w) (raw_data_var w)
    (card_type_var w) (out w) (port_fault w) (written w) (rx w) v (clock w)
    (clock_pos w) (rnd w) (rnd_pos w).
Definition set_clock_pos (v : nat) (w : world) : world :=
  mkWorld (track1_var w) (track2_var w) (track3_var w) (raw_data_var w)
    (card_type_var w) (out w) (port_fault w) (written w) (rx w) (rx_pos w)
    (clock w) v (rnd w) (rnd_pos w).
Definition set_rnd_pos (v : nat) (w : world) : world :=
  mkWorld (track1_var w) (track2_var w) (track3_var w) (raw_data_var w)
    (card_type_var w) (out w) (port_fault w) (written w) (rx w) (rx_pos w)
    (clock w) (clock_pos w) (rnd w) v.

Definition set_raw_data (v : str) (w : world) : world :=
  mkWorld (track1_var w) (track2_var w) (track3_var w) v (card_type_var w)
    (out w) (port_fault w) (written w) (rx w) (rx_pos w) (clock w) (clock_pos w)
    (rnd w) (rnd_pos w).

(** Outcome of a run: a value, an exception that reached the caller, or a
    loop that was still running when the step budget ran out. *)
Inductive res (A : Type) : Type :=
| Val (a : A) (w : world)
| Exc (e : exn) (w : world)
| Div.
Arguments Val {A} a w.
Arguments Exc {A} e w.
Arguments Div {A}.

Definition M (A : Type) : Type := world -> res A.

Definition ret {A} (a : A) : M A := fun w => Val a w.

Definition bind {A B} (m : M A) (k : A -> M B) : M B :=
  fun w => match m w with
           | Val a w' => k a w'
           | Exc e w' => Exc e w'
           | Div => Div
           end.

Declare Scope m_scope.
Delimit Scope m_scope with M.
Notation "x <- m ;; k" := (bind m (fun x => k))
  (at level 61, m at next level, right associativity) : m_scope.
Notation "m ;; k" := (bind m (fun _ => k))
  (at level 61, right associativity) : m_scope.
Open Scope m_scope.

Definition raise {A} (e : exn) : M A := fun w => Exc e w.
Definition diverge {A} : M A := fun _ => Div.

Definition lift {A} (p : pure A) : M A :=
  match p with
  | Ok a => ret a
  | Err e => raise e
  end.

(** [try: m except <handled>: h] *)
Definition try_except {A} (m : M A) (handled : exn -> bool) (h : exn -> M A) : M A :=
  fun w => match m w with
           | Exc e w' => if handled e then h e w' else Exc e w'
           | r => r
           end.

Definition when (b : bool) (m : M unit) : M unit := if b then m else ret tt.

(** [print(line)]; the debug variant's [log_debug_message(line)] appends the
    line to the debug window instead, which is the same list here. *)
Definition print (line : str) : M unit :=
  fun w => Val tt (set_out (out w ++ [line]) w).

Definition get {A} (f : world -> A) : M A := fun w => Val (f w) w.
Definition modify (f : world -> world) : M unit := fun w => Val tt (f w).

(** The open serial port. *)
Inductive Serial : Type := TtyUSB0.

(** [serial.Serial(port='/dev/ttyUSB0', baudrate=9600, timeout=...)]: raises
    when the port cannot be opened; the result is the message of that
    exception. *)
Definition serial_open : M (str + Serial) :=
  fun w => match port_fault w with
           | Some msg => Val (inl msg) w
           | None => Val (inr TtyUSB0) w
           end.

Definition device_write (d : Serial) (b : bytes) : M unit :=
  modify (fun w => set_written (written w ++ [b]) w).

(** [device.read_all()]: the next entry of the receive script. *)
Definition device_read_all (d : Serial) : M bytes :=
  fun w => Val (rx w (rx_pos w)) (set_rx_pos (S (rx_pos w)) w).

(** [device.read(size)]: the next entry of the receive script, [size] bytes
    of it at most. *)
Definition device_read (d : Serial) (size : nat) : M bytes :=
  fun w => Val (firstn size (rx w (rx_pos w))) (set_rx_pos (S (rx_pos w)) w).

Definition device_close (d : Serial) : M unit := ret tt.

(** [time.time()], in seconds. *)
Definition time_time : M Q :=
  fun w => Val (clock w (clock_pos w)) (set_clock_pos (S (clock_pos w)) w).

(** [time.sleep(s)] *)
Definition time_sleep (s : Q) : M unit := ret tt.

Definition draw : M nat :=
  fun w => Val (rnd w (rnd_pos w)) (set_rnd_pos (S (rnd_pos w)) w).

(** [random.choice(seq)] *)
Definition random_choice {A} (l : list A) : M A :=
  r <- draw ;; lift (getitem l (r mod List.length l)).

(** [random.randint(a, b)] *)
Definition random_randint (a b : Z) : M Z :=
  r <- draw ;; ret (a + Z.of_nat r mod (b - a + 1))%Z.

(** [''.join(g() for _ in range(n))] *)
Fixpoint join_range {A} (n : nat) (g : M (list A)) : M (list A) :=
  match n with
  | O => ret []
  | S n' => h <- g ;; t <- join_range n' g ;; ret (h ++ t)
  end.

Definition Qltb (a b : Q) : bool := negb (Qle_bool b a).

(** [needle in s] for strings. *)
Fixpoint str_prefix (p s : str) : bool :=
  match p, s with
  | [], _ => true
  | x :: p', y :: s' => (x =? y)%N && str_prefix p' s'
  | _ :: _, [] => false
  end.

Fixpoint str_contains (needle s : str) : bool :=
  str_prefix needle s ||
  match s with
  | [] => false
  | _ :: r => str_contains needle r
  end.

(** [s.lower()] and [s.capitalize()]; letters outside ASCII are left as they
    are (the card type menu only offers ASCII names). *)
Definition lower_cp (c : N) : N := if in_range 65 90 c then (c + 32)%N else c.
Definition upper_cp (c : N) : N := if in_range 97 122 c then (c - 32)%N else c.
Definition lower (s : str) : str := map lower_cp s.
Definition capitalize (s : str) : str :=
  match s with
  | [] => []
  | c :: r => upper_cp c :: lower r
  end.

(** [str(e)] for a caught exception; the text of the Unicode errors is
    abridged. *)
Definition exn_str (e : exn) : str :=
  match e with
  | ValueError msg => msg
  | KeyError k => py "'" ++ k ++ py "'"
  | IndexError => py "list index out of range"
  | UnicodeDecodeError => py "'utf-8' codec can't decode bytes"
  | UnicodeEncodeError => py "'utf-8' codec can't encode characters"
  end.

(** [except ValueError]: the Unicode errors are subclasses of it. *)
Definition is_ValueError (e : exn) : bool :=
  match e with
  | ValueError _ | UnicodeDecodeError | UnicodeEncodeError => true
  | _ => false
  end.

Definition is_UnicodeDecodeError (e : exn) : bool :=
  match e with
  | UnicodeDecodeError => true
  | _ => false
  end.

(** The control characters of the protocol, as code points. *)
Definition cESC : N := 27.
Definition cFS : N := 28.
Definition cQM : N := 63.

(** ** msre206_cc.py (msre206_v0.2.py has the same codec functions) *)

Module Msre206_cc.

Definition DEFAULT_TIMEOUT : Q := (5 # 1)%Q.

Definition connect_device : M (option Serial) :=
  r <- serial_open ;;
  match r with
  | inr device =>
    print (py "Device connected successfully.") ;;
    ret (Some device)
  | inl e =>
    print (py "Connection error: " ++ e) ;;
    ret None
  end.

Definition send_command (device : option Serial) (command : str) : M bytes :=
  match device with
  | Some d =>
    e <- lift (encode command) ;;
    print (py "Sending command: " ++ hex e) ;;
    e <- lift (encode command) ;;
    device_write d e ;;
    time_sleep (1 # 10)%Q ;;
    response <- device_read_all d ;;
    print (py "Raw response: " ++ hex response) ;;
    ret response
  | None => ret []
  end.

Definition status_codes : list (bytes * str) :=
  [ ([x30], py "Operation successful.");
    ([x31], py "Write or read error.");
    ([x32], py "Command format error.");
    ([x34], py "Invalid command.");
    ([x39], py "Invalid card swipe when in write mode.") ].

Definition parse_response (response : bytes) : M str :=
  if startswith [ESC] response && endswith [ESC; x30] response then
    print (py "Response ends with status byte " ++ [cESC]
           ++ py "0, indicating success.") ;;
    ret (py "Operation successful.")
  else if startswith [ESC] response && (2 <? List.length response)%nat then
    let status := last_slice response in
    print (py "Parsed status: " ++ bytes_repr status) ;;
    ret (bytes_dict_get status_codes status (py "Unknown status: " ++ hex status))
  else
    print (py "No valid response received.") ;;
    ret (py "No valid response received.").

(** The [while] loop of [read_until_complete]; [fuel] bounds the number of
    iterations the model follows. *)
Fixpoint read_loop (fuel : nat) (device : Serial) (start_time timeout : Q)
    (data : bytes) : M bytes :=
  match fuel with
  | O => diverge
  | S fuel' =>
    now <- time_time ;;
    if Qltb (now - start_time)%Q timeout then
      chunk <- device_read device 1024 ;;
      match chunk with
      | _ :: _ =>
        print (py "Read chunk: " ++ hex chunk) ;;
        read_loop fuel' device start_time timeout (data ++ chunk)
      | [] => ret data
      end
    else ret data
  end.

Definition read_until_complete (fuel : nat) (device : Serial) : M bytes :=
  let data := [] in
  let timeout := DEFAULT_TIMEOUT in
  start_time <- time_time ;;
  read_loop fuel device start_time timeout data.

(** The set [[^\x1B[^\x20-\x7E]] of the cleaning pattern: everything but
    ESC, the bracket, the caret and the range from space to tilde. *)
Definition in_pattern_set (c : N) : bool :=
  negb ((c =? 27)%N || (c =? 91)%N || (c =? 94)%N || in_range 32 126 c).

(** [re.sub(r'\x1B[^\x1B[^\x20-\x7E]*', '', s)]: every ESC is removed with
    the longest run of characters of the set that follows it.  [in_match]
    tells that such a run is being consumed. *)
Fixpoint re_sub_control (in_match : bool) (s : str) : str :=
  match s with
  | [] => []
  | c :: r =>
    if (c =? cESC)%N then re_sub_control true r
    else if in_match && in_pattern_set c then re_sub_control true r
    else c :: re_sub_control false r
  end.

(** The command strings of [read_card] (line 73) and [write_card]
    (line 113). *)
Definition read_command : str := [cESC] ++ py "r".

Definition write_command (track1 track2 track3 : str) : str :=
  [cESC] ++ py "w" ++ [cESC] ++ py "s" ++ [cESC; 1%N] ++ track1
  ++ [cESC; 2%N] ++ track2 ++ [cESC; 3%N] ++ track3 ++ py "?" ++ [cFS].

(** Lines 76 to 98 of [read_card]: what is done with the response. *)
Definition read_card_response (response : bytes) : M unit :=
  match response with
  | _ :: _ =>
    print (py "Raw Response: " ++ bytes_repr response) ;;
    try_except
      (decoded_response <-
         match decode response with
         | Some s => ret s
         | None => raise UnicodeDecodeError
         end ;;
       print (py "Decoded response: " ++ decoded_response) ;;
       let cleaned_response := re_sub_control false decoded_response in
       print (py "Cleaned response: " ++ cleaned_response) ;;
       let tracks := split cQM cleaned_response in
       when (1 <=? List.length tracks)%nat
         (t <- lift (getitem tracks 0) ;; modify (set_track1 (strip t))) ;;
       when (2 <=? List.length tracks)%nat
         (t <- lift (getitem tracks 1) ;; modify (set_track2 (strip t))) ;;
       when (3 <=? List.length tracks)%nat
         (t <- lift (getitem tracks 2) ;; modify (set_track3 (strip t))))
      is_UnicodeDecodeError
      (fun _ => print (py "Failed to decode the response. Raw data: "
                       ++ hex response))
  | [] => print (py "No data received from the card.")
  end.

Definition read_card (fuel : nat) : M unit :=
  device <- connect_device ;;
  match device with
  | None => ret tt
  | Some d =>
    print (py "Please swipe your card.") ;;
    _ <- send_command (Some d) read_command ;;
    response <- read_until_complete fuel d ;;
    read_card_response response ;;
    device_close d
  end.

Definition write_card : M unit :=
  device <- connect_device ;;
  match device with
  | None => ret tt
  | Some d =>
    print (py "Please swipe your card for writing.") ;;
    track1 <- get track1_var ;;
    track2 <- get track2_var ;;
    track3 <- get track3_var ;;
    let command := write_command track1 track2 track3 in
    e <- lift (encode command) ;;
    print (py "Write command: " ++ hex e) ;;
    response <- send_command (Some d) command ;;
    status_message <- parse_response response ;;
    (if str_contains (py "successful") status_message
     then print (py "Data written successfully.")
     else print (py "Error: " ++ status_message)) ;;
    device_close d
  end.

Definition prefixes : dict (list str) :=
  [ (py "Visa", [py "4"]);
    (py "MasterCard", map py ["51"; "52"; "53"; "54"; "55"]%string);
    (py "American Express", map py ["34"; "37"]%string);
    (py "Discover",
     map py ["6011"; "622126"; "622127"; "622128"; "622129"; "62213";
             "62214"; "62215"; "62216"; "62217"; "62218"; "62219"; "6222";
             "6223"; "6224"; "6225"; "6226"; "6227"; "6228"; "62290";
             "62291"; "622920"; "622921"; "622922"; "622923"; "622924";
             "622925"]%string) ].

Definition lengths : dict Z :=
  [ (py "Visa", 16%Z); (py "MasterCard", 16%Z);
    (py "American Express", 15%Z); (py "Discover", 16%Z) ].

(** The body of [generate_credit_card] after line 140, for the card type
    that line assigns. *)
Definition generate_credit_card_of (card_type : str) : M unit :=
  choices <- lift (dict_getitem prefixes card_type) ;;
  prefix <- random_choice choices ;;
  length <- lift (dict_getitem lengths card_type) ;;
  let remaining_length := (length - Z.of_nat (List.length prefix) - 1)%Z in
  digits <- join_range (Z.to_nat remaining_length)
              (c <- random_choice (py "0123456789") ;; ret [c]) ;;
  let partial_number := prefix ++ digits in
  card_number <- lift (Luhn.append partial_number) ;;
  valid <- lift (Luhn.verify card_number) ;;
  if valid then
    let name := py "CARDHOLDER" in
    yy <- random_randint 23 30 ;;
    mm <- random_randint 1 12 ;;
    let expiry := format_02 yy ++ format_02 mm in
    let service_code := py "101" in
    let track1 := py "%B" ++ card_number ++ py "^" ++ name ++ py "/" ++ expiry
                  ++ py "^" ++ service_code ++ py "?" in
    let track2 := py ";" ++ card_number ++ py "=" ++ expiry ++ service_code
                  ++ py "?" in
    modify (set_track1 track1) ;;
    modify (set_track2 track2) ;;
    print (py "Generated Credit Card:") ;;
    print (py "Card Number: " ++ card_number) ;;
    print (py "Track 1: " ++ track1) ;;
    print (py "Track 2: " ++ track2)
  else
    print (py "Failed to generate valid credit card data.").

Definition generate_credit_card : M unit :=
  let card_type := py "Visa" in
  generate_credit_card_of card_type.

(** The command strings of [read_raw_data] (line 171), [write_raw_data]
    (line 189), [set_lo_co] (line 207), [set_hi_co] (line 222) and
    [reset_device] (line 237). *)
Definition read_raw_command : str := [cESC] ++ py "m".

Definition write_raw_command (raw_data : str) : str :=
  [cESC] ++ py "n" ++ raw_data ++ [cFS].

Definition lo_co_command : str := [cESC] ++ py "y".
Definition hi_co_command : str := [cESC] ++ py "x".
Definition reset_command : str := [cESC] ++ py "a".

Definition read_raw_data (fuel : nat) : M unit :=
  device <- connect_device ;;
  match device with
  | None => ret tt
  | Some d =>
    _ <- send_command (Some d) read_raw_command ;;
    response <- read_until_complete fuel d ;;
    match response with
    | _ :: _ =>
      print (py "Raw Response: " ++ bytes_repr response) ;;
      modify (set_raw_data (hex response))
    | [] => print (py "No data received from the card.")
    end ;;
    device_close d
  end.

Definition write_raw_data : M unit :=
  device <- connect_device ;;
  match device with
  | None => ret tt
  | Some d =>
    raw_data <- get raw_data_var ;;
    let command := write_raw_command raw_data in
    e <- lift (encode command) ;;
    print (py "Write raw data command: " ++ hex e) ;;
    response <- send_command (Some d) command ;;
    status_message <- parse_response response ;;
    (if str_contains (py "successful") status_message
     then print (py "Raw data written successfully.")
     else print (py "Error: " ++ status_message)) ;;
    device_close d
  end.

Definition set_lo_co : M unit :=
  device <- connect_device ;;
  match device with
  | None => ret tt
  | Some d =>
    response <- send_command (Some d) lo_co_command ;;
    status_message <- parse_response response ;;
    (if str_contains (py "successful") status_message
     then print (py "Set to LO-CO successfully.")
     else print (py "Error: " ++ status_message)) ;;
    device_close d
  end.

Definition set_hi_co : M unit :=
  device <- connect_device ;;
  match device with
  | None => ret tt
  | Some d =>
    response <- send_command (Some d) hi_co_command ;;
    status_message <- parse_response response ;;
    (if str_contains (py "successful") status_message
     then print (py "Set to HI-CO successfully.")
     else print (py "Error: " ++ status_message)) ;;
    device_close d
  end.

Definition reset_device : M unit :=
  device <- connect_device ;;
  match device with
  | None => ret tt
  | Some d =>
    response <- send_command (Some d) reset_command ;;
    match response with
    | _ :: _ => print (py "Device reset successfully.")
    | [] => print (py "Failed to reset the device.")
    end ;;
    device_close d
  end.

End Msre206_cc.

(** ** msre206_debug.py *)

Module Msre206_debug.

Definition log_debug_message (message : str) : M unit := print message.

Definition connect_device : M (option Serial) :=
  r <- serial_open ;;
  match r with
  | inr device =>
    log_debug_message (py "Device connected successfully.") ;;
    ret (Some device)
  | inl e =>
    log_debug_message (py "Connection error: " ++ e) ;;
    ret None
  end.

Definition send_command (device : option Serial) (command : str) : M bytes :=
  match device with
  | Some d =>
    e <- lift (encode command) ;;
    log_debug_message (py "Sending command: " ++ hex e) ;;
    e <- lift (encode command) ;;
    device_write d e ;;
    time_sleep (1 # 10)%Q ;;
    response <- device_read_all d ;;
    log_debug_message (py "Raw response: " ++ hex response) ;;
    ret response
  | None => ret []
  end.

Definition status_codes : list (bytes * str) :=
  [ ([x30], py "Operation successful.");
    ([x31], py "Write or read error.");
    ([x32], py "Command format error.");
    ([x34], py "Invalid command.");
    ([x39], py "Invalid card swipe when in write mode.") ].

Definition parse_response (response : bytes) : M str :=
  if startswith [ESC] response && endswith [ESC; x30] response then
    log_debug_message (py "Response ends with status byte " ++ [cESC]
                       ++ py "0, indicating success.") ;;
    ret (py "Operation successful.")
  else if startswith [ESC] response && (2 <? List.length response)%nat then
    let status := last_slice response in
    log_debug_message (py "Parsed status: " ++ bytes_repr status) ;;
    ret (bytes_dict_get status_codes status (py "Unknown status: " ++ hex status))
  else
    log_debug_message (py "No valid response received.") ;;
    ret (py "No valid response received.").

Definition prefixes : dict (list str) :=
  [ (py "visa", [py "4"]);
    (py "mastercard", map py ["51"; "52"; "53"; "54"; "55"]%string);
    (py "american_express", map py ["34"; "37"]%string);
    (py "discover", map py ["6011"; "65"]%string) ].

(** The generator expression of lines 89 and 90, with its [% 10]. *)
Definition checksum_of (card_number : str) : pure Z :=
  pbind
    (pmap (fun id : nat * N =>
             let (i, d) := id in
             if (i mod 2 =? 0)%nat then int_of_char d
             else pbind (int_of_char d) (fun v => Ok (sum_divmod10 (v * 2))))
          (enumerate_reversed card_number))
    (fun terms => Ok (zsum terms mod 10)%Z).

(** Lines 89 to 91: the check digit is computed and appended. *)
Definition append_check_digit (card_number : str) : pure str :=
  pbind (checksum_of card_number) (fun checksum =>
  Ok (card_number ++ str_of_int ((10 - checksum) mod 10))).

(** The [while True] loop of [generate_credit_card]; [fuel] bounds the
    number of rounds the model follows. *)
Fixpoint generate_loop (fuel : nat) (prefix : str) (length : Z) : M str :=
  match fuel with
  | O => diverge
  | S fuel' =>
    digits <- join_range
                (Z.to_nat (length - Z.of_nat (List.length prefix) - 1))
                (d <- random_randint 0 9 ;; ret (str_of_int d)) ;;
    let card_number := prefix ++ digits in
    card_number <- lift (append_check_digit card_number) ;;
    valid <- lift (Luhn.verify card_number) ;;
    if valid then ret card_number
    else generate_loop fuel' prefix length
  end.

Definition generate_credit_card (fuel : nat) (card_type : str) : M str :=
  match dict_find prefixes card_type with
  | None => raise (ValueError (py "Unsupported card type."))
  | Some _ =>
    choices <- lift (dict_getitem prefixes card_type) ;;
    prefix <- random_choice choices ;;
    let length :=
      if negb (str_eqb card_type (py "american_express")) then 16%Z else 15%Z in
    generate_loop fuel prefix length
  end.

Definition generate_card_tracks (card_number card_type : str) : str * str :=
  let name := py "CARDHOLDER/NAME" in
  let expiration_date := py "2512" in
  let service_code := py "101" in
  let track1 := py "%B" ++ card_number ++ py "^" ++ name ++ py "^"
                ++ expiration_date ++ service_code ++ py "?" in
  let track2 := py ";" ++ card_number ++ py "=" ++ expiration_date
                ++ service_code ++ py "?" in
  (track1, track2).

(** The command strings of [write_card_with_generated_number] (line 121)
    and [write_card] (line 180). *)
Definition generated_write_command (track1 track2 : str) : str :=
  [cESC] ++ py "w" ++ [cESC] ++ py "s" ++ [cESC; 1%N] ++ track1
  ++ [cESC; 2%N] ++ track2 ++ [cFS].

Definition write_command (track1 track2 track3 : str) : str :=
  [cESC] ++ py "w" ++ [cESC] ++ py "s" ++ [cESC; 1%N] ++ track1
  ++ [cESC; 2%N] ++ track2 ++ [cESC; 3%N] ++ track3 ++ py "?" ++ [cFS].

Definition write_card_with_generated_number (fuel : nat) : M unit :=
  v <- get card_type_var ;;
  let card_type := lower v in
  try_except
    (card_number <- generate_credit_card fuel card_type ;;
     log_debug_message (py "Generated " ++ capitalize card_type
                        ++ py " card number: " ++ card_number) ;;
     let (track1, track2) := generate_card_tracks card_number card_type in
     modify (set_track1 track1) ;;
     modify (set_track2 track2) ;;
     device <- connect_device ;;
     match device with
     | None => ret tt
     | Some d =>
       let command := generated_write_command track1 track2 in
       e <- lift (encode command) ;;
       log_debug_message (py "Write command: " ++ hex e) ;;
       response <- send_command (Some d) command ;;
       status_message <- parse_response response ;;
       (if str_contains (py "successful") status_message
        then log_debug_message (py "Card number written successfully.")
        else log_debug_message (py "Error: " ++ status_message)) ;;
       device_close d
     end)
    is_ValueError
    (fun e => log_debug_message (py "Error: " ++ exn_str e)).

Definition write_card : M unit :=
  device <- connect_device ;;
  match device with
  | None => ret tt
  | Some d =>
    log_debug_message (py "Please swipe your card for writing.") ;;
    track1 <- get track1_var ;;
    track2 <- get track2_var ;;
    track3 <- get track3_var ;;
    let command := write_command track1 track2 track3 in
    e <- lift (encode command) ;;
    log_debug_message (py "Write command: " ++ hex e) ;;
    response <- send_command (Some d) command ;;
    status_message <- parse_response response ;;
    (if str_contains (py "successful") status_message
     then log_debug_message (py "Data written successfully.")
     else log_debug_message (py "Error: " ++ status_message)) ;;
    device_close d
  end.

(** The [while] loop of [read_until_complete]; [fuel] bounds the number of
    iterations the model follows. *)
Fixpoint read_loop (fuel : nat) (device : Serial) (start_time timeout : Q)
    (data : bytes) : M bytes :=
  match fuel with
  | O => diverge
  | S fuel' =>
    now <- time_time ;;
    if Qltb (now - start_time)%Q timeout then
      chunk <- device_read device 1024 ;;
      match chunk with
      | _ :: _ =>
        log_debug_message (py "Read chunk: " ++ hex chunk) ;;
        read_loop fuel' device start_time timeout (data ++ chunk)
      | [] => ret data
      end
    else ret data
  end.

Definition read_until_complete (fuel : nat) (device : Serial) : M bytes :=
  let data := [] in
  let timeout := Msre206_cc.DEFAULT_TIMEOUT in
  start_time <- time_time ;;
  read_loop fuel device start_time timeout data.

(** The set of the cleaning pattern of line 152,
    [[^\u00e2\u203ax1B[^\x1B[^ x1B[^\x20-\x7E]]: everything but the two
    characters U+00E2 and U+203A that the source file holds there, ESC, and
    the range from space to tilde (which has the letters, the digit, the
    bracket, the caret and the space the set spells out). *)
Definition in_pattern_set (c : N) : bool :=
  negb ((c =? 226)%N || (c =? 8250)%N || (c =? 120)%N || (c =? 49)%N
        || (c =? 66)%N || (c =? 91)%N || (c =? 94)%N || (c =? 27)%N
        || (c =? 32)%N || in_range 32 126 c).

(** [re.sub] with the pattern of line 152: every ESC is removed with the
    longest run of characters of the set that follows it. *)
Fixpoint re_sub_control (in_match : bool) (s : str) : str :=
  match s with
  | [] => []
  | c :: r =>
    if (c =? cESC)%N then re_sub_control true r
    else if in_match && in_pattern_set c then re_sub_control true r
    else c :: re_sub_control false r
  end.

Definition read_command : str := [cESC] ++ py "r".

(** Lines 146 to 165 of [read_card]: what is done with the response. *)
Definition read_card_response (response : bytes) : M unit :=
  match response with
  | _ :: _ =>
    log_debug_message (py "Raw Response: " ++ bytes_repr response) ;;
    try_except
      (decoded_response <-
         match decode response with
         | Some s => ret s
         | None => raise UnicodeDecodeError
         end ;;
       log_debug_message (py "Decoded response: " ++ decoded_response) ;;
       let cleaned_response := re_sub_control false decoded_response in
       log_debug_message (py "Cleaned response: " ++ cleaned_response) ;;
       let tracks := split cQM cleaned_response in
       when (1 <=? List.length tracks)%nat
         (t <- lift (getitem tracks 0) ;; modify (set_track1 (strip t))) ;;
       when (2 <=? List.length tracks)%nat
         (t <- lift (getitem tracks 1) ;; modify (set_track2 (strip t))) ;;
       when (3 <=? List.length tracks)%nat
         (t <- lift (getitem tracks 2) ;; modify (set_track3 (strip t))))
      is_UnicodeDecodeError
      (fun _ => log_debug_message
                  (py "Failed to decode the response. Raw data: "
                   ++ hex response))
  | [] => log_debug_message (py "No data received from the card.")
  end.

Definition read_card (fuel : nat) : M unit :=
  device <- connect_device ;;
  match device with
  | None => ret tt
  | Some d =>
    log_debug_message (py "Please swipe your card.") ;;
    _ <- send_command (Some d) read_command ;;
    response <- read_until_complete fuel d ;;
    read_card_response response ;;
    device_close d
  end.

End Msre206_debug.

(** ** Worlds for the examples *)

(** The state at start-up: empty variables, the card type menu on visa, a
    port that opens, a silent device, a clock that advances by one second
    per reading and random draws that are all zero. *)
Definition world0 : world :=
  mkWorld [] [] [] [] (py "visa") [] None [] (fun _ => []) 0
          (fun n => inject_Z (Z.of_nat n)) 0 (fun _ => 0) 0.


Definition with_tracks (t1 t2 t3 : str) (w : world) : world :=
  set_track3 t3 (set_track2 t2 (set_track1 t1 w)).

Definition with_rnd (tape : nat -> nat) (w : world) : world :=
  mkWorld (track1_var w) (track2_var w) (track3_var w) (raw_data_var w)
    (card_type_var w) (out w) (port_fault w) (written w) (rx w) (rx_pos w)
    (clock w) (clock_pos w) tape 0.

(** The bytes of an ASCII literal. *)
Definition ascii_bytes (s : string) : bytes :=
  map (fun a => byte_of_N (N_of_ascii a)) (list_ascii_of_string s).

(** The value a run returned, if it returned. *)
Definition value_of {A} (r : res A) : option A :=
  match r with
  | Val a _ => Some a
  | _ => None
  end.

(** ** The specification's view *)

(** The outcome variants of a status reply. *)
Inductive ResponseOutcome : Type :=
| Success
| ReadWriteError
| FormatError
| InvalidCommand
| InvalidSwipeInWriteMode
| UnknownStatus (b : byte)
| NoResponse.

(** The message [parse_response] returns for each variant. *)
Definition message (o : ResponseOutcome) : str :=
  match o with
  | Success => py "Operation successful."
  | ReadWriteError => py "Write or read error."
  | FormatError => py "Command format error."
  | InvalidCommand => py "Invalid command."
  | InvalidSwipeInWriteMode => py "Invalid card swipe when in write mode."
  | UnknownStatus b => py "Unknown status: " ++ hex [b]
  | NoResponse => py "No valid response received."
  end.

Definition starts_with_esc (r : bytes) : bool :=
  match r with
  | b :: _ => Byte.eqb b x1b
  | [] => false
  end.

Fixpoint ends_with_esc_zero (r : bytes) : bool :=
  match r with
  | [] => false
  | [_] => false
  | [a; b] => Byte.eqb a x1b && Byte.eqb b x30
  | _ :: t => ends_with_esc_zero t
  end.

Definition status_table (b : byte) : ResponseOutcome :=
  match b with
  | x30 => Success
  | x31 => ReadWriteError
  | x32 => FormatError
  | x34 => InvalidCommand
  | x39 => InvalidSwipeInWriteMode
  | _ => UnknownStatus b
  end.

(** The three ordered rules of the specification. *)
Definition classify (r : bytes) : ResponseOutcome :=
  if starts_with_esc r && ends_with_esc_zero r then Success
  else if starts_with_esc r && (2 <? List.length r)%nat
       then status_table (last r x00)
  else NoResponse.

(** The supported brands, their names in the two scripts and the length the
    specification expects of their numbers. *)
Inductive Brand : Type := Visa | MasterCard | AmericanExpress | Discover.

Definition expected_length (b : Brand) : nat :=
  match b with
  | AmericanExpress => 15
  | _ => 16
  end.

Definition cc_name (b : Brand) : str :=
  match b with
  | Visa => py "Visa"
  | MasterCard => py "MasterCard"
  | AmericanExpress => py "American Express"
  | Discover => py "Discover"
  end.

Definition debug_name (b : Brand) : str :=
  match b with
  | Visa => py "visa"
  | MasterCard => py "mastercard"
  | AmericanExpress => py "american_express"
  | Discover => py "discover"
  end.

(** A string of ASCII digits. *)
Definition is_digit (c : N) : bool := in_range 48 57 c.
Definition all_digits (s : str) : bool := forallb is_digit s.

(** The value of an ASCII digit. *)
Definition digit_value (c : N) : Z := (Z.of_N c - 48)%Z.

(** The weighted sum of the digits [r], listed from the right, of a number
    whose check digit is still to be put in front of them. *)
Definition luhn_weight (r : list Z) : Z :=
  (zsum (every_other (tl r))
   + zsum (map (fun d => sum_divmod10 (2 * d)) (every_other r)))%Z.

(** A string of ASCII characters. *)
Definition all_ascii (s : str) : bool := forallb (fun c => (c <? 128)%N) s.

(** The frame of the generate-and-write path, for ASCII tracks. *)
Definition generated_frame (t1 t2 : str) : bytes :=
  [x1b; x77; x1b; x73; x1b; x01] ++ map byte_of_N t1 ++ [x1b; x02]
  ++ map byte_of_N t2 ++ [x1c].

(** What the [i]-th poll of a run of [read_until_complete] started in [w]
    returns, and the time elapsed when the loop tests its condition before
    that poll. *)
Definition poll (w : world) (i : nat) : bytes :=
  firstn 1024 (rx w (rx_pos w + i)).

Definition elapsed (w : world) (i : nat) : Q :=
  (clock w (clock_pos w + 1 + i) - clock w (clock_pos w))%Q.

(** A computation that never lets an exception reach its caller. *)
Definition no_raise {A} (m : M A) : Prop :=
  forall w e w', m w <> Exc e w'.

(** [m] leaves the component [f] of the world as it found it. *)
Definition keeps {X A} (f : world -> X) (m : M A) : Prop :=
  forall w, match m w with
            | Val _ w' => f w' = f w
            | Exc _ w' => f w' = f w
            | Div => True
            end.

(** A component that none of the updates but [set_written] touches. *)
Record Stable {X} (f : world -> X) : Prop := mkStable {
  st_out : forall v w, f (set_out v w) = f w;
  st_track1 : forall v w, f (set_track1 v w) = f w;
  st_track2 : forall v w, f (set_track2 v w) = f w;
  st_track3 : forall v w, f (set_track3 v w) = f w;
  st_rx_pos : forall v w, f (set_rx_pos v w) = f w;
  st_clock_pos : forall v w, f (set_clock_pos v w) = f w;
  st_rnd_pos : forall v w, f (set_rnd_pos v w) = f w
}.

(** ** Tapes of random draws *)

(** The tape that yields the draws of [l], then zeros. *)
Definition tape_of (l : list nat) : nat -> nat := fun n => nth n l 0.

(** A tape on which the first round of the debug generator succeeds. *)
Definition lucky_tape (b : Brand) : nat -> nat :=
  match b with
  | Visa => tape_of [0; 0; 0; 0; 0; 0; 0; 0; 0; 0; 0; 0; 0; 0; 5]
  | MasterCard => tape_of [0; 0; 0; 0; 0; 0; 0; 0; 0; 0; 0; 0; 1; 5]
  | AmericanExpress => tape_of [0; 0; 0; 0; 0; 0; 0; 0; 0; 0; 0; 0; 8]
  | Discover => tape_of [0; 0; 0; 0; 0; 0; 0; 0; 0; 0; 0; 3]
  end.

(** A device that answers the command with AB, then sends C and falls
    silent; the clock advances by one second per reading. *)
Definition world_chunks : world :=
  mkWorld [] [] [] [] (py "visa") [] None []
          (fun n => nth n [[x41; x42]; [x43]] []) 0
          (fun n => inject_Z (Z.of_nat n)) 0 (fun _ => 0) 0.

(** A device that always has a byte to send; the clock advances by two
    seconds per reading. *)
Definition world_busy : world :=
  mkWorld [] [] [] [] (py "visa") [] None []
          (fun _ => [x41]) 0
          (fun n => inject_Z (2 * Z.of_nat n)) 0 (fun _ => 0) 0.

(** ** Definitions for the further properties *)

(** The line a status operation prints after the exchange: its success
    message when the reply is classified Success, the error line with the
    status message otherwise. *)
Definition report (ok_msg : str) (reply : bytes) : str :=
  match classify reply with
  | Success => ok_msg
  | o => py "Error: " ++ message o
  end.

(** The Tk variables of [w'] hold what they hold in [w]. *)
Definition same_vars (w w' : world) : Prop :=
  track1_var w' = track1_var w /\ track2_var w' = track2_var w
  /\ track3_var w' = track3_var w /\ raw_data_var w' = raw_data_var w
  /\ card_type_var w' = card_type_var w.

(** What the [i]-th poll of [read_raw_data] started in [w] returns: the
    command has taken the reply that was pending, so the polls start one
    entry further in the script of the device. *)
Definition raw_poll (w : world) (i : nat) : bytes :=
  firstn 1024 (rx w (S (rx_pos w) + i)).

(** The printable ASCII characters, from space to tilde. *)
Definition is_printable (c : N) : bool := in_range 32 126 c.

(** The code points a Python [str] can be encoded from: below 0x110000 and
    no surrogate. *)
Definition valid_cp (c : N) : bool := (c <? 1114112)%N && negb (is_surrogate c).
Definition valid_str (s : str) : bool := forallb valid_cp s.

(** The world after a failed attempt to open the port. *)
Definition connection_error (msg : str) (w : world) : world :=
  set_out (out w ++ [py "Connection error: " ++ msg]) w.

(** The start-up state with a port that does not open. *)
Definition world_no_port : world :=
  mkWorld [] [] [] [] (py "visa") [] (Some (py "could not open port")) []
          (fun _ => []) 0 (fun n => inject_Z (Z.of_nat n)) 0 (fun _ => 0) 0.

(** The start-up state with a card type the generator does not know. *)
Definition world_diners : world :=
  mkWorld [] [] [] [] (py "Diners") [] None []
          (fun _ => []) 0 (fun n => inject_Z (Z.of_nat n)) 0 (fun _ => 0) 0.

(** * Properties *)

(** ** Lists, sums and the error monad *)

Lemma zsum_cons (a : Z) (l : list Z) : zsum (a :: l) = (a + zsum l)%Z.
Proof.
  unfold zsum. simpl.
  assert (G : forall l x y, fold_left Z.add l (x + y)%Z = (x + fold_left Z.add l y)%Z).
  { clear. induction l as [|b l IH]; intros x y; simpl.
    - reflexivity.
    - rewrite <- Z.add_assoc. apply IH. }
  change (0 + a)%Z with a. rewrite <- (Z.add_0_r a) at 1. apply G.
Qed.

Lemma every_other_cons {A} (a : A) (l : list A) :
  every_other (a :: l) = a :: every_other (tl l).
Proof. destruct l; reflexivity. Qed.

Lemma pmap_app {A B} (f : A -> pure B) (l1 l2 : list A) :
  pmap f (l1 ++ l2)
  = pbind (pmap f l1) (fun a => pbind (pmap f l2) (fun b => Ok (a ++ b))).
Proof.
  induction l1 as [|x l1 IH]; simpl.
  - destruct (pmap f l2); reflexivity.
  - destruct (f x) as [b|e]; simpl; [idtac | reflexivity].
    rewrite IH. destruct (pmap f l1); simpl; [idtac | reflexivity].
    destruct (pmap f l2); reflexivity.
Qed.

Lemma int_of_digit (c : N) : is_digit c = true -> int_of_char c = Ok (digit_value c).
Proof. unfold int_of_char, is_digit. intros ->. reflexivity. Qed.

Lemma pmap_int_digits (s : str) :
  all_digits s = true -> pmap int_of_char s = Ok (map digit_value s).
Proof.
  induction s as [|c s IH]; simpl; intros H.
  - reflexivity.
  - apply andb_prop in H. destruct H as [Hc Hs].
    rewrite (int_of_digit c Hc). simpl. rewrite (IH Hs). reflexivity.
Qed.

Lemma digit_value_range (c : N) :
  is_digit c = true -> (0 <= digit_value c < 10)%Z.
Proof.
  unfold is_digit, in_range, digit_value. intros H.
  apply andb_prop in H. destruct H as [H1 H2].
  apply N.leb_le in H1. apply N.leb_le in H2. lia.
Qed.

Lemma str_of_int_digit (g : Z) :
  (0 <= g < 10)%Z -> str_of_int g = [(48 + Z.to_N g)%N].
Proof.
  intros H.
  assert (C : (g = 0 \/ g = 1 \/ g = 2 \/ g = 3 \/ g = 4 \/ g = 5 \/ g = 6
               \/ g = 7 \/ g = 8 \/ g = 9)%Z) by lia.
  repeat (destruct C as [-> | C]; [reflexivity | idtac]). subst g. reflexivity.
Qed.

Lemma digit_of_int (g : Z) :
  (0 <= g < 10)%Z ->
  is_digit (48 + Z.to_N g)%N = true /\ digit_value (48 + Z.to_N g)%N = g.
Proof.
  intros H. unfold is_digit, in_range, digit_value. split.
  - apply andb_true_intro. split; apply N.leb_le; lia.
  - lia.
Qed.

(** ** The [luhn] package: a number extended by [append] passes [verify] *)

Lemma all_digits_app (a b : str) :
  all_digits (a ++ b) = all_digits a && all_digits b.
Proof. apply forallb_app. Qed.

Lemma checksum_snoc (s : str) (c : N) :
  all_digits s = true -> is_digit c = true ->
  Luhn.checksum (s ++ [c])
  = Ok ((digit_value c + luhn_weight (rev (map digit_value s))) mod 10)%Z.
Proof.
  intros Hs Hc. unfold Luhn.checksum.
  rewrite pmap_int_digits.
  2:{ rewrite all_digits_app, Hs. simpl. rewrite Hc. reflexivity. }
  unfold pbind, slice_m1_m2, slice_m2_m2, luhn_weight.
  rewrite map_app, rev_app_distr. cbn [map rev app tl].
  rewrite every_other_cons, zsum_cons.
  f_equal. f_equal. lia.
Qed.

Lemma check_digit_cancels (t : Z) :
  (((10 - t mod 10) mod 10 + t) mod 10 = 0)%Z.
Proof.
  rewrite Z.add_mod_idemp_l by lia.
  pose proof (Z.div_mod t 10 ltac:(lia)) as D.
  replace (10 - t mod 10 + t)%Z with ((1 + t / 10) * 10)%Z by lia.
  apply Z.mod_mul. lia.
Qed.

Lemma luhn_append_verify (s : str) :
  all_digits s = true ->
  exists c, is_digit c = true /\ Luhn.append s = Ok (s ++ [c])
            /\ Luhn.verify (s ++ [c]) = Ok true.
Proof.
  intros Hs.
  set (t := luhn_weight (rev (map digit_value s))).
  set (g := ((10 - t mod 10) mod 10)%Z).
  assert (Hg : (0 <= g < 10)%Z) by (apply Z.mod_pos_bound; lia).
  destruct (digit_of_int g Hg) as [Hd Hv].
  exists (48 + Z.to_N g)%N. split; [exact Hd | idtac].
  assert (G : Luhn.generate s = Ok g).
  { unfold Luhn.generate. change (py "0") with [48%N].
    rewrite (checksum_snoc s 48%N Hs eq_refl). unfold pbind.
    change (digit_value 48) with 0%Z. rewrite Z.add_0_l.
    fold t. reflexivity. }
  split.
  - unfold Luhn.append. rewrite G. unfold pbind. rewrite (str_of_int_digit g Hg).
    reflexivity.
  - unfold Luhn.verify. rewrite (checksum_snoc s _ Hs Hd). unfold pbind.
    rewrite Hv. fold t. unfold g. rewrite check_digit_cancels. reflexivity.
Qed.

(** Projections of updated worlds. *)
Ltac world_simpl :=
  cbn [track1_var track2_var track3_var raw_data_var card_type_var out
       port_fault written rx rx_pos clock clock_pos rnd rnd_pos
       set_track1 set_track2 set_track3 set_out set_written set_rx_pos
       set_clock_pos set_rnd_pos].

(** ** Random draws *)

Lemma set_rnd_pos_twice (j k : nat) (w : world) :
  set_rnd_pos k (set_rnd_pos j w) = set_rnd_pos k w.
Proof. reflexivity. Qed.

Lemma random_choice_in {A} (l : list A) (w : world) :
  l <> [] ->
  exists a, In a l /\ random_choice l w = Val a (set_rnd_pos (S (rnd_pos w)) w).
Proof.
  intros Hl. unfold random_choice, bind, draw, getitem.
  assert (Hlt : rnd w (rnd_pos w) mod List.length l < List.length l).
  { apply Nat.mod_upper_bound. destruct l; [congruence | discriminate]. }
  destruct (nth_error l (rnd w (rnd_pos w) mod List.length l)) as [a|] eqn:E.
  - exists a. split; [eapply nth_error_In; exact E | reflexivity].
  - apply nth_error_None in E. lia.
Qed.

Lemma random_randint_val (a b : Z) (w : world) :
  (a <= b)%Z ->
  exists z, (a <= z <= b)%Z
            /\ random_randint a b w = Val z (set_rnd_pos (S (rnd_pos w)) w).
Proof.
  intros H. unfold random_randint, bind, draw, ret.
  eexists. split; [idtac | reflexivity].
  pose proof (Z.mod_pos_bound (Z.of_nat (rnd w (rnd_pos w))) (b - a + 1)
                ltac:(lia)). lia.
Qed.

Lemma join_range_digits (g : M str) :
  (forall w, exists c k, is_digit c = true /\ g w = Val [c] (set_rnd_pos k w)) ->
  forall n w, exists ds k,
    join_range n g w = Val ds (set_rnd_pos k w)
    /\ List.length ds = n /\ all_digits ds = true.
Proof.
  intros Hg. induction n as [|n IH]; intros w.
  - exists [], (rnd_pos w). destruct w; repeat split; reflexivity.
  - destruct (Hg w) as (c & k & Hc & E).
    destruct (IH (set_rnd_pos k w)) as (ds & k' & E' & L & D).
    exists (c :: ds), k'. cbn [join_range]. unfold bind at 1. rewrite E.
    unfold bind at 1. rewrite E'. rewrite set_rnd_pos_twice.
    repeat split.
    + simpl. rewrite L. reflexivity.
    + simpl. rewrite Hc, D. reflexivity.
Qed.

Lemma choice_digit (w : world) :
  exists c k, is_digit c = true
    /\ (c <- random_choice (py "0123456789") ;; ret [c]) w
       = Val [c] (set_rnd_pos k w).
Proof.
  destruct (random_choice_in (py "0123456789") w ltac:(discriminate))
    as (c & Hin & E).
  exists c, (S (rnd_pos w)). split.
  - simpl in Hin.
    repeat (destruct Hin as [<- | Hin]; [reflexivity | idtac]). contradiction.
  - unfold bind. rewrite E. reflexivity.
Qed.

Lemma randint_digit (w : world) :
  exists c k, is_digit c = true
    /\ (d <- random_randint 0 9 ;; ret (str_of_int d)) w
       = Val [c] (set_rnd_pos k w).
Proof.
  destruct (random_randint_val 0 9 w ltac:(lia)) as (z & Hz & E).
  assert (Hz' : (0 <= z < 10)%Z) by lia.
  exists (48 + Z.to_N z)%N, (S (rnd_pos w)). split.
  - apply (digit_of_int z Hz').
  - unfold bind. rewrite E. unfold ret. rewrite (str_of_int_digit z Hz').
    reflexivity.
Qed.

(** ** The check digit of msre206_debug.py *)

Lemma append_check_digit_length (s n : str) :
  Msre206_debug.append_check_digit s = Ok n ->
  List.length n = S (List.length s).
Proof.
  unfold Msre206_debug.append_check_digit.
  destruct (Msre206_debug.checksum_of s) as [c|e]; simpl; [idtac | discriminate].
  intros H. injection H as <-.
  rewrite str_of_int_digit by (apply Z.mod_pos_bound; lia).
  rewrite length_app. simpl. lia.
Qed.

Lemma generate_loop_sound (fuel : nat) (prefix : str) (length : Z) :
  forall w n w',
    Msre206_debug.generate_loop fuel prefix length w = Val n w' ->
    Luhn.verify n = Ok true
    /\ List.length n
       = S (List.length prefix
            + Z.to_nat (length - Z.of_nat (List.length prefix) - 1)).
Proof.
  induction fuel as [|fuel IH]; intros w n w' H.
  - discriminate.
  - cbn [Msre206_debug.generate_loop] in H.
    destruct (join_range_digits _ randint_digit
                (Z.to_nat (length - Z.of_nat (List.length prefix) - 1)) w)
      as (ds & k & E & L & D).
    unfold bind at 1 in H. rewrite E in H.
    unfold bind at 1 in H.
    destruct (Msre206_debug.append_check_digit (prefix ++ ds)) as [cn|e] eqn:EA;
      [idtac | discriminate].
    cbn [lift ret] in H. unfold bind at 1 in H.
    destruct (Luhn.verify cn) as [valid|e] eqn:EV; [idtac | discriminate].
    cbn [lift ret] in H. destruct valid.
    + injection H as <- _. split; [exact EV | idtac].
      rewrite (append_check_digit_length _ _ EA), length_app, L. reflexivity.
    + exact (IH _ _ _ H).
Qed.

(** ** The generator of msre206_cc.py *)

Lemma cc_generate_of (card_type : str) (choices : list str) (len : Z) (total : nat) :
  dict_find Msre206_cc.prefixes card_type = Some choices ->
  dict_find Msre206_cc.lengths card_type = Some len ->
  choices <> [] ->
  (forall p, In p choices ->
     all_digits p = true
     /\ S (List.length p + Z.to_nat (len - Z.of_nat (List.length p) - 1)) = total) ->
  forall w, exists n expiry w',
    Msre206_cc.generate_credit_card_of card_type w = Val tt w'
    /\ Luhn.verify n = Ok true
    /\ List.length n = total
    /\ track1_var w' = py "%B" ++ n ++ py "^CARDHOLDER/" ++ expiry ++ py "^101?"
    /\ track2_var w' = py ";" ++ n ++ py "=" ++ expiry ++ py "101?"
    /\ In (py "Card Number: " ++ n) (out w').
Proof.
  intros HP HL Hne Hall w.
  unfold Msre206_cc.generate_credit_card_of, dict_getitem.
  rewrite HP, HL. cbn [lift]. unfold bind at 1. cbn [ret].
  destruct (random_choice_in choices w Hne) as (p & Hin & E).
  unfold bind at 1. rewrite E.
  unfold bind at 1. cbn [ret].
  destruct (Hall p Hin) as [Dp Lp].
  destruct (join_range_digits _ choice_digit
              (Z.to_nat (len - Z.of_nat (List.length p) - 1))
              (set_rnd_pos (S (rnd_pos w)) w)) as (ds & k & E1 & L1 & D1).
  unfold bind at 1. rewrite E1.
  assert (Dpd : all_digits (p ++ ds) = true)
    by (rewrite all_digits_app, Dp, D1; reflexivity).
  destruct (luhn_append_verify (p ++ ds) Dpd) as (c & Hc & EA & EV).
  rewrite EA. cbn [lift]. unfold bind at 1. cbn [ret].
  rewrite EV. cbn [lift]. unfold bind at 1. cbn [ret].
  destruct (random_randint_val 23 30 (set_rnd_pos k (set_rnd_pos (S (rnd_pos w)) w))
              ltac:(lia)) as (yy & _ & EY).
  unfold bind at 1. rewrite EY. unfold bind at 1.
  match goal with
  | |- context [random_randint 1 12 ?w1] =>
    destruct (random_randint_val 1 12 w1 ltac:(lia)) as (mm & _ & EM)
  end.
  rewrite EM.
  exists ((p ++ ds) ++ [c]), (format_02 yy ++ format_02 mm).
  eexists. split; [reflexivity | idtac].
  split; [exact EV | idtac].
  split.
  { rewrite !length_app, L1. simpl. rewrite <- Lp. lia. }
  unfold print, modify, bind, ret. world_simpl.
  split.
  { cbn. rewrite <- !app_assoc. reflexivity. }
  split.
  { cbn. rewrite <- !app_assoc. reflexivity. }
  rewrite !in_app_iff. left. left. right. left. reflexivity.
Qed.

(** ** C1: generated card numbers *)

Lemma debug_generate_sound (b : Brand) (fuel : nat) (w : world) (n : str) (w' : world) :
  Msre206_debug.generate_credit_card fuel (debug_name b) w = Val n w' ->
  Luhn.verify n = Ok true /\ List.length n = expected_length b.
Proof.
  intros H. unfold Msre206_debug.generate_credit_card, dict_getitem in H.
  destruct (dict_find Msre206_debug.prefixes (debug_name b)) as [choices|] eqn:EF;
    [idtac | discriminate].
  cbn [lift] in H. unfold bind at 1 in H. cbn [ret] in H.
  assert (Hne : choices <> []) by (destruct b; vm_compute in EF; congruence).
  destruct (random_choice_in choices w Hne) as (p & Hin & E).
  unfold bind at 1 in H. rewrite E in H.
  apply generate_loop_sound in H. destruct H as [HV HL].
  split; [exact HV | idtac]. rewrite HL. clear - EF Hin.
  destruct b; vm_compute in EF; injection EF as <-; simpl in Hin;
    repeat (destruct Hin as [<- | Hin]; [reflexivity | idtac]); contradiction.
Qed.

Lemma debug_generate_can_return (b : Brand) (w : world) :
  exists n w',
    Msre206_debug.generate_credit_card 1 (debug_name b) (with_rnd (lucky_tape b) w)
    = Val n w'.
Proof. destruct b; eexists; eexists; vm_compute; reflexivity. Qed.

Lemma cc_generate_brand (b : Brand) (w : world) :
  exists n expiry w',
    Msre206_cc.generate_credit_card_of (cc_name b) w = Val tt w'
    /\ Luhn.verify n = Ok true
    /\ List.length n = expected_length b
    /\ track1_var w' = py "%B" ++ n ++ py "^CARDHOLDER/" ++ expiry ++ py "^101?"
    /\ track2_var w' = py ";" ++ n ++ py "=" ++ expiry ++ py "101?"
    /\ In (py "Card Number: " ++ n) (out w').
Proof.
  destruct (dict_find Msre206_cc.prefixes (cc_name b)) as [choices|] eqn:EP;
    [idtac | destruct b; discriminate].
  destruct (dict_find Msre206_cc.lengths (cc_name b)) as [len|] eqn:EL;
    [idtac | destruct b; discriminate].
  apply (cc_generate_of (cc_name b) choices len (expected_length b) EP EL).
  - destruct b; vm_compute in EP; congruence.
  - intros p Hin.
    destruct b; vm_compute in EP, EL; injection EP as <-; injection EL as <-;
      simpl in Hin;
      repeat (destruct Hin as [<- | Hin]; [split; reflexivity | idtac]);
      contradiction.
Qed.

(** C1: for every supported brand, a number the generator returns passes the
    Luhn verification and has the brand's length (15 digits for American
    Express, 16 for Visa, MasterCard and Discover).  In msre206_debug.py a
    returned number has passed [verify], and for every brand some random
    draws make the generator return; in msre206_cc.py the generator always
    installs a number, and that number passes [verify]. *)
Theorem generated_number_valid :
  (forall b fuel w n w',
     Msre206_debug.generate_credit_card fuel (debug_name b) w = Val n w' ->
     Luhn.verify n = Ok true /\ List.length n = expected_length b)
  /\ (forall b w, exists n w',
        Msre206_debug.generate_credit_card 1 (debug_name b)
          (with_rnd (lucky_tape b) w) = Val n w')
  /\ (forall b w, exists n expiry w',
        Msre206_cc.generate_credit_card_of (cc_name b) w = Val tt w'
        /\ Luhn.verify n = Ok true
        /\ List.length n = expected_length b
        /\ track1_var w' = py "%B" ++ n ++ py "^CARDHOLDER/" ++ expiry ++ py "^101?"
        /\ track2_var w' = py ";" ++ n ++ py "=" ++ expiry ++ py "101?"
        /\ In (py "Card Number: " ++ n) (out w'))
  /\ Msre206_cc.generate_credit_card = Msre206_cc.generate_credit_card_of (cc_name Visa).
Proof.
  split; [exact debug_generate_sound | idtac].
  split; [exact debug_generate_can_return | idtac].
  split; [exact cc_generate_brand | reflexivity].
Qed.

(** The number the debug generator returns on the tape above. *)
Lemma generated_number_valid_witness :
  Luhn.verify (py "4000000000000051") = Ok true
  /\ List.length (py "4000000000000051") = expected_length Visa.
Proof.
  refine (proj1 generated_number_valid Visa 1 (with_rnd (lucky_tape Visa) world0)
            (py "4000000000000051") _ _).
  vm_compute. reflexivity.
Defined.

(** ** C4: the check digit computed by msre206_debug.py *)

Lemma zero_tape_round (fuel k : nat) (w : world) :
  Msre206_debug.generate_loop (S fuel) (py "4") 16
    (set_rnd_pos k (with_rnd (fun _ => 0) w))
  = Msre206_debug.generate_loop fuel (py "4") 16
      (set_rnd_pos (14 + k) (with_rnd (fun _ => 0) w)).
Proof.
  cbn [Msre206_debug.generate_loop].
  unfold bind at 1.
  assert (J : forall n j,
    join_range n (d <- random_randint 0 9 ;; ret (str_of_int d))
      (set_rnd_pos j (with_rnd (fun _ => 0) w))
    = Val (repeat 48%N n) (set_rnd_pos (n + j) (with_rnd (fun _ => 0) w))).
  { induction n as [|n IH]; intros j.
    - reflexivity.
    - cbn [join_range]. unfold bind at 1.
      change ((d <- random_randint 0 9 ;; ret (str_of_int d))
                (set_rnd_pos j (with_rnd (fun _ => 0) w)))
        with (Val (A := str) [48%N] (set_rnd_pos (S j) (with_rnd (fun _ => 0) w))).
      unfold bind at 1. rewrite IH. unfold ret.
      replace (n + S j) with (S n + j) by lia. reflexivity. }
  change (Z.to_nat (16 - Z.of_nat (List.length (py "4")) - 1)) with 14.
  rewrite J. reflexivity.
Qed.

Lemma zero_tape_diverges (fuel k : nat) (w : world) :
  Msre206_debug.generate_loop fuel (py "4") 16
    (set_rnd_pos k (with_rnd (fun _ => 0) w)) = Div.
Proof.
  revert k. induction fuel as [|fuel IH]; intros k.
  - reflexivity.
  - rewrite zero_tape_round. apply IH.
Qed.

(** C4: appending the check digit the generation algorithm computes does not
    always give a number the Luhn verification accepts.  For the 15 digit
    prefix 400000000000000 the algorithm appends 6, and 4000000000000006 is
    rejected; the digit that is accepted is 2.  With random digits that are
    all zero the generator therefore never returns. *)
Theorem debug_check_digit_rejected :
  all_digits (py "400000000000000") = true
  /\ List.length (py "400000000000000") = 15
  /\ Msre206_debug.append_check_digit (py "400000000000000")
     = Ok (py "4000000000000006")
  /\ Luhn.verify (py "4000000000000006") = Ok false
  /\ Luhn.append (py "400000000000000") = Ok (py "4000000000000002")
  /\ Luhn.verify (py "4000000000000002") = Ok true
  /\ forall fuel w,
       Msre206_debug.generate_credit_card fuel (py "visa")
         (with_rnd (fun _ => 0) w) = Div.
Proof.
  repeat (split; [vm_compute; reflexivity | idtac]).
  intros fuel w.
  unfold Msre206_debug.generate_credit_card.
  change (dict_find Msre206_debug.prefixes (py "visa")) with (Some [py "4"]).
  unfold bind at 1.
  change (lift (dict_getitem Msre206_debug.prefixes (py "visa"))
            (with_rnd (fun _ => 0) w))
    with (Val [py "4"] (with_rnd (fun _ => 0) w)).
  unfold bind at 1.
  change (random_choice [py "4"] (with_rnd (fun _ => 0) w))
    with (Val (py "4") (set_rnd_pos 1 (with_rnd (fun _ => 0) w))).
  apply zero_tape_diverges.
Qed.

(** ** C2 and C6: classification of status replies *)

Lemma byte_eqb_sym (a b : byte) : Byte.eqb a b = Byte.eqb b a.
Proof.
  destruct (Byte.eqb a b) eqn:E.
  - apply byte_dec_bl in E. subst b. symmetry. apply byte_dec_lb. reflexivity.
  - destruct (Byte.eqb b a) eqn:E'; [idtac | reflexivity].
    apply byte_dec_bl in E'. subst b.
    rewrite (byte_dec_lb (eq_refl a)) in E. discriminate.
Qed.

Lemma startswith_esc (r : bytes) : startswith [ESC] r = starts_with_esc r.
Proof.
  destruct r as [|b r]; simpl.
  - reflexivity.
  - rewrite andb_true_r. apply byte_eqb_sym.
Qed.

Lemma startswith_app (p l m : bytes) :
  List.length p <= List.length l -> startswith p (l ++ m) = startswith p l.
Proof.
  revert l. induction p as [|x p IH]; intros l H.
  - reflexivity.
  - destruct l as [|y l]; simpl in H; [lia | idtac].
    simpl. rewrite IH by lia. reflexivity.
Qed.

Lemma endswith_esc_zero (r : bytes) :
  endswith [ESC; x30] r = ends_with_esc_zero r.
Proof.
  unfold endswith. change (rev [ESC; x30]) with [x30; x1b].
  induction r as [|a t IH].
  - reflexivity.
  - destruct t as [|b t].
    + simpl. apply andb_false_r.
    + destruct t as [|c t].
      * simpl. rewrite andb_true_r, andb_comm.
        rewrite (byte_eqb_sym x1b a), (byte_eqb_sym x30 b). reflexivity.
      * change (ends_with_esc_zero (a :: b :: c :: t))
          with (ends_with_esc_zero (b :: c :: t)).
        rewrite <- IH.
        change (rev (a :: b :: c :: t)) with (rev (b :: c :: t) ++ [a]).
        apply startswith_app. rewrite length_rev. simpl. lia.
Qed.

Lemma last_slice_last (r : bytes) :
  r <> [] -> last_slice r = [last r x00].
Proof.
  intros H. unfold last_slice.
  rewrite (app_removelast_last x00 H) at 1.
  rewrite rev_app_distr. reflexivity.
Qed.

Lemma status_lookup (b : byte) :
  bytes_dict_get Msre206_cc.status_codes [b]
    (py "Unknown status: " ++ hex [b])
  = message (status_table b).
Proof. destruct b; reflexivity. Qed.

Lemma parse_response_classify (r : bytes) (w : world) :
  exists w', Msre206_cc.parse_response r w = Val (message (classify r)) w'.
Proof.
  unfold Msre206_cc.parse_response, classify.
  rewrite startswith_esc, endswith_esc_zero.
  destruct (starts_with_esc r && ends_with_esc_zero r).
  - eexists. reflexivity.
  - destruct (starts_with_esc r && (2 <? List.length r)%nat) eqn:E.
    + assert (Hr : r <> []) by (destruct r; [discriminate | congruence]).
      rewrite (last_slice_last r Hr), status_lookup.
      eexists. reflexivity.
    + eexists. reflexivity.
Qed.

Lemma hex_digit_inj (n m : N) :
  (n < 16)%N -> (m < 16)%N -> hex_digit n = hex_digit m -> n = m.
Proof.
  unfold hex_digit. intros Hn Hm.
  destruct (N.ltb_spec n 10), (N.ltb_spec m 10); lia.
Qed.

Lemma hex_byte_inj (a b : byte) : hex [a] = hex [b] -> a = b.
Proof.
  unfold hex. simpl. intros H. injection H as H1 H2.
  pose proof (Byte.to_N_bounded a) as Ba.
  pose proof (Byte.to_N_bounded b) as Bb.
  apply hex_digit_inj in H1;
    [idtac | apply N.Div0.div_lt_upper_bound; lia
           | apply N.Div0.div_lt_upper_bound; lia].
  apply hex_digit_inj in H2; [idtac | apply N.mod_lt; lia | apply N.mod_lt; lia].
  assert (E : Byte.to_N a = Byte.to_N b).
  { rewrite (N.div_mod (Byte.to_N a) 16), (N.div_mod (Byte.to_N b) 16) by lia.
    rewrite H1, H2. reflexivity. }
  pose proof (Byte.of_to_N a) as Oa. pose proof (Byte.of_to_N b) as Ob.
  rewrite E in Oa. congruence.
Qed.

Lemma message_inj (o1 o2 : ResponseOutcome) :
  message o1 = message o2 -> o1 = o2.
Proof.
  destruct o1, o2; intros H; try reflexivity; try discriminate H.
  apply app_inv_head in H. apply hex_byte_inj in H. congruence.
Qed.



(** C2: [parse_response] applies the three ordered rules.  A reply that
    starts with ESC and ends with ESC '0' is Success; otherwise a reply that
    starts with ESC and is longer than two bytes is classified by its final
    byte through the table, any other final byte giving UnknownStatus;
    every other reply is NoResponse.  The two byte frame ESC '0' falls under
    rule 1 only, and a longer success frame, which also meets the condition
    of rule 2, is settled by rule 1. *)
Theorem parse_response_follows_rules :
  (forall r w, exists w',
     Msre206_cc.parse_response r w = Val (message (classify r)) w')
  /\ (forall r w, exists w',
        Msre206_debug.parse_response r w = Val (message (classify r)) w')
  /\ classify [x1b; x30] = Success
  /\ classify [x1b; x41; x1b; x30] = Success
  /\ (starts_with_esc [x1b; x41; x1b; x30]
      && (2 <? List.length [x1b; x41; x1b; x30])%nat = true)
  /\ classify [x1b; x41; x31] = ReadWriteError
  /\ classify [x1b; x41; x32] = FormatError
  /\ classify [x1b; x41; x34] = InvalidCommand
  /\ classify [x1b; x41; x39] = InvalidSwipeInWriteMode
  /\ classify [x1b; x41; x33] = UnknownStatus x33
  /\ classify [x41; x42; x30] = NoResponse.
Proof.
  split; [exact parse_response_classify | idtac].
  split; [exact parse_response_classify | idtac].
  repeat split.
Qed.

Lemma ends_with_esc_zero_last (r : bytes) :
  ends_with_esc_zero r = true -> last r x00 = x30 /\ 2 <= List.length r.
Proof.
  induction r as [|a r IH]; [discriminate | idtac].
  destruct r as [|b r]; [discriminate | idtac].
  destruct r as [|c r].
  - cbn [ends_with_esc_zero]. intros H. apply andb_prop in H. destruct H as [_ H].
    apply byte_dec_bl in H. subst b. split; [reflexivity | simpl; lia].
  - change (ends_with_esc_zero (a :: b :: c :: r))
      with (ends_with_esc_zero (b :: c :: r)).
    intros H. destruct (IH H) as [H1 H2].
    split; [exact H1 | simpl; simpl in H2; lia].
Qed.








(** ** C7: accumulation of the response *)

Lemma Qltb_true (a b : Q) : (a < b)%Q -> Qltb a b = true.
Proof.
  intros H. unfold Qltb. destruct (Qle_bool b a) eqn:E; [idtac | reflexivity].
  apply Qle_bool_iff in E. exfalso. exact (Qlt_not_le _ _ H E).
Qed.

Lemma Qltb_false (a b : Q) : (b <= a)%Q -> Qltb a b = false.
Proof.
  intros H. unfold Qltb. apply Qle_bool_iff in H. rewrite H. reflexivity.
Qed.

Lemma read_loop_spec (d : Serial) (start timeout : Q) :
  forall k fuel data w,
    k < fuel ->
    (forall i, i < k ->
       (clock w (clock_pos w + i) - start < timeout)%Q /\ poll w i <> []) ->
    ((timeout <= clock w (clock_pos w + k) - start)%Q \/ poll w k = []) ->
    exists w',
      Msre206_cc.read_loop fuel d start timeout data w
      = Val (data ++ List.concat (map (poll w) (seq 0 k))) w'.
Proof.
  induction k as [|k IH]; intros fuel data w Hf Hbefore Hstop.
  - destruct fuel as [|fuel]; [lia | idtac].
    cbn [Msre206_cc.read_loop]. unfold bind at 1, time_time.
    unfold poll in Hstop. rewrite !Nat.add_0_r in Hstop.
    simpl. rewrite app_nil_r.
    destruct (Qltb (clock w (clock_pos w) - start) timeout) eqn:E.
    + destruct Hstop as [Hs | Hs].
      * rewrite (Qltb_false _ _ Hs) in E. discriminate.
      * unfold bind, device_read. world_simpl. rewrite Hs.
        eexists. reflexivity.
    + eexists. reflexivity.
  - destruct fuel as [|fuel]; [lia | idtac].
    cbn [Msre206_cc.read_loop]. unfold bind at 1, time_time.
    destruct (Hbefore 0 ltac:(lia)) as [Ht Hc].
    unfold poll in Hc. rewrite !Nat.add_0_r in Ht, Hc.
    rewrite (Qltb_true _ _ Ht).
    unfold bind at 1, device_read. world_simpl.
    destruct (firstn 1024 (rx w (rx_pos w))) as [|b chunk] eqn:Ec;
      [congruence | idtac].
    unfold bind at 1, print. world_simpl.
    match goal with
    | |- context [Msre206_cc.read_loop fuel d start timeout ?dt ?w1] =>
      destruct (IH fuel dt w1) as [w' E]
    end.
    + lia.
    + intros i Hi. unfold poll. world_simpl. rewrite !Nat.add_succ_comm.
      apply Hbefore. lia.
    + unfold poll. world_simpl. rewrite !Nat.add_succ_comm. exact Hstop.
    + exists w'. rewrite E. f_equal.
      cbn [seq map List.concat].
      replace (poll w 0) with (b :: chunk)
        by (unfold poll; rewrite Nat.add_0_r; symmetry; exact Ec).
      rewrite <- app_assoc.
      apply (f_equal (app data)). apply (f_equal (app (b :: chunk))).
      apply (f_equal (@List.concat byte)).
      rewrite <- seq_shift, map_map.
      apply map_ext. intros i. unfold poll. world_simpl.
      rewrite Nat.add_succ_comm. reflexivity.
Qed.

(** C7: [read_until_complete] returns the concatenation of the chunks read
    before the loop stops.  If the first [k] polls happen inside the window
    of 5 seconds and return data, and either the window has elapsed when the
    loop tests its condition the next time or the next poll returns no
    byte, the result is the concatenation of those [k] chunks. *)
Theorem read_until_complete_accumulates (fuel : nat) (d : Serial) (w : world) (k : nat) :
  k < fuel ->
  (forall i, i < k -> (elapsed w i < 5 # 1)%Q /\ poll w i <> []) ->
  ((5 # 1 <= elapsed w k)%Q \/ poll w k = []) ->
  exists w',
    Msre206_cc.read_until_complete fuel d w
    = Val (List.concat (map (poll w) (seq 0 k))) w'.
Proof.
  intros Hf Hbefore Hstop.
  unfold Msre206_cc.read_until_complete, bind, time_time.
  apply (read_loop_spec d (clock w (clock_pos w)) Msre206_cc.DEFAULT_TIMEOUT
           k fuel [] (set_clock_pos (S (clock_pos w)) w) Hf).
  - intros i Hi. world_simpl.
    replace (S (clock_pos w) + i) with (clock_pos w + 1 + i) by lia.
    exact (Hbefore i Hi).
  - world_simpl.
    replace (S (clock_pos w) + k) with (clock_pos w + 1 + k) by lia.
    exact Hstop.
Qed.

(** A read that stops on an empty poll, and one that stops because the
    window has elapsed. *)
Lemma read_until_complete_accumulates_witness :
  (exists w',
     Msre206_cc.read_until_complete 5 TtyUSB0 world_chunks
     = Val [x41; x42; x43] w')
  /\ (exists w',
        Msre206_cc.read_until_complete 5 TtyUSB0 world_busy
        = Val [x41; x41] w').
Proof.
  split.
  - apply (read_until_complete_accumulates 5 TtyUSB0 world_chunks 2).
    + lia.
    + intros i Hi. destruct i as [|[|i]]; [idtac | idtac | lia];
        (split; [reflexivity | discriminate]).
    + right. reflexivity.
  - apply (read_until_complete_accumulates 5 TtyUSB0 world_busy 2).
    + lia.
    + intros i Hi. destruct i as [|[|i]]; [idtac | idtac | lia];
        (split; [reflexivity | discriminate]).
    + left. discriminate.
Defined.

(** ** C5, C8 and C9: decoding the tracks of a read *)

Lemma split_not_nil (sep : N) (s : str) : split sep s <> [].
Proof.
  destruct s as [|c r]; simpl.
  - discriminate.
  - destruct (c =? sep)%N; [discriminate | idtac].
    destruct (split sep r); discriminate.
Qed.

Lemma read_card_response_undecodable (r : bytes) (w : world) :
  decode r = None ->
  Msre206_cc.read_card_response r w
  = Val tt (set_out ((out w ++ [py "Raw Response: " ++ bytes_repr r])
                     ++ [py "Failed to decode the response. Raw data: " ++ hex r])
                    w).
Proof.
  intros H. destruct r as [|b r]; [discriminate | idtac].
  unfold Msre206_cc.read_card_response, try_except, bind, print, raise.
  rewrite H. reflexivity.
Qed.

Lemma read_card_response_decoded (r : bytes) (text : str) (w : world) :
  r <> [] -> decode r = Some text ->
  exists w',
    Msre206_cc.read_card_response r w = Val tt w'
    /\ track1_var w' = strip (nth 0 (split cQM (Msre206_cc.re_sub_control false text)) [])
    /\ track2_var w'
       = (if (2 <=? List.length (split cQM (Msre206_cc.re_sub_control false text)))%nat
          then strip (nth 1 (split cQM (Msre206_cc.re_sub_control false text)) [])
          else track2_var w)
    /\ track3_var w'
       = (if (3 <=? List.length (split cQM (Msre206_cc.re_sub_control false text)))%nat
          then strip (nth 2 (split cQM (Msre206_cc.re_sub_control false text)) [])
          else track3_var w)
    /\ raw_data_var w' = raw_data_var w
    /\ written w' = written w.
Proof.
  intros Hr H. destruct r as [|b r]; [congruence | idtac].
  unfold Msre206_cc.read_card_response, try_except.
  unfold bind at 1, print. unfold bind at 1. rewrite H.
  unfold ret at 1. cbv beta iota.
  pose proof (split_not_nil cQM (Msre206_cc.re_sub_control false text)) as Hn.
  destruct (split cQM (Msre206_cc.re_sub_control false text))
    as [|f0 [|f1 [|f2 rest]]]; [congruence | idtac | idtac | idtac];
    (eexists; split; [reflexivity | repeat split]).
Qed.

Lemma no_raise_ret {A} (a : A) : no_raise (ret a).
Proof. intros w e w'. discriminate. Qed.

Lemma no_raise_print (line : str) : no_raise (print line).
Proof. intros w e w'. discriminate. Qed.

Lemma no_raise_bind {A B} (m : M A) (k : A -> M B) :
  no_raise m -> (forall a, no_raise (k a)) -> no_raise (bind m k).
Proof.
  intros Hm Hk w e w'. unfold bind.
  destruct (m w) as [a w1|e1 w1|] eqn:E.
  - apply Hk.
  - exfalso. exact (Hm w e1 w1 E).
  - discriminate.
Qed.

Lemma no_raise_read_loop (d : Serial) (start timeout : Q) (fuel : nat) :
  forall data, no_raise (Msre206_cc.read_loop fuel d start timeout data).
Proof.
  induction fuel as [|fuel IH]; intros data.
  - intros w e w'. discriminate.
  - cbn [Msre206_cc.read_loop].
    apply no_raise_bind; [intros w e w'; discriminate | intros now].
    destruct (Qltb (now - start) timeout); [idtac | apply no_raise_ret].
    apply no_raise_bind; [intros w e w'; discriminate | intros chunk].
    destruct chunk as [|b chunk]; [apply no_raise_ret | idtac].
    apply no_raise_bind; [apply no_raise_print | intros _; apply IH].
Qed.

Lemma no_raise_read_until_complete (fuel : nat) (d : Serial) :
  no_raise (Msre206_cc.read_until_complete fuel d).
Proof.
  unfold Msre206_cc.read_until_complete.
  apply no_raise_bind; [intros w e w'; discriminate | intros start].
  apply no_raise_read_loop.
Qed.

Lemma no_raise_read_card_response (r : bytes) :
  no_raise (Msre206_cc.read_card_response r).
Proof.
  intros w e w'. destruct r as [|b r]; [discriminate | idtac].
  destruct (decode (b :: r)) as [text|] eqn:E.
  - destruct (read_card_response_decoded (b :: r) text w ltac:(discriminate) E)
      as (w1 & E1 & _).
    rewrite E1. discriminate.
  - rewrite (read_card_response_undecodable (b :: r) w E). discriminate.
Qed.

Lemma no_raise_read_card (fuel : nat) : no_raise (Msre206_cc.read_card fuel).
Proof.
  unfold Msre206_cc.read_card.
  apply no_raise_bind.
  { intros w e w'. unfold Msre206_cc.connect_device, bind, serial_open.
    destruct (port_fault w); discriminate. }
  intros [d|]; [idtac | apply no_raise_ret].
  apply no_raise_bind; [apply no_raise_print | intros _].
  apply no_raise_bind; [intros w e w'; discriminate | intros _].
  apply no_raise_bind; [apply no_raise_read_until_complete | intros response].
  apply no_raise_bind; [apply no_raise_read_card_response | intros _].
  apply no_raise_ret.
Qed.

(** C8: a response that cannot be decoded as text is handled inside the
    read: the track variables keep their values, the raw bytes are shown in
    hexadecimal on the output, and the operation completes; no run of
    [read_card] lets an exception reach its caller. *)
Theorem decode_failure_handled_locally :
  (forall r w, decode r = None ->
     Msre206_cc.read_card_response r w
     = Val tt (set_out ((out w ++ [py "Raw Response: " ++ bytes_repr r])
                        ++ [py "Failed to decode the response. Raw data: "
                            ++ hex r]) w))
  /\ (forall fuel w e w', Msre206_cc.read_card fuel w <> Exc e w').
Proof.
  split.
  - exact read_card_response_undecodable.
  - exact no_raise_read_card.
Qed.

(** FF FF is not UTF-8. *)
Lemma decode_failure_handled_locally_witness :
  Msre206_cc.read_card_response [xff; xff] world0
  = Val tt (set_out ((out world0 ++ [py "Raw Response: " ++ bytes_repr [xff; xff]])
                     ++ [py "Failed to decode the response. Raw data: "
                         ++ hex [xff; xff]]) world0).
Proof.
  apply (proj1 decode_failure_handled_locally [xff; xff] world0).
  reflexivity.
Defined.

(** C9: when the cleaned text has fewer than three fields, the read assigns
    the fields that are present and leaves the variables of the absent ones
    at the values they had: track 3 always, track 2 as well when there is a
    single field. *)
Theorem absent_tracks_keep_value (r : bytes) (text : str) (w : world) :
  r <> [] -> decode r = Some text ->
  List.length (split cQM (Msre206_cc.re_sub_control false text)) < 3 ->
  exists w',
    Msre206_cc.read_card_response r w = Val tt w'
    /\ track1_var w' = strip (nth 0 (split cQM (Msre206_cc.re_sub_control false text)) [])
    /\ track3_var w' = track3_var w
    /\ (List.length (split cQM (Msre206_cc.re_sub_control false text)) = 1 ->
        track2_var w' = track2_var w)
    /\ (List.length (split cQM (Msre206_cc.re_sub_control false text)) = 2 ->
        track2_var w' = strip (nth 1 (split cQM (Msre206_cc.re_sub_control false text)) [])).
Proof.
  intros Hr Hd Hlen.
  destruct (read_card_response_decoded r text w Hr Hd)
    as (w' & E & T1 & T2 & T3 & _).
  exists w'. split; [exact E | idtac]. split; [exact T1 | idtac].
  split.
  - rewrite T3.
    destruct (Nat.leb_spec 3 (List.length (split cQM (Msre206_cc.re_sub_control false text))));
      [lia | reflexivity].
  - split; intros L; rewrite T2, L; reflexivity.
Qed.

(** A read of one field over the tracks a, b and c. *)
Lemma absent_tracks_keep_value_witness :
  exists w',
    Msre206_cc.read_card_response (ascii_bytes "ONLY1")
      (with_tracks (py "a") (py "b") (py "c") world0) = Val tt w'
    /\ track1_var w' = py "ONLY1"
    /\ track3_var w' = py "c"
    /\ (1 = 1 -> track2_var w' = py "b")
    /\ (1 = 2 -> track2_var w' = strip []).
Proof.
  apply (absent_tracks_keep_value (ascii_bytes "ONLY1") (py "ONLY1")
           (with_tracks (py "a") (py "b") (py "c") world0)).
  - discriminate.
  - reflexivity.
  - vm_compute. lia.
Defined.

(** C5, counterexample: a read of a card with a single field, made after a
    read that filled the three tracks, leaves tracks 2 and 3 of the earlier
    card in place: they are not empty.  Nor is a field installed as it
    stands: field 0 of the text " A ?B?C" is " A ", and track 1 becomes
    "A". *)
Lemma absent_and_padded_fields :
  (exists w',
     (Msre206_cc.read_card_response
        (ascii_bytes "TRACK1DATA?TRACK2DATA?TRACK3DATA?") ;;
      Msre206_cc.read_card_response (ascii_bytes "ONLY1")) world0
     = Val tt w'
     /\ track1_var w' = py "ONLY1"
     /\ track2_var w' = py "TRACK2DATA"
     /\ track3_var w' = py "TRACK3DATA"
     /\ track2_var w' <> [] /\ track3_var w' <> [])
  /\ (exists w',
        Msre206_cc.read_card_response (ascii_bytes " A ?B?C") world0 = Val tt w'
        /\ nth 0 (split cQM (Msre206_cc.re_sub_control false (py " A ?B?C"))) []
           = py " A "
        /\ track1_var w' = py "A"
        /\ track1_var w' <> py " A ").
Proof.
  split.
  - eexists. split; [vm_compute; reflexivity | idtac].
    repeat split; discriminate.
  - eexists. split; [vm_compute; reflexivity | idtac].
    repeat split. discriminate.
Qed.

(** C5, amended: the cleaned text is split on '?', and every field that is
    present is installed without its surrounding white space: field 0 as
    track 1, field 1 as track 2, field 2 as track 3; the track of a field
    that is absent keeps the value it had before the read.  A text of one
    field sets track 1 and leaves tracks 2 and 3 as they were; a text of
    two fields sets tracks 1 and 2 and leaves track 3 as it was; a text of
    three fields or more sets the three tracks, and there is no other
    case.  The text TRACK1DATA?TRACK2DATA?TRACK3DATA? gives the three
    tracks; TRACK1DATA? has two fields, the second one empty, and empties
    track 2; TRACK1DATA has one. *)
Theorem track_split (r : bytes) (text : str) (w : world) :
  r <> [] -> decode r = Some text ->
  exists w',
    Msre206_cc.read_card_response r w = Val tt w'
    /\ (forall f0,
          split cQM (Msre206_cc.re_sub_control false text) = [f0] ->
          track1_var w' = strip f0
          /\ track2_var w' = track2_var w
          /\ track3_var w' = track3_var w)
    /\ (forall f0 f1,
          split cQM (Msre206_cc.re_sub_control false text) = [f0; f1] ->
          track1_var w' = strip f0
          /\ track2_var w' = strip f1
          /\ track3_var w' = track3_var w)
    /\ (forall f0 f1 f2 rest,
          split cQM (Msre206_cc.re_sub_control false text) = f0 :: f1 :: f2 :: rest ->
          track1_var w' = strip f0
          /\ track2_var w' = strip f1
          /\ track3_var w' = strip f2)
    /\ split cQM (Msre206_cc.re_sub_control false text) <> []
    /\ (text = py "TRACK1DATA?TRACK2DATA?TRACK3DATA?" ->
        track1_var w' = py "TRACK1DATA"
        /\ track2_var w' = py "TRACK2DATA"
        /\ track3_var w' = py "TRACK3DATA")
    /\ (text = py "TRACK1DATA?" ->
        track1_var w' = py "TRACK1DATA"
        /\ track2_var w' = []
        /\ track3_var w' = track3_var w)
    /\ (text = py "TRACK1DATA" ->
        track1_var w' = py "TRACK1DATA"
        /\ track2_var w' = track2_var w
        /\ track3_var w' = track3_var w).
Proof.
  intros Hr Hd.
  destruct (read_card_response_decoded r text w Hr Hd)
    as (w' & E & T1 & T2 & T3 & _).
  exists w'. split; [exact E | idtac].
  split.
  { intros f0 S. rewrite S in T1, T2, T3. repeat split; assumption. }
  split.
  { intros f0 f1 S. rewrite S in T1, T2, T3. repeat split; assumption. }
  split.
  { intros f0 f1 f2 rest S. rewrite S in T1, T2, T3. repeat split; assumption. }
  split; [apply split_not_nil | idtac].
  split; [idtac | split]; intros ->; rewrite T1, T2, T3; repeat split.
Qed.

(** The three track text at start-up; then, over old tracks, a text of two
    fields and a text of one. *)
Lemma track_split_witness :
  (exists w',
     Msre206_cc.read_card_response
       (ascii_bytes "TRACK1DATA?TRACK2DATA?TRACK3DATA?") world0 = Val tt w'
     /\ track1_var w' = py "TRACK1DATA"
     /\ track2_var w' = py "TRACK2DATA"
     /\ track3_var w' = py "TRACK3DATA")
  /\ (exists w',
        Msre206_cc.read_card_response (ascii_bytes "TRACK1DATA?")
          (with_tracks [] (py "OLD2") (py "OLD3") world0) = Val tt w'
        /\ track1_var w' = py "TRACK1DATA"
        /\ track2_var w' = []
        /\ track3_var w' = py "OLD3")
  /\ (exists w',
        Msre206_cc.read_card_response (ascii_bytes "TRACK1DATA")
          (with_tracks [] (py "OLD2") (py "OLD3") world0) = Val tt w'
        /\ track1_var w' = py "TRACK1DATA"
        /\ track2_var w' = py "OLD2"
        /\ track3_var w' = py "OLD3").
Proof.
  split; [idtac | split].
  - destruct (track_split (ascii_bytes "TRACK1DATA?TRACK2DATA?TRACK3DATA?")
                (py "TRACK1DATA?TRACK2DATA?TRACK3DATA?") world0)
      as (w' & E & _ & _ & _ & _ & H & _); [discriminate | reflexivity | idtac].
    exists w'. split; [exact E | exact (H eq_refl)].
  - destruct (track_split (ascii_bytes "TRACK1DATA?") (py "TRACK1DATA?")
                (with_tracks [] (py "OLD2") (py "OLD3") world0))
      as (w' & E & _ & _ & _ & _ & _ & H & _); [discriminate | reflexivity | idtac].
    exists w'. split; [exact E | exact (H eq_refl)].
  - destruct (track_split (ascii_bytes "TRACK1DATA") (py "TRACK1DATA")
                (with_tracks [] (py "OLD2") (py "OLD3") world0))
      as (w' & E & _ & _ & _ & _ & _ & _ & H); [discriminate | reflexivity | idtac].
    exists w'. split; [exact E | exact (H eq_refl)].
Defined.

(** ** Parts of the world an operation leaves alone *)

Lemma written_stable : Stable written.
Proof. constructor; reflexivity. Qed.

Lemma port_fault_stable : Stable port_fault.
Proof. constructor; reflexivity. Qed.

Section Keeps.

Context {X : Type} (f : world -> X).
Hypothesis f_stable : Stable f.

Lemma keeps_val {A} (m : M A) (w : world) (a : A) (w' : world) :
  keeps f m -> m w = Val a w' -> f w' = f w.
Proof. intros K E. specialize (K w). rewrite E in K. exact K. Qed.

Lemma keeps_ret {A} (a : A) : keeps f (ret a).
Proof. intros w. reflexivity. Qed.

Lemma keeps_raise {A} (e : exn) : keeps f (@raise A e).
Proof. intros w. reflexivity. Qed.

Lemma keeps_diverge {A} : keeps f (@diverge A).
Proof. intros w. exact I. Qed.

Lemma keeps_lift {A} (p : pure A) : keeps f (lift p).
Proof. destruct p; [apply keeps_ret | apply keeps_raise]. Qed.

Lemma keeps_bind {A B} (m : M A) (k : A -> M B) :
  keeps f m -> (forall a, keeps f (k a)) -> keeps f (bind m k).
Proof.
  intros Km Kk w. unfold bind. specialize (Km w).
  destruct (m w) as [a w1|e w1|]; [idtac | exact Km | exact I].
  specialize (Kk a w1).
  destruct (k a w1) as [b w2|e w2|]; [idtac | idtac | exact I]; congruence.
Qed.

Lemma keeps_try_except {A} (m : M A) (handled : exn -> bool) (h : exn -> M A) :
  keeps f m -> (forall e, keeps f (h e)) -> keeps f (try_except m handled h).
Proof.
  intros Km Kh w. unfold try_except. specialize (Km w).
  destruct (m w) as [a w1|e w1|]; [exact Km | idtac | exact I].
  destruct (handled e); [idtac | exact Km].
  specialize (Kh e w1).
  destruct (h e w1) as [b w2|e2 w2|]; [idtac | idtac | exact I]; congruence.
Qed.

Lemma keeps_when (b : bool) (m : M unit) : keeps f m -> keeps f (when b m).
Proof. destruct b; [trivial | intros _; apply keeps_ret]. Qed.

Lemma keeps_print (line : str) : keeps f (print line).
Proof. intros w. apply (st_out f f_stable). Qed.

Lemma keeps_get {A} (g : world -> A) : keeps f (get g).
Proof. intros w. reflexivity. Qed.

Lemma keeps_set_track1 (v : str) : keeps f (modify (set_track1 v)).
Proof. intros w. apply (st_track1 f f_stable). Qed.

Lemma keeps_set_track2 (v : str) : keeps f (modify (set_track2 v)).
Proof. intros w. apply (st_track2 f f_stable). Qed.

Lemma keeps_set_track3 (v : str) : keeps f (modify (set_track3 v)).
Proof. intros w. apply (st_track3 f f_stable). Qed.

Lemma keeps_device_read (d : Serial) (size : nat) : keeps f (device_read d size).
Proof. intros w. apply (st_rx_pos f f_stable). Qed.

Lemma keeps_time_time : keeps f time_time.
Proof. intros w. apply (st_clock_pos f f_stable). Qed.

Lemma keeps_draw : keeps f draw.
Proof. intros w. apply (st_rnd_pos f f_stable). Qed.

Lemma keeps_random_choice {A} (l : list A) : keeps f (random_choice l).
Proof.
  apply keeps_bind; [apply keeps_draw | intros r; apply keeps_lift].
Qed.

Lemma keeps_random_randint (a b : Z) : keeps f (random_randint a b).
Proof.
  apply keeps_bind; [apply keeps_draw | intros r; apply keeps_ret].
Qed.

Lemma keeps_join_range {A} (g : M (list A)) (n : nat) :
  keeps f g -> keeps f (join_range n g).
Proof.
  intros Kg. induction n as [|n IH]; cbn [join_range].
  - apply keeps_ret.
  - apply keeps_bind; [exact Kg | intros h].
    apply keeps_bind; [exact IH | intros t; apply keeps_ret].
Qed.

Lemma keeps_parse_response (r : bytes) : keeps f (Msre206_cc.parse_response r).
Proof.
  unfold Msre206_cc.parse_response.
  destruct (startswith [ESC] r && endswith [ESC; x30] r).
  - apply keeps_bind; [apply keeps_print | intros _; apply keeps_ret].
  - destruct (startswith [ESC] r && (2 <? List.length r)%nat);
      (apply keeps_bind; [apply keeps_print | intros _; apply keeps_ret]).
Qed.

Lemma keeps_read_loop (d : Serial) (start timeout : Q) (fuel : nat) :
  forall data, keeps f (Msre206_cc.read_loop fuel d start timeout data).
Proof.
  induction fuel as [|fuel IH]; intros data.
  - apply keeps_diverge.
  - cbn [Msre206_cc.read_loop].
    apply keeps_bind; [apply keeps_time_time | intros now].
    destruct (Qltb (now - start) timeout); [idtac | apply keeps_ret].
    apply keeps_bind; [apply keeps_device_read | intros chunk].
    destruct chunk as [|b chunk]; [apply keeps_ret | idtac].
    apply keeps_bind; [apply keeps_print | intros _; apply IH].
Qed.

Lemma keeps_read_until_complete (fuel : nat) (d : Serial) :
  keeps f (Msre206_cc.read_until_complete fuel d).
Proof.
  unfold Msre206_cc.read_until_complete.
  apply keeps_bind; [apply keeps_time_time | intros start].
  apply keeps_read_loop.
Qed.

Lemma keeps_read_card_response (r : bytes) :
  keeps f (Msre206_cc.read_card_response r).
Proof.
  unfold Msre206_cc.read_card_response.
  destruct r as [|b r]; [apply keeps_print | idtac].
  apply keeps_bind; [apply keeps_print | intros _].
  apply keeps_try_except; [idtac | intros e; apply keeps_print].
  apply keeps_bind.
  { destruct (decode (b :: r)); [apply keeps_ret | apply keeps_raise]. }
  intros text.
  apply keeps_bind; [apply keeps_print | intros _].
  apply keeps_bind; [apply keeps_print | intros _].
  apply keeps_bind.
  { apply keeps_when. apply keeps_bind; [apply keeps_lift | intros t].
    apply keeps_set_track1. }
  intros _. apply keeps_bind.
  { apply keeps_when. apply keeps_bind; [apply keeps_lift | intros t].
    apply keeps_set_track2. }
  intros _. apply keeps_when.
  apply keeps_bind; [apply keeps_lift | intros t]. apply keeps_set_track3.
Qed.

Lemma keeps_generate_loop (fuel : nat) (prefix : str) (length : Z) :
  keeps f (Msre206_debug.generate_loop fuel prefix length).
Proof.
  induction fuel as [|fuel IH]; cbn [Msre206_debug.generate_loop].
  - apply keeps_diverge.
  - apply keeps_bind.
    { apply keeps_join_range.
      apply keeps_bind; [apply keeps_random_randint | intros d; apply keeps_ret]. }
    intros digits.
    apply keeps_bind; [apply keeps_lift | intros cn].
    apply keeps_bind; [apply keeps_lift | intros valid].
    destruct valid; [apply keeps_ret | exact IH].
Qed.

Lemma keeps_generate_credit_card (fuel : nat) (card_type : str) :
  keeps f (Msre206_debug.generate_credit_card fuel card_type).
Proof.
  unfold Msre206_debug.generate_credit_card.
  destruct (dict_find Msre206_debug.prefixes card_type); [idtac | apply keeps_raise].
  apply keeps_bind; [apply keeps_lift | intros choices].
  apply keeps_bind; [apply keeps_random_choice | intros prefix].
  apply keeps_generate_loop.
Qed.

End Keeps.

(** ** C3: the frames the operations send *)

Lemma write_card_writes (w : world) (frame : bytes) :
  port_fault w = None ->
  encode (Msre206_cc.write_command (track1_var w) (track2_var w) (track3_var w))
  = Ok frame ->
  exists w', Msre206_cc.write_card w = Val tt w'
             /\ written w' = written w ++ [frame].
Proof.
  intros Hp He.
  unfold Msre206_cc.write_card, Msre206_cc.connect_device, serial_open.
  unfold bind at 1. unfold bind at 1. rewrite Hp.
  unfold bind at 1, print, ret. cbv beta iota.
  unfold bind at 1. unfold bind at 1, get. world_simpl.
  unfold bind at 1. world_simpl. unfold bind at 1. world_simpl.
  rewrite He. unfold lift at 1. unfold bind at 1, ret.
  unfold Msre206_cc.send_command. rewrite He.
  unfold Msre206_cc.parse_response, lift, bind, print, ret, device_write,
    device_read_all, time_sleep, device_close, modify.
  unfold ret. cbv beta iota. world_simpl.
  destruct (startswith [ESC] (rx w (rx_pos w))
            && endswith [ESC; x30] (rx w (rx_pos w))).
  - change (str_contains (py "successful") (py "Operation successful.")) with true.
    cbv beta iota. eexists. split; [reflexivity | reflexivity].
  - destruct (startswith [ESC] (rx w (rx_pos w))
              && (2 <? List.length (rx w (rx_pos w)))%nat).
    + match goal with
      | |- context [if ?c then _ else _] => destruct c
      end; (eexists; split; [reflexivity | reflexivity]).
    + change (str_contains (py "successful") (py "No valid response received."))
        with false.
      cbv beta iota. eexists. split; [reflexivity | reflexivity].
Qed.

Lemma send_command_run (d : Serial) (command : str) (frame : bytes) (w : world) :
  encode command = Ok frame ->
  exists w',
    Msre206_cc.send_command (Some d) command w = Val (rx w (rx_pos w)) w'
    /\ written w' = written w ++ [frame]
    /\ port_fault w' = port_fault w.
Proof.
  intros He. unfold Msre206_cc.send_command. rewrite He.
  eexists. split; [reflexivity | split; reflexivity].
Qed.

Lemma read_card_writes (fuel : nat) (w w' : world) :
  port_fault w = None ->
  Msre206_cc.read_card fuel w = Val tt w' ->
  written w' = written w ++ [[x1b; x72]].
Proof.
  intros Hp H.
  unfold Msre206_cc.read_card, Msre206_cc.connect_device, serial_open in H.
  unfold bind at 1 in H. unfold bind at 1 in H. rewrite Hp in H.
  unfold bind at 1 in H. unfold print at 1, ret at 1 in H. cbv beta iota in H.
  unfold bind at 1 in H. unfold print at 1 in H.
  unfold bind at 1 in H.
  match type of H with
  | context [Msre206_cc.send_command (Some TtyUSB0) Msre206_cc.read_command ?w1] =>
    destruct (send_command_run TtyUSB0 Msre206_cc.read_command [x1b; x72] w1
                eq_refl) as (w2 & E2 & W2 & _)
  end.
  rewrite E2 in H.
  assert (K : keeps written
                (response <- Msre206_cc.read_until_complete fuel TtyUSB0 ;;
                 Msre206_cc.read_card_response response ;;
                 device_close TtyUSB0)).
  { apply keeps_bind;
      [apply keeps_read_until_complete, written_stable | intros response].
    apply keeps_bind;
      [apply keeps_read_card_response, written_stable | intros _].
    apply keeps_ret. }
  rewrite (keeps_val written _ _ _ _ K H), W2. reflexivity.
Qed.

(** C3: command encoding is deterministic.  The read command encodes to the
    two bytes 1B 72 and the write command for the tracks A, B and C to
    1B 77 1B 73 1B 01 41 1B 02 42 1B 03 43 3F 1C; these are the frames
    [read_card] and [write_card] hand to the device, whatever the rest of
    the world is. *)
Theorem command_encoding :
  encode Msre206_cc.read_command = Ok [x1b; x72]
  /\ encode (Msre206_cc.write_command (py "A") (py "B") (py "C"))
     = Ok [x1b; x77; x1b; x73; x1b; x01; x41; x1b; x02; x42; x1b; x03; x43;
           x3f; x1c]
  /\ (forall fuel w w',
        port_fault w = None ->
        Msre206_cc.read_card fuel w = Val tt w' ->
        written w' = written w ++ [[x1b; x72]])
  /\ (forall w,
        port_fault w = None ->
        track1_var w = py "A" -> track2_var w = py "B" -> track3_var w = py "C" ->
        exists w',
          Msre206_cc.write_card w = Val tt w'
          /\ written w'
             = written w
               ++ [[x1b; x77; x1b; x73; x1b; x01; x41; x1b; x02; x42; x1b;
                    x03; x43; x3f; x1c]]).
Proof.
  split; [reflexivity | idtac].
  split; [reflexivity | idtac].
  split; [exact read_card_writes | idtac].
  intros w Hp H1 H2 H3. apply write_card_writes; [exact Hp | idtac].
  rewrite H1, H2, H3. reflexivity.
Qed.

(** A read against a talking device and a write of the tracks A, B, C. *)
Lemma command_encoding_witness :
  (exists w',
     Msre206_cc.read_card 5 world_chunks = Val tt w'
     /\ written w' = written world_chunks ++ [[x1b; x72]])
  /\ (exists w',
        Msre206_cc.write_card (with_tracks (py "A") (py "B") (py "C") world0)
        = Val tt w'
        /\ written w'
           = written (with_tracks (py "A") (py "B") (py "C") world0)
             ++ [[x1b; x77; x1b; x73; x1b; x01; x41; x1b; x02; x42; x1b;
                  x03; x43; x3f; x1c]]).
Proof.
  split.
  - destruct (Msre206_cc.read_card 5 world_chunks) as [[] w'|e w'|] eqn:E.
    + exists w'. split; [reflexivity | idtac].
      apply (proj1 (proj2 (proj2 command_encoding)) 5 world_chunks w');
        [reflexivity | exact E].
    + vm_compute in E. discriminate E.
    + vm_compute in E. discriminate E.
  - apply (proj2 (proj2 (proj2 command_encoding))
             (with_tracks (py "A") (py "B") (py "C") world0));
      reflexivity.
Defined.

(** ** C10: the frame of the generate-and-write path *)

Lemma encode_app (a b : str) :
  encode (a ++ b)
  = pbind (encode a) (fun x => pbind (encode b) (fun y => Ok (x ++ y))).
Proof.
  induction a as [|c a IH]; simpl.
  - destruct (encode b); reflexivity.
  - destruct (encode_cp c) as [h|e]; simpl; [idtac | reflexivity].
    rewrite IH. destruct (encode a) as [x|e]; simpl; [idtac | reflexivity].
    destruct (encode b) as [y|e]; simpl; [idtac | reflexivity].
    rewrite app_assoc. reflexivity.
Qed.

Lemma encode_app_ok (a b : str) (r : bytes) :
  encode (a ++ b) = Ok r ->
  exists x y, encode a = Ok x /\ encode b = Ok y /\ r = x ++ y.
Proof.
  rewrite encode_app.
  destruct (encode a) as [x|e]; simpl; [idtac | discriminate].
  destruct (encode b) as [y|e]; simpl; [idtac | discriminate].
  intros H. injection H as <-. exists x, y. repeat split.
Qed.

Lemma encode_ascii (s : str) :
  all_ascii s = true -> encode s = Ok (map byte_of_N s).
Proof.
  induction s as [|c s IH]; simpl; intros H.
  - reflexivity.
  - apply andb_prop in H. destruct H as [Hc Hs].
    unfold encode_cp. rewrite Hc. simpl. rewrite (IH Hs). reflexivity.
Qed.

Lemma all_ascii_app (a b : str) : all_ascii (a ++ b) = all_ascii a && all_ascii b.
Proof. apply forallb_app. Qed.

Lemma digits_ascii (s : str) : all_digits s = true -> all_ascii s = true.
Proof.
  unfold all_digits, all_ascii. rewrite !forallb_forall.
  intros H c Hc. specialize (H c Hc). unfold is_digit, in_range in H.
  apply andb_prop in H. destruct H as [_ H]. apply N.leb_le in H.
  apply N.ltb_lt. lia.
Qed.

Lemma write_frames_differ (t1 t2 t3 : str) (f g : bytes) :
  encode (Msre206_debug.generated_write_command t1 t2) = Ok f ->
  encode (Msre206_debug.write_command t1 t2 t3) = Ok g ->
  (exists p e3, encode t3 = Ok e3 /\ f = p ++ [x1c]
                /\ g = p ++ [x1b; x03] ++ e3 ++ [x3f; x1c])
  /\ f <> g.
Proof.
  unfold Msre206_debug.generated_write_command, Msre206_debug.write_command.
  intros Hf Hg.
  repeat rewrite app_assoc in Hf. repeat rewrite app_assoc in Hg.
  apply encode_app_ok in Hf. destruct Hf as (p & x & Hp & Hx & ->).
  apply encode_app_ok in Hg. destruct Hg as (q & y & Hq & Hy & ->).
  apply encode_app_ok in Hq. destruct Hq as (q1 & y1 & Hq1 & Hy1 & ->).
  apply encode_app_ok in Hq1. destruct Hq1 as (q2 & e3 & Hq2 & Hy2 & ->).
  apply encode_app_ok in Hq2. destruct Hq2 as (q3 & y3 & Hq3 & Hy3 & ->).
  rewrite Hp in Hq3. injection Hq3 as <-.
  vm_compute in Hx, Hy, Hy1, Hy3.
  injection Hx as <-. injection Hy as <-. injection Hy1 as <-. injection Hy3 as <-.
  split.
  - exists p, e3. split; [exact Hy2 | split; [reflexivity | idtac]].
    rewrite <- !app_assoc. reflexivity.
  - intros E. apply (f_equal (@List.length byte)) in E.
    rewrite !length_app in E. simpl in E. lia.
Qed.

Lemma dict_find_in {V} (d : dict V) (k : str) (v : V) :
  dict_find d k = Some v -> In v (map snd d).
Proof.
  induction d as [|[k' v'] d IH]; simpl; intros H.
  - discriminate.
  - destruct (str_eqb k' k).
    + injection H as ->. left. reflexivity.
    + right. exact (IH H).
Qed.

Lemma append_check_digit_digits (s n : str) :
  all_digits s = true ->
  Msre206_debug.append_check_digit s = Ok n -> all_digits n = true.
Proof.
  intros Hs. unfold Msre206_debug.append_check_digit.
  destruct (Msre206_debug.checksum_of s) as [c|e]; unfold pbind;
    [idtac | discriminate].
  intros H.
  assert (E : n = s ++ str_of_int ((10 - c) mod 10)) by congruence.
  subst n. clear H.
  assert (Hg : (0 <= (10 - c) mod 10 < 10)%Z) by (apply Z.mod_pos_bound; lia).
  rewrite (str_of_int_digit _ Hg), all_digits_app, Hs.
  unfold all_digits. cbn [forallb].
  rewrite (proj1 (digit_of_int _ Hg)). reflexivity.
Qed.

Lemma generate_loop_digits (fuel : nat) (prefix : str) (length : Z) :
  all_digits prefix = true ->
  forall w n w',
    Msre206_debug.generate_loop fuel prefix length w = Val n w' ->
    all_digits n = true.
Proof.
  intros Hp. induction fuel as [|fuel IH]; intros w n w' H.
  - discriminate.
  - cbn [Msre206_debug.generate_loop] in H.
    destruct (join_range_digits _ randint_digit
                (Z.to_nat (length - Z.of_nat (List.length prefix) - 1)) w)
      as (ds & k & E & L & D).
    unfold bind at 1 in H. rewrite E in H.
    unfold bind at 1 in H.
    destruct (Msre206_debug.append_check_digit (prefix ++ ds)) as [cn|e] eqn:EA;
      [idtac | discriminate].
    cbn [lift ret] in H. unfold bind at 1 in H.
    destruct (Luhn.verify cn) as [valid|e] eqn:EV; [idtac | discriminate].
    cbn [lift ret] in H. destruct valid.
    + injection H as <- _.
      apply (append_check_digit_digits (prefix ++ ds)); [idtac | exact EA].
      rewrite all_digits_app, Hp, D. reflexivity.
    + exact (IH _ _ _ H).
Qed.

Lemma generate_credit_card_digits (fuel : nat) (card_type : str) (w : world)
    (n : str) (w' : world) :
  Msre206_debug.generate_credit_card fuel card_type w = Val n w' ->
  all_digits n = true.
Proof.
  intros H. unfold Msre206_debug.generate_credit_card, dict_getitem in H.
  destruct (dict_find Msre206_debug.prefixes card_type) as [choices|] eqn:EF;
    [idtac | discriminate].
  cbn [lift] in H. unfold bind at 1 in H. cbn [ret] in H.
  unfold bind at 1 in H.
  destruct (random_choice choices w) as [p w1|e w1|] eqn:E;
    [idtac | discriminate | discriminate].
  apply generate_loop_digits in H; [exact H | idtac].
  assert (Hin : In p choices).
  { unfold random_choice, bind, draw, getitem in E.
    destruct (nth_error choices _) as [a|] eqn:En; [idtac | discriminate].
    injection E as <- _. eapply nth_error_In. exact En. }
  apply dict_find_in in EF. simpl in EF.
  repeat (destruct EF as [<- | EF];
          [simpl in Hin;
           repeat (destruct Hin as [<- | Hin]; [reflexivity | idtac]);
           contradiction | idtac]).
  contradiction.
Qed.

Lemma encode_generated_write_command (t1 t2 : str) :
  all_ascii t1 = true -> all_ascii t2 = true ->
  encode (Msre206_debug.generated_write_command t1 t2)
  = Ok (generated_frame t1 t2).
Proof.
  intros H1 H2. rewrite encode_ascii.
  - unfold Msre206_debug.generated_write_command, generated_frame.
    rewrite !map_app. reflexivity.
  - unfold Msre206_debug.generated_write_command.
    rewrite !all_ascii_app, H1, H2. reflexivity.
Qed.

Lemma generated_tracks_ascii (n card_type : str) :
  all_digits n = true ->
  all_ascii (fst (Msre206_debug.generate_card_tracks n card_type)) = true
  /\ all_ascii (snd (Msre206_debug.generate_card_tracks n card_type)) = true.
Proof.
  intros H. apply digits_ascii in H.
  unfold Msre206_debug.generate_card_tracks. cbn [fst snd].
  rewrite !all_ascii_app, H. split; reflexivity.
Qed.

Lemma generated_write_run (fuel : nat) (w : world) (n : str) (w1 : world) :
  Msre206_debug.generate_credit_card fuel (lower (card_type_var w)) w = Val n w1 ->
  port_fault w = None ->
  exists w',
    Msre206_debug.write_card_with_generated_number fuel w = Val tt w'
    /\ track1_var w' = fst (Msre206_debug.generate_card_tracks n (lower (card_type_var w)))
    /\ track2_var w' = snd (Msre206_debug.generate_card_tracks n (lower (card_type_var w)))
    /\ written w'
       = written w
         ++ [generated_frame
               (fst (Msre206_debug.generate_card_tracks n (lower (card_type_var w))))
               (snd (Msre206_debug.generate_card_tracks n (lower (card_type_var w))))].
Proof.
  intros Hgen Hp.
  pose proof (generate_credit_card_digits _ _ _ _ _ Hgen) as Hd.
  destruct (generated_tracks_ascii n (lower (card_type_var w)) Hd) as [A1 A2].
  pose proof (encode_generated_write_command _ _ A1 A2) as He.
  pose proof (keeps_val written _ _ _ _
                (keeps_generate_credit_card written written_stable fuel _) Hgen) as W1.
  pose proof (keeps_val port_fault _ _ _ _
                (keeps_generate_credit_card port_fault port_fault_stable fuel _) Hgen) as P1.
  rewrite Hp in P1. rewrite <- W1.
  unfold Msre206_debug.write_card_with_generated_number.
  unfold bind at 1, get. unfold try_except. unfold bind at 1. rewrite Hgen.
  destruct (Msre206_debug.generate_card_tracks n (lower (card_type_var w)))
    as [t1 t2] eqn:ET.
  cbn [fst snd] in *.
  unfold Msre206_debug.connect_device, serial_open, Msre206_debug.send_command,
    Msre206_debug.log_debug_message.
  unfold bind at 1, print at 1. unfold bind at 1, modify at 1.
  unfold bind at 1, modify at 1. unfold bind at 1. unfold bind at 1.
  world_simpl. rewrite P1.
  rewrite He.
  unfold Msre206_debug.parse_response, Msre206_debug.log_debug_message, lift,
    bind, print, ret, device_write, device_read_all, time_sleep, device_close,
    modify.
  unfold ret. cbv beta iota. world_simpl.
  destruct (startswith [ESC] (rx w1 (rx_pos w1))
            && endswith [ESC; x30] (rx w1 (rx_pos w1))).
  - change (str_contains (py "successful") (py "Operation successful.")) with true.
    cbv beta iota. eexists. split; [reflexivity | repeat split].
  - destruct (startswith [ESC] (rx w1 (rx_pos w1))
              && (2 <? List.length (rx w1 (rx_pos w1)))%nat).
    + match goal with
      | |- context [if ?c then _ else _] => destruct c
      end; (eexists; split; [reflexivity | repeat split]).
    + change (str_contains (py "successful") (py "No valid response received."))
        with false.
      cbv beta iota. eexists. split; [reflexivity | repeat split].
Qed.

Lemma debug_write_card_writes (w : world) (frame : bytes) :
  port_fault w = None ->
  encode (Msre206_debug.write_command (track1_var w) (track2_var w) (track3_var w))
  = Ok frame ->
  exists w', Msre206_debug.write_card w = Val tt w'
             /\ written w' = written w ++ [frame].
Proof.
  intros Hp He.
  unfold Msre206_debug.write_card, Msre206_debug.connect_device, serial_open,
    Msre206_debug.log_debug_message.
  unfold bind at 1. unfold bind at 1. rewrite Hp.
  unfold bind at 1, print, ret. cbv beta iota.
  unfold bind at 1. unfold bind at 1, get. world_simpl.
  unfold bind at 1. world_simpl. unfold bind at 1. world_simpl.
  rewrite He. unfold lift at 1. unfold bind at 1, ret.
  unfold Msre206_debug.send_command. rewrite He.
  unfold Msre206_debug.parse_response, Msre206_debug.log_debug_message, lift,
    bind, print, ret, device_write, device_read_all, time_sleep, device_close,
    modify.
  unfold ret. cbv beta iota. world_simpl.
  destruct (startswith [ESC] (rx w (rx_pos w))
            && endswith [ESC; x30] (rx w (rx_pos w))).
  - change (str_contains (py "successful") (py "Operation successful.")) with true.
    cbv beta iota. eexists. split; [reflexivity | reflexivity].
  - destruct (startswith [ESC] (rx w (rx_pos w))
              && (2 <? List.length (rx w (rx_pos w)))%nat).
    + match goal with
      | |- context [if ?c then _ else _] => destruct c
      end; (eexists; split; [reflexivity | reflexivity]).
    + change (str_contains (py "successful") (py "No valid response received."))
        with false.
      cbv beta iota. eexists. split; [reflexivity | reflexivity].
Qed.

(** C10: the generate-and-write operation encodes its command as
    ESC 'w' ESC 's' ESC 01 t1 ESC 02 t2 FS.  Against the frame of the manual
    write for the same tracks it lacks the track 3 token ESC 03 t3 and the
    '?' before FS, so the two frames differ.  When the generator returns a
    number, the operation installs the two tracks rendered from it and
    writes exactly that frame. *)
Theorem generated_write_omits_track3 :
  (forall t1 t2,
     Msre206_debug.generated_write_command t1 t2
     = [cESC; 119; cESC; 115; cESC; 1]%N ++ t1 ++ [cESC; 2%N] ++ t2 ++ [cFS])
  /\ (forall t1 t2 t3,
        Msre206_debug.write_command t1 t2 t3
        = [cESC; 119; cESC; 115; cESC; 1]%N ++ t1 ++ [cESC; 2%N] ++ t2
          ++ [cESC; 3%N] ++ t3 ++ [cQM; cFS])
  /\ (forall t1 t2 t3 f g,
        encode (Msre206_debug.generated_write_command t1 t2) = Ok f ->
        encode (Msre206_debug.write_command t1 t2 t3) = Ok g ->
        (exists p e3, encode t3 = Ok e3 /\ f = p ++ [x1c]
                      /\ g = p ++ [x1b; x03] ++ e3 ++ [x3f; x1c])
        /\ f <> g)
  /\ (forall fuel w n w1,
        Msre206_debug.generate_credit_card fuel (lower (card_type_var w)) w
        = Val n w1 ->
        port_fault w = None ->
        exists w',
          Msre206_debug.write_card_with_generated_number fuel w = Val tt w'
          /\ track1_var w'
             = fst (Msre206_debug.generate_card_tracks n (lower (card_type_var w)))
          /\ track2_var w'
             = snd (Msre206_debug.generate_card_tracks n (lower (card_type_var w)))
          /\ written w'
             = written w
               ++ [generated_frame
                     (fst (Msre206_debug.generate_card_tracks n
                             (lower (card_type_var w))))
                     (snd (Msre206_debug.generate_card_tracks n
                             (lower (card_type_var w))))])
  /\ (forall w g,
        port_fault w = None ->
        encode (Msre206_debug.write_command (track1_var w) (track2_var w)
                  (track3_var w)) = Ok g ->
        exists w',
          Msre206_debug.write_card w = Val tt w'
          /\ written w' = written w ++ [g]).
Proof.
  split; [reflexivity | idtac].
  split; [reflexivity | idtac].
  split; [exact write_frames_differ | idtac].
  split; [exact generated_write_run | exact debug_write_card_writes].
Qed.

(** Generate-and-write on the tape on which the Visa number comes out. *)
Lemma generated_write_omits_track3_witness :
  exists w',
    Msre206_debug.write_card_with_generated_number 1
      (with_rnd (lucky_tape Visa) world0) = Val tt w'
    /\ track1_var w'
       = fst (Msre206_debug.generate_card_tracks (py "4000000000000051")
                (lower (card_type_var (with_rnd (lucky_tape Visa) world0))))
    /\ track2_var w'
       = snd (Msre206_debug.generate_card_tracks (py "4000000000000051")
                (lower (card_type_var (with_rnd (lucky_tape Visa) world0))))
    /\ written w'
       = written (with_rnd (lucky_tape Visa) world0)
         ++ [generated_frame
               (fst (Msre206_debug.generate_card_tracks (py "4000000000000051")
                       (lower (card_type_var (with_rnd (lucky_tape Visa) world0)))))
               (snd (Msre206_debug.generate_card_tracks (py "4000000000000051")
                       (lower (card_type_var (with_rnd (lucky_tape Visa) world0)))))].
Proof.
  refine (proj1 (proj2 (proj2 (proj2 generated_write_omits_track3))) 1
            (with_rnd (lucky_tape Visa) world0) (py "4000000000000051") _ _ _).
  - vm_compute. reflexivity.
  - reflexivity.
Defined.

Example generated_frame_visa :
  generated_frame (py "%B4000000000000051^CARDHOLDER/NAME^2512101?")
                  (py ";4000000000000051=2512101?")
  = [x1b; x77; x1b; x73; x1b; x01]
    ++ ascii_bytes "%B4000000000000051^CARDHOLDER/NAME^2512101?"
    ++ [x1b; x02] ++ ascii_bytes ";4000000000000051=2512101?" ++ [x1c].
Proof. reflexivity. Qed.

(** * Further properties *)

Tactic Notation "world_simpl" "in" hyp(H) :=
  cbn [track1_var track2_var track3_var raw_data_var card_type_var out
       port_fault written rx rx_pos clock clock_pos rnd rnd_pos
       set_track1 set_track2 set_track3 set_raw_data set_out set_written
       set_rx_pos set_clock_pos set_rnd_pos] in H.

Lemma success_test (o : ResponseOutcome) :
  str_contains (py "successful") (message o)
  = match o with Success => true | _ => false end.
Proof. destruct o as [| | | | |b|]; try reflexivity. destruct b; reflexivity. Qed.

Lemma status_table_not_no_response (b : byte) : status_table b <> NoResponse.
Proof. destruct b; discriminate. Qed.

Lemma classify_no_response_iff (r : bytes) :
  classify r = NoResponse
  <-> (hd_error r <> Some x1b \/ (List.length r <= 2 /\ r <> [x1b; x30])).
Proof.
  destruct r as [|a r].
  - split; [intros _; left; discriminate | reflexivity].
  - destruct (Byte.eqb a x1b) eqn:Ea.
    + apply byte_dec_bl in Ea. subst a.
      destruct r as [|b r].
      * split; [intros _; right; split; [simpl; lia | discriminate] | reflexivity].
      * destruct r as [|c r].
        { unfold classify. cbn [starts_with_esc ends_with_esc_zero List.length].
          change (Byte.eqb x1b x1b) with true. cbn [andb].
          change (2 <? 2)%nat with false.
          destruct (Byte.eqb b x30) eqn:Eb.
          - apply byte_dec_bl in Eb. subst b. split; [discriminate | idtac].
            intros [H | [_ H]]; [exfalso; apply H; reflexivity | congruence].
          - split; [intros _ | reflexivity].
            right. split; [simpl; lia | idtac].
            intros H. injection H as ->. discriminate. }
        { split.
          - unfold classify.
            change (starts_with_esc (x1b :: b :: c :: r)) with true.
            cbn [andb].
            destruct (ends_with_esc_zero (x1b :: b :: c :: r)); [discriminate | idtac].
            change (2 <? List.length (x1b :: b :: c :: r))%nat with true.
            intros H. exfalso. exact (status_table_not_no_response _ H).
          - intros [H | [H _]]; [exfalso; apply H; reflexivity | simpl in H; lia]. }
    + split.
      * intros _. left. simpl. intros H. injection H as ->. discriminate.
      * intros _. unfold classify. cbn [starts_with_esc]. rewrite Ea. reflexivity.
Qed.

(** X1: [parse_response] answers "No valid response received." exactly for
    the replies that do not start with ESC and for the replies of at most
    two bytes other than ESC '0'; a two byte status reply such as ESC '1'
    is therefore not reported as an error of the device. *)
Theorem no_response_replies (r : bytes) (w : world) :
  value_of (Msre206_cc.parse_response r w) = Some (py "No valid response received.")
  <-> (hd_error r <> Some x1b \/ (List.length r <= 2 /\ r <> [x1b; x30])).
Proof.
  destruct (parse_response_classify r w) as [w' E]. rewrite E. cbn [value_of].
  rewrite <- classify_no_response_iff. split.
  - intros H. injection H as H. apply (message_inj _ NoResponse). exact H.
  - intros ->. reflexivity.
Qed.

(** The two byte reply ESC '1'. *)
Lemma no_response_replies_witness :
  value_of (Msre206_cc.parse_response [x1b; x31] world0)
  = Some (py "No valid response received.").
Proof.
  apply (proj2 (no_response_replies [x1b; x31] world0)).
  right. split; [simpl; lia | discriminate].
Defined.

Lemma parse_response_run (r : bytes) (w : world) :
  exists line,
    Msre206_cc.parse_response r w
    = Val (message (classify r)) (set_out (out w ++ [line]) w).
Proof.
  unfold Msre206_cc.parse_response, classify.
  rewrite startswith_esc, endswith_esc_zero.
  destruct (starts_with_esc r && ends_with_esc_zero r).
  - eexists. reflexivity.
  - destruct (starts_with_esc r && (2 <? List.length r)%nat) eqn:E.
    + assert (Hr : r <> []) by (destruct r; [discriminate | congruence]).
      rewrite (last_slice_last r Hr), status_lookup.
      eexists. reflexivity.
    + eexists. reflexivity.
Qed.

(** The exchange every status operation makes: the command is sent, the
    reply parsed, the outcome printed, the port closed. *)
Lemma status_exchange (d : Serial) (command : str) (frame : bytes)
    (ok_msg : str) (w : world) :
  encode command = Ok frame ->
  exists line,
    (response <- Msre206_cc.send_command (Some d) command ;;
     status_message <- Msre206_cc.parse_response response ;;
     (if str_contains (py "successful") status_message
      then print ok_msg
      else print (py "Error: " ++ status_message)) ;;
     device_close d) w
    = Val tt
        (set_out
           (out w ++ [py "Sending command: " ++ hex frame;
                      py "Raw response: " ++ hex (rx w (rx_pos w));
                      line;
                      report ok_msg (rx w (rx_pos w))])
           (set_rx_pos (S (rx_pos w)) (set_written (written w ++ [frame]) w))).
Proof.
  intros He. unfold Msre206_cc.send_command. rewrite He.
  unfold lift, bind at 1. unfold bind at 1, ret at 1.
  unfold bind at 1, print at 1. unfold bind at 1, ret at 1.
  unfold bind at 1, device_write, modify. unfold bind at 1, time_sleep, ret at 1.
  unfold bind at 1, device_read_all. world_simpl.
  unfold bind at 1, print at 1. unfold ret at 1. world_simpl.
  unfold bind at 1.
  match goal with
  | |- context [Msre206_cc.parse_response ?r ?w1] =>
    destruct (parse_response_run r w1) as [line E]
  end.
  rewrite E. exists line. rewrite success_test. unfold report.
  destruct (classify (rx w (rx_pos w)));
    unfold bind, print, device_close, ret; world_simpl;
    rewrite <- !app_assoc; reflexivity.
Qed.

Lemma last_of_four {A} (l : list A) (a b c d x : A) :
  last (l ++ [a; b; c; d]) x = d.
Proof.
  replace (l ++ [a; b; c; d]) with ((l ++ [a; b; c]) ++ [d])
    by (rewrite <- app_assoc; reflexivity).
  apply last_last.
Qed.

Lemma connect_ok (w : world) :
  port_fault w = None ->
  Msre206_cc.connect_device w
  = Val (Some TtyUSB0) (set_out (out w ++ [py "Device connected successfully."]) w).
Proof.
  intros Hp. unfold Msre206_cc.connect_device, serial_open, bind. rewrite Hp.
  reflexivity.
Qed.

Lemma connect_failed (w : world) (msg : str) :
  port_fault w = Some msg ->
  Msre206_cc.connect_device w
  = Val None (set_out (out w ++ [py "Connection error: " ++ msg]) w).
Proof.
  intros Hp. unfold Msre206_cc.connect_device, serial_open, bind. rewrite Hp.
  reflexivity.
Qed.

(** X2: with a port that opens, [set_lo_co] sends the frame 1B 79 and
    [set_hi_co] the frame 1B 78, each reads one reply, leaves the Tk
    variables alone and prints last its success message when the reply is
    classified Success and the error line with the status message
    otherwise. *)
Theorem coercivity_commands (w : world) :
  port_fault w = None ->
  (exists w',
     Msre206_cc.set_lo_co w = Val tt w'
     /\ written w' = written w ++ [[x1b; x79]]
     /\ last (out w') [] = report (py "Set to LO-CO successfully.") (rx w (rx_pos w))
     /\ rx_pos w' = S (rx_pos w)
     /\ same_vars w w')
  /\ (exists w',
        Msre206_cc.set_hi_co w = Val tt w'
        /\ written w' = written w ++ [[x1b; x78]]
        /\ last (out w') [] = report (py "Set to HI-CO successfully.") (rx w (rx_pos w))
        /\ rx_pos w' = S (rx_pos w)
        /\ same_vars w w').
Proof.
  intros Hp. split.
  - unfold Msre206_cc.set_lo_co. unfold bind at 1. rewrite (connect_ok w Hp).
    match goal with
    | |- context [Msre206_cc.send_command _ _] =>
      destruct (status_exchange TtyUSB0 Msre206_cc.lo_co_command [x1b; x79]
                  (py "Set to LO-CO successfully.")
                  (set_out (out w ++ [py "Device connected successfully."]) w)
                  eq_refl) as [line E]
    end.
    rewrite E. eexists. split; [reflexivity | idtac]. world_simpl.
    split; [reflexivity | idtac].
    split.
    { apply last_of_four. }
    split; [reflexivity | repeat split].
  - unfold Msre206_cc.set_hi_co. unfold bind at 1. rewrite (connect_ok w Hp).
    match goal with
    | |- context [Msre206_cc.send_command _ _] =>
      destruct (status_exchange TtyUSB0 Msre206_cc.hi_co_command [x1b; x78]
                  (py "Set to HI-CO successfully.")
                  (set_out (out w ++ [py "Device connected successfully."]) w)
                  eq_refl) as [line E]
    end.
    rewrite E. eexists. split; [reflexivity | idtac]. world_simpl.
    split; [reflexivity | idtac].
    split.
    { apply last_of_four. }
    split; [reflexivity | repeat split].
Qed.

(** Against a silent device both commands report the missing reply. *)
Lemma coercivity_commands_witness :
  (exists w',
     Msre206_cc.set_lo_co world0 = Val tt w'
     /\ written w' = [[x1b; x79]]
     /\ last (out w') [] = py "Error: No valid response received.")
  /\ (exists w',
        Msre206_cc.set_hi_co world0 = Val tt w'
        /\ written w' = [[x1b; x78]]
        /\ last (out w') [] = py "Error: No valid response received.").
Proof.
  destruct (coercivity_commands world0 eq_refl) as [L H].
  destruct L as (w1 & E1 & W1 & O1 & _). destruct H as (w2 & E2 & W2 & O2 & _).
  split; [exists w1 | exists w2]; repeat split; assumption.
Defined.

Lemma encode_write_raw_command (raw_data : str) (e : bytes) :
  encode raw_data = Ok e ->
  encode (Msre206_cc.write_raw_command raw_data) = Ok ([x1b; x6e] ++ e ++ [x1c]).
Proof.
  intros He. unfold Msre206_cc.write_raw_command.
  rewrite (encode_app [cESC]), (encode_app (py "n")), (encode_app raw_data), He.
  reflexivity.
Qed.

Lemma write_raw_data_run (w : world) (e : bytes) :
  port_fault w = None ->
  encode (raw_data_var w) = Ok e ->
  exists w',
    Msre206_cc.write_raw_data w = Val tt w'
    /\ written w' = written w ++ [[x1b; x6e] ++ e ++ [x1c]]
    /\ last (out w') [] = report (py "Raw data written successfully.") (rx w (rx_pos w))
    /\ rx_pos w' = S (rx_pos w)
    /\ same_vars w w'.
Proof.
  intros Hp He. pose proof (encode_write_raw_command _ _ He) as Hc.
  unfold Msre206_cc.write_raw_data. unfold bind at 1. rewrite (connect_ok w Hp).
  unfold bind at 1, get. world_simpl. rewrite Hc.
  unfold lift. unfold bind at 1, ret at 1. unfold bind at 1, print at 1.
  match goal with
  | |- context [bind (Msre206_cc.send_command _ ?c) _ ?w1] =>
    destruct (status_exchange TtyUSB0 c _ (py "Raw data written successfully.")
                w1 Hc) as [line E]
  end.
  rewrite E.
  eexists. split; [reflexivity | idtac]. world_simpl.
  split; [reflexivity | idtac].
  split; [apply last_of_four | idtac].
  split; [reflexivity | repeat split].
Qed.

(** X3: with a port that opens and raw data that can be encoded,
    [write_raw_data] sends ESC 'n', the encoded text of the raw data field
    and FS as one frame, reads one reply, leaves the Tk variables alone and
    prints last the outcome of that reply. *)
Theorem write_raw_data_frame (w : world) (e : bytes) :
  port_fault w = None ->
  encode (raw_data_var w) = Ok e ->
  exists w',
    Msre206_cc.write_raw_data w = Val tt w'
    /\ written w' = written w ++ [[x1b; x6e] ++ e ++ [x1c]]
    /\ last (out w') [] = report (py "Raw data written successfully.") (rx w (rx_pos w))
    /\ rx_pos w' = S (rx_pos w)
    /\ same_vars w w'.
Proof. exact (write_raw_data_run w e). Qed.

(** Raw data 41 against a device that answers AB. *)
Lemma write_raw_data_frame_witness :
  exists w',
    Msre206_cc.write_raw_data (set_raw_data (py "41") world_chunks) = Val tt w'
    /\ written w' = [[x1b; x6e; x34; x31; x1c]]
    /\ last (out w') [] = py "Error: No valid response received.".
Proof.
  destruct (write_raw_data_frame (set_raw_data (py "41") world_chunks)
              [x34; x31] eq_refl eq_refl) as (w' & E & W & O & _).
  exists w'. repeat split; assumption.
Defined.

(** X4: with a port that opens and tracks that can be encoded, [write_card]
    sends one frame, reads one reply, leaves the Tk variables alone and
    prints last "Data written successfully." when the reply is classified
    Success and the error line with the status message otherwise. *)
Theorem write_card_report (w : world) (frame : bytes) :
  port_fault w = None ->
  encode (Msre206_cc.write_command (track1_var w) (track2_var w) (track3_var w))
  = Ok frame ->
  exists w',
    Msre206_cc.write_card w = Val tt w'
    /\ written w' = written w ++ [frame]
    /\ last (out w') [] = report (py "Data written successfully.") (rx w (rx_pos w))
    /\ rx_pos w' = S (rx_pos w)
    /\ same_vars w w'.
Proof.
  intros Hp Hc.
  unfold Msre206_cc.write_card. unfold bind at 1. rewrite (connect_ok w Hp).
  unfold bind at 1, print at 1. unfold bind at 1, get. world_simpl.
  unfold bind at 1. world_simpl. unfold bind at 1. world_simpl.
  rewrite Hc.
  unfold lift. unfold bind at 1, ret at 1. unfold bind at 1, print at 1.
  match goal with
  | |- context [bind (Msre206_cc.send_command _ ?c) _ ?w1] =>
    destruct (status_exchange TtyUSB0 c _ (py "Data written successfully.")
                w1 Hc) as [line E]
  end.
  rewrite E.
  eexists. split; [reflexivity | idtac]. world_simpl.
  split; [reflexivity | idtac].
  split; [apply last_of_four | idtac].
  split; [reflexivity | repeat split].
Qed.

(** The tracks A, B, C against a silent device. *)
Lemma write_card_report_witness :
  exists w',
    Msre206_cc.write_card (with_tracks (py "A") (py "B") (py "C") world0)
    = Val tt w'
    /\ last (out w') [] = py "Error: No valid response received.".
Proof.
  destruct (write_card_report (with_tracks (py "A") (py "B") (py "C") world0)
              _ eq_refl eq_refl) as (w' & E & _ & O & _).
  exists w'. split; assumption.
Defined.

(** X5: with a port that opens, [reset_device] sends the frame 1B 61 and
    reports a successful reset for every reply that is not empty, whatever
    its bytes, and a failed reset for the empty reply; the reply is not
    parsed. *)
Theorem reset_reports_any_reply (w : world) :
  port_fault w = None ->
  exists w',
    Msre206_cc.reset_device w = Val tt w'
    /\ written w' = written w ++ [[x1b; x61]]
    /\ last (out w') []
       = (match rx w (rx_pos w) with
          | [] => py "Failed to reset the device."
          | _ :: _ => py "Device reset successfully."
          end)
    /\ rx_pos w' = S (rx_pos w)
    /\ same_vars w w'.
Proof.
  intros Hp.
  unfold Msre206_cc.reset_device. unfold bind at 1. rewrite (connect_ok w Hp).
  unfold Msre206_cc.send_command.
  change (encode Msre206_cc.reset_command) with (Ok [x1b; x61]).
  unfold lift, bind, print, ret, device_write, device_read_all, time_sleep,
    device_close, modify.
  unfold ret. cbv beta iota. world_simpl.
  destruct (rx w (rx_pos w)) as [|b r];
    (eexists; split; [reflexivity | idtac]; world_simpl;
     split; [reflexivity | idtac];
     split; [apply (last_last _ _ []) | idtac];
     split; [reflexivity | repeat split]).
Qed.

(** A device that answers AB, which is no status reply, and a silent one. *)
Lemma reset_reports_any_reply_witness :
  (exists w',
     Msre206_cc.reset_device world_chunks = Val tt w'
     /\ last (out w') [] = py "Device reset successfully.")
  /\ (exists w',
        Msre206_cc.reset_device world0 = Val tt w'
        /\ last (out w') [] = py "Failed to reset the device.").
Proof.
  destruct (reset_reports_any_reply world_chunks eq_refl) as (w1 & E1 & _ & O1 & _).
  destruct (reset_reports_any_reply world0 eq_refl) as (w2 & E2 & _ & O2 & _).
  split; [exists w1 | exists w2]; split; assumption.
Defined.

(** X6: when the port does not open, every operation of msre206_cc.py
    prints the connection error and returns: nothing is sent, nothing is
    read, no variable changes. *)
Theorem connection_failure_aborts (w : world) (msg : str) (fuel : nat) :
  port_fault w = Some msg ->
  Msre206_cc.read_card fuel w = Val tt (connection_error msg w)
  /\ Msre206_cc.write_card w = Val tt (connection_error msg w)
  /\ Msre206_cc.read_raw_data fuel w = Val tt (connection_error msg w)
  /\ Msre206_cc.write_raw_data w = Val tt (connection_error msg w)
  /\ Msre206_cc.set_lo_co w = Val tt (connection_error msg w)
  /\ Msre206_cc.set_hi_co w = Val tt (connection_error msg w)
  /\ Msre206_cc.reset_device w = Val tt (connection_error msg w).
Proof.
  intros Hp.
  unfold Msre206_cc.read_card, Msre206_cc.write_card, Msre206_cc.read_raw_data,
    Msre206_cc.write_raw_data, Msre206_cc.set_lo_co, Msre206_cc.set_hi_co,
    Msre206_cc.reset_device.
  unfold bind. rewrite (connect_failed w msg Hp).
  repeat split.
Qed.

(** A write with no port. *)
Lemma connection_failure_aborts_witness :
  Msre206_cc.write_card world_no_port
  = Val tt (connection_error (py "could not open port") world_no_port).
Proof.
  exact (proj1 (proj2 (connection_failure_aborts world_no_port
                         (py "could not open port") 1 eq_refl))).
Defined.

(** X7: for a card type that is not in the prefix table, the generator of
    msre206_debug.py raises ValueError before it draws anything, and the
    generate-and-write operation logs "Error: Unsupported card type." and
    does nothing else. *)
Theorem unsupported_card_type (fuel : nat) (w : world) :
  dict_find Msre206_debug.prefixes (lower (card_type_var w)) = None ->
  Msre206_debug.generate_credit_card fuel (lower (card_type_var w)) w
  = Exc (ValueError (py "Unsupported card type.")) w
  /\ Msre206_debug.write_card_with_generated_number fuel w
     = Val tt (set_out (out w ++ [py "Error: Unsupported card type."]) w).
Proof.
  intros H. split.
  - unfold Msre206_debug.generate_credit_card. rewrite H. reflexivity.
  - unfold Msre206_debug.write_card_with_generated_number.
    unfold bind at 1, get. unfold try_except, bind at 1.
    unfold Msre206_debug.generate_credit_card. rewrite H. reflexivity.
Qed.

(** The card type Diners. *)
Lemma unsupported_card_type_witness :
  Msre206_debug.write_card_with_generated_number 3 world_diners
  = Val tt (set_out (out world_diners ++ [py "Error: Unsupported card type."])
              world_diners).
Proof.
  exact (proj2 (unsupported_card_type 3 world_diners eq_refl)).
Defined.

Lemma generate_loop_world (fuel : nat) (prefix : str) (length : Z) :
  forall w n w',
    Msre206_debug.generate_loop fuel prefix length w = Val n w' ->
    exists k, w' = set_rnd_pos k w.
Proof.
  induction fuel as [|fuel IH]; intros w n w' H.
  - discriminate.
  - cbn [Msre206_debug.generate_loop] in H.
    destruct (join_range_digits _ randint_digit
                (Z.to_nat (length - Z.of_nat (List.length prefix) - 1)) w)
      as (ds & k & E & L & D).
    unfold bind at 1 in H. rewrite E in H.
    unfold bind at 1 in H.
    destruct (Msre206_debug.append_check_digit (prefix ++ ds)) as [cn|e] eqn:EA;
      [idtac | discriminate].
    cbn [lift ret] in H. unfold bind at 1 in H.
    destruct (Luhn.verify cn) as [valid|e] eqn:EV; [idtac | discriminate].
    cbn [lift ret] in H. destruct valid.
    + injection H as _ <-. exists k. reflexivity.
    + destruct (IH _ _ _ H) as [k' ->]. exists k'. reflexivity.
Qed.

Lemma generate_credit_card_world (fuel : nat) (card_type : str) (w : world)
    (n : str) (w' : world) :
  Msre206_debug.generate_credit_card fuel card_type w = Val n w' ->
  exists k, w' = set_rnd_pos k w.
Proof.
  intros H. unfold Msre206_debug.generate_credit_card, dict_getitem in H.
  destruct (dict_find Msre206_debug.prefixes card_type) as [choices|] eqn:EF;
    [idtac | discriminate].
  cbn [lift] in H. unfold bind at 1 in H. cbn [ret] in H.
  unfold bind at 1 in H.
  destruct (random_choice choices w) as [p w1|e w1|] eqn:E;
    [idtac | discriminate | discriminate].
  assert (Hw1 : w1 = set_rnd_pos (S (rnd_pos w)) w).
  { unfold random_choice, bind, draw in E.
    destruct (getitem choices _) as [a|e]; cbn [lift ret raise] in E;
      [idtac | discriminate].
    injection E as _ <-. reflexivity. }
  subst w1. destruct (generate_loop_world _ _ _ _ _ _ H) as [k ->].
  exists k. reflexivity.
Qed.

(** X8: when the generator returns a number but the port does not open,
    the generate-and-write operation has already installed the two tracks
    of that number; track 3 keeps its value, nothing is sent and the last
    line logged is the connection error. *)
Theorem generated_tracks_kept_without_port (fuel : nat) (w : world) (n : str)
    (w1 : world) (msg : str) :
  Msre206_debug.generate_credit_card fuel (lower (card_type_var w)) w = Val n w1 ->
  port_fault w = Some msg ->
  exists w',
    Msre206_debug.write_card_with_generated_number fuel w = Val tt w'
    /\ track1_var w'
       = fst (Msre206_debug.generate_card_tracks n (lower (card_type_var w)))
    /\ track2_var w'
       = snd (Msre206_debug.generate_card_tracks n (lower (card_type_var w)))
    /\ track3_var w' = track3_var w
    /\ written w' = written w
    /\ last (out w') [] = py "Connection error: " ++ msg.
Proof.
  intros Hgen Hp.
  destruct (generate_credit_card_world _ _ _ _ _ Hgen) as [k ->].
  unfold Msre206_debug.write_card_with_generated_number.
  unfold bind at 1, get. unfold try_except. unfold bind at 1. rewrite Hgen.
  destruct (Msre206_debug.generate_card_tracks n (lower (card_type_var w)))
    as [t1 t2] eqn:ET.
  cbn [fst snd].
  unfold Msre206_debug.connect_device, serial_open,
    Msre206_debug.log_debug_message.
  unfold bind at 1, print at 1. unfold bind at 1, modify at 1.
  unfold bind at 1, modify at 1. unfold bind at 1. unfold bind at 1.
  world_simpl. rewrite Hp.
  unfold bind, print, ret. world_simpl.
  eexists. split; [reflexivity | idtac]. world_simpl.
  repeat split. apply (last_last _ _ []).
Qed.

(** The Visa number of the tape above, with no port. *)
Lemma generated_tracks_kept_without_port_witness :
  exists w',
    Msre206_debug.write_card_with_generated_number 1
      (with_rnd (lucky_tape Visa) world_no_port) = Val tt w'
    /\ track2_var w' = py ";4000000000000051=2512101?"
    /\ written w' = [].
Proof.
  eassert (H : Msre206_debug.generate_credit_card 1
                 (lower (card_type_var (with_rnd (lucky_tape Visa) world_no_port)))
                 (with_rnd (lucky_tape Visa) world_no_port)
               = Val (py "4000000000000051") _) by (vm_compute; reflexivity).
  destruct (generated_tracks_kept_without_port _ _ _ _ _ H eq_refl)
    as (w' & E & _ & T2 & _ & W & _).
  exists w'. repeat split; assumption.
Defined.

(** ** The checksum of msre206_debug.py against the luhn package *)

Lemma succ_parity (k : nat) : (S k mod 2 =? 0)%nat = negb (k mod 2 =? 0)%nat.
Proof.
  pose proof (Nat.div_mod_eq k 2) as Dk.
  pose proof (Nat.div_mod_eq (S k) 2) as Ds.
  pose proof (Nat.mod_upper_bound k 2 ltac:(lia)) as Bk.
  pose proof (Nat.mod_upper_bound (S k) 2 ltac:(lia)) as Bs.
  destruct (Nat.eqb_spec (S k mod 2) 0), (Nat.eqb_spec (k mod 2) 0);
    simpl; try reflexivity; lia.
Qed.

(** The terms the generator expression sums, for digits listed from the
    right and numbered from [k]. *)
Lemma debug_terms (r : str) :
  all_digits r = true ->
  forall k,
    exists terms,
      pmap (fun id : nat * N =>
              let (i, d) := id in
              if (i mod 2 =? 0)%nat then int_of_char d
              else pbind (int_of_char d) (fun v => Ok (sum_divmod10 (v * 2))))
           (combine (seq k (List.length r)) r) = Ok terms
      /\ zsum terms
         = if (k mod 2 =? 0)%nat
           then (zsum (every_other (map digit_value r))
                 + zsum (map (fun d => sum_divmod10 (2 * d))
                           (every_other (tl (map digit_value r)))))%Z
           else (zsum (map (fun d => sum_divmod10 (2 * d))
                         (every_other (map digit_value r)))
                 + zsum (every_other (tl (map digit_value r))))%Z.
Proof.
  induction r as [|d r IH]; intros Hd k.
  - exists []. split; [reflexivity | idtac].
    destruct (k mod 2 =? 0)%nat; reflexivity.
  - cbn [all_digits forallb] in Hd. apply andb_prop in Hd. destruct Hd as [Hc Hr].
    destruct (IH Hr (S k)) as (terms & E & S).
    cbn [List.length seq combine pmap map tl].
    rewrite succ_parity in S.
    rewrite !every_other_cons. cbn [map].
    destruct (k mod 2 =? 0)%nat; cbn [negb] in S.
    + rewrite (int_of_digit d Hc). cbn [pbind]. rewrite E. cbn [pbind].
      eexists. split; [reflexivity | idtac].
      rewrite !zsum_cons, S. lia.
    + rewrite (int_of_digit d Hc). cbn [pbind]. rewrite E. cbn [pbind].
      eexists. split; [reflexivity | idtac].
      rewrite !zsum_cons, S. rewrite (Z.mul_comm (digit_value d) 2). lia.
Qed.

Lemma all_digits_rev (s : str) : all_digits (rev s) = all_digits s.
Proof.
  induction s as [|c s IH]; [reflexivity | idtac].
  cbn [rev]. rewrite all_digits_app, IH. cbn [all_digits forallb].
  rewrite andb_true_r. apply andb_comm.
Qed.

Lemma luhn_checksum_digits (s : str) :
  all_digits s = true ->
  Luhn.checksum s
  = Ok ((zsum (every_other (map digit_value (rev s)))
         + zsum (map (fun d => sum_divmod10 (2 * d))
                   (every_other (tl (map digit_value (rev s)))))) mod 10)%Z.
Proof.
  intros H. unfold Luhn.checksum. rewrite (pmap_int_digits s H).
  unfold pbind, slice_m1_m2, slice_m2_m2. rewrite map_rev. reflexivity.
Qed.

Lemma debug_checksum_eq (s : str) :
  all_digits s = true -> Msre206_debug.checksum_of s = Luhn.checksum s.
Proof.
  intros H. rewrite (luhn_checksum_digits s H).
  unfold Msre206_debug.checksum_of, enumerate_reversed.
  assert (Hr : all_digits (rev s) = true) by (rewrite all_digits_rev; exact H).
  destruct (debug_terms (rev s) Hr 0) as (terms & E & S).
  rewrite length_rev in E. rewrite E. cbn [pbind]. rewrite S. reflexivity.
Qed.

Lemma check_digit_decides (c w : Z) :
  (0 <= c < 10)%Z ->
  ((((10 - c) mod 10 + w) mod 10 =? 0) = (c =? w mod 10))%Z.
Proof.
  intros Hc. rewrite <- Z.add_mod_idemp_r by lia.
  pose proof (Z.mod_pos_bound w 10 ltac:(lia)) as Ht.
  set (t := (w mod 10)%Z) in *. clearbody t.
  assert (C : (c = 0 \/ c = 1 \/ c = 2 \/ c = 3 \/ c = 4 \/ c = 5 \/ c = 6
               \/ c = 7 \/ c = 8 \/ c = 9)%Z) by lia.
  assert (T : (t = 0 \/ t = 1 \/ t = 2 \/ t = 3 \/ t = 4 \/ t = 5 \/ t = 6
               \/ t = 7 \/ t = 8 \/ t = 9)%Z) by lia.
  clear Hc Ht.
  repeat (destruct C as [-> | C]);
    repeat (destruct T as [-> | T]); try subst c; try subst t; reflexivity.
Qed.

(** X9: for every digit string, the sum lines 89 and 90 of
    msre206_debug.py compute is the checksum the luhn package computes for
    that very string, the one of a number whose check digit is in place.
    The number built with the digit derived from it is one digit longer,
    and [verify] accepts it exactly when that checksum equals the checksum
    of the string extended by a zero. *)
Theorem debug_checksum_is_verification_sum (s : str) :
  all_digits s = true ->
  exists c t,
    Luhn.checksum s = Ok c
    /\ Msre206_debug.checksum_of s = Ok c
    /\ Luhn.checksum (s ++ py "0") = Ok t
    /\ exists n,
         Msre206_debug.append_check_digit s = Ok n
         /\ List.length n = S (List.length s)
         /\ Luhn.verify n = Ok (c =? t)%Z.
Proof.
  intros H.
  pose proof (luhn_checksum_digits s H) as EC.
  set (c := ((zsum (every_other (map digit_value (rev s)))
              + zsum (map (fun d => sum_divmod10 (2 * d))
                        (every_other (tl (map digit_value (rev s)))))) mod 10)%Z)
    in EC.
  assert (Hc : (0 <= c < 10)%Z) by (apply Z.mod_pos_bound; lia).
  pose proof (checksum_snoc s 48%N H eq_refl) as ET.
  change (digit_value 48) with 0%Z in ET. rewrite Z.add_0_l in ET.
  exists c, (luhn_weight (rev (map digit_value s)) mod 10)%Z.
  split; [exact EC | idtac].
  split; [rewrite (debug_checksum_eq s H); exact EC | idtac].
  split; [exact ET | idtac].
  assert (Hg : (0 <= (10 - c) mod 10 < 10)%Z) by (apply Z.mod_pos_bound; lia).
  destruct (digit_of_int _ Hg) as [Hd Hv].
  exists (s ++ [(48 + Z.to_N ((10 - c) mod 10))%N]).
  assert (EA : Msre206_debug.append_check_digit s
               = Ok (s ++ [(48 + Z.to_N ((10 - c) mod 10))%N])).
  { unfold Msre206_debug.append_check_digit.
    rewrite (debug_checksum_eq s H), EC. unfold pbind.
    rewrite (str_of_int_digit _ Hg). reflexivity. }
  split; [exact EA | idtac].
  split; [rewrite length_app; simpl; lia | idtac].
  unfold Luhn.verify. rewrite (checksum_snoc s _ H Hd). unfold pbind.
  rewrite Hv. rewrite (check_digit_decides c _ Hc). reflexivity.
Qed.

(** The prefix 400000000000000: checksum 4 against 8, so the number built
    from it is rejected. *)
Lemma debug_checksum_is_verification_sum_witness :
  exists c t,
    Luhn.checksum (py "400000000000000") = Ok c
    /\ Msre206_debug.checksum_of (py "400000000000000") = Ok c
    /\ Luhn.checksum (py "400000000000000" ++ py "0") = Ok t
    /\ exists n,
         Msre206_debug.append_check_digit (py "400000000000000") = Ok n
         /\ List.length n = 16
         /\ Luhn.verify n = Ok (c =? t)%Z.
Proof.
  exact (debug_checksum_is_verification_sum (py "400000000000000") eq_refl).
Defined.

Lemma append_check_digit_shape (s n : str) :
  Msre206_debug.append_check_digit s = Ok n ->
  exists c, n = s ++ [c] /\ is_digit c = true.
Proof.
  unfold Msre206_debug.append_check_digit.
  destruct (Msre206_debug.checksum_of s) as [c|e]; unfold pbind;
    [idtac | discriminate].
  intros H.
  assert (E : n = s ++ str_of_int ((10 - c) mod 10)) by congruence.
  assert (Hg : (0 <= (10 - c) mod 10 < 10)%Z) by (apply Z.mod_pos_bound; lia).
  rewrite (str_of_int_digit _ Hg) in E.
  eexists. split; [exact E | apply (digit_of_int _ Hg)].
Qed.

Lemma generate_loop_shape (fuel : nat) (prefix : str) (length : Z) :
  forall w n w',
    Msre206_debug.generate_loop fuel prefix length w = Val n w' ->
    exists rest, n = prefix ++ rest.
Proof.
  induction fuel as [|fuel IH]; intros w n w' H.
  - discriminate.
  - cbn [Msre206_debug.generate_loop] in H.
    destruct (join_range_digits _ randint_digit
                (Z.to_nat (length - Z.of_nat (List.length prefix) - 1)) w)
      as (ds & k & E & L & D).
    unfold bind at 1 in H. rewrite E in H.
    unfold bind at 1 in H.
    destruct (Msre206_debug.append_check_digit (prefix ++ ds)) as [cn|e] eqn:EA;
      [idtac | discriminate].
    cbn [lift ret] in H. unfold bind at 1 in H.
    destruct (Luhn.verify cn) as [valid|e] eqn:EV; [idtac | discriminate].
    cbn [lift ret] in H. destruct valid.
    + injection H as <- _.
      destruct (append_check_digit_shape _ _ EA) as (c & -> & _).
      exists (ds ++ [c]). rewrite app_assoc. reflexivity.
    + exact (IH _ _ _ H).
Qed.

(** X10: a number the generator of msre206_debug.py returns consists of
    digits, starts with one of the prefixes of the requested card type,
    and the run has changed nothing in the world but the position in the
    random draws. *)
Theorem debug_number_shape (fuel : nat) (card_type : str) (w : world)
    (n : str) (w' : world) :
  Msre206_debug.generate_credit_card fuel card_type w = Val n w' ->
  exists choices p rest k,
    dict_find Msre206_debug.prefixes card_type = Some choices
    /\ In p choices
    /\ n = p ++ rest
    /\ all_digits n = true
    /\ w' = set_rnd_pos k w.
Proof.
  intros H.
  pose proof (generate_credit_card_digits _ _ _ _ _ H) as Hd.
  destruct (generate_credit_card_world _ _ _ _ _ H) as [k Hw].
  unfold Msre206_debug.generate_credit_card, dict_getitem in H.
  destruct (dict_find Msre206_debug.prefixes card_type) as [choices|] eqn:EF;
    [idtac | discriminate].
  cbn [lift] in H. unfold bind at 1 in H. cbn [ret] in H.
  unfold bind at 1 in H.
  destruct (random_choice choices w) as [p w1|e w1|] eqn:E;
    [idtac | discriminate | discriminate].
  assert (Hin : In p choices).
  { unfold random_choice, bind, draw, getitem in E.
    destruct (nth_error choices _) as [a|] eqn:En; [idtac | discriminate].
    injection E as <- _. eapply nth_error_In. exact En. }
  destruct (generate_loop_shape _ _ _ _ _ _ H) as [rest Hn].
  exists choices, p, rest, k. repeat split; assumption.
Qed.

(** The Visa number of the tape above starts with 4. *)
Lemma debug_number_shape_witness :
  exists choices p rest k,
    dict_find Msre206_debug.prefixes (py "visa") = Some choices
    /\ In p choices
    /\ py "4000000000000051" = p ++ rest
    /\ all_digits (py "4000000000000051") = true
    /\ set_rnd_pos 15 (with_rnd (lucky_tape Visa) world0)
       = set_rnd_pos k (with_rnd (lucky_tape Visa) world0).
Proof.
  apply (debug_number_shape 1 (py "visa") (with_rnd (lucky_tape Visa) world0)).
  vm_compute. reflexivity.
Defined.

Lemma format_02_two (z : Z) :
  (0 <= z < 100)%Z ->
  List.length (format_02 z) = 2 /\ all_digits (format_02 z) = true.
Proof.
  intros H. rewrite <- (Z2Nat.id z) by lia.
  assert (Hm : Z.to_nat z < 100) by lia.
  generalize dependent (Z.to_nat z). clear. intros m Hm.
  do 100 (destruct m as [|m]; [split; reflexivity | idtac]). lia.
Qed.

(** X11: [generate_credit_card] of msre206_cc.py always installs a card:
    a number made of 4 and fifteen digits that passes [verify], an expiry
    of four digits with a year from 23 to 30 and a month from 1 to 12,
    track 1 as %B number ^CARDHOLDER/ expiry ^101? and track 2 as
    ; number = expiry 101?.  Track 3, the raw data and the device are left
    alone. *)
Theorem cc_generated_card (w : world) :
  exists rest yy mm w',
    Msre206_cc.generate_credit_card w = Val tt w'
    /\ List.length rest = 15 /\ all_digits rest = true
    /\ Luhn.verify (py "4" ++ rest) = Ok true
    /\ (23 <= yy <= 30)%Z /\ (1 <= mm <= 12)%Z
    /\ List.length (format_02 yy ++ format_02 mm) = 4
    /\ all_digits (format_02 yy ++ format_02 mm) = true
    /\ track1_var w'
       = py "%B4" ++ rest ++ py "^CARDHOLDER/" ++ format_02 yy ++ format_02 mm
         ++ py "^101?"
    /\ track2_var w'
       = py ";4" ++ rest ++ py "=" ++ format_02 yy ++ format_02 mm ++ py "101?"
    /\ track3_var w' = track3_var w
    /\ raw_data_var w' = raw_data_var w
    /\ written w' = written w.
Proof.
  unfold Msre206_cc.generate_credit_card, Msre206_cc.generate_credit_card_of.
  change (dict_getitem Msre206_cc.prefixes (py "Visa")) with (Ok [py "4"]).
  change (dict_getitem Msre206_cc.lengths (py "Visa")) with (Ok 16%Z).
  cbn [lift]. unfold bind at 1. cbn [ret].
  destruct (random_choice_in [py "4"] w ltac:(discriminate)) as (p & Hin & E).
  destruct Hin as [<- | []].
  unfold bind at 1. rewrite E.
  unfold bind at 1. cbn [ret].
  change (Z.to_nat (16 - Z.of_nat (List.length (py "4")) - 1)) with 14.
  destruct (join_range_digits _ choice_digit 14 (set_rnd_pos (S (rnd_pos w)) w))
    as (ds & k & E1 & L1 & D1).
  unfold bind at 1. rewrite E1.
  assert (Dpd : all_digits (py "4" ++ ds) = true)
    by (rewrite all_digits_app, D1; reflexivity).
  destruct (luhn_append_verify (py "4" ++ ds) Dpd) as (c & Hc & EA & EV).
  rewrite EA. cbn [lift]. unfold bind at 1. cbn [ret].
  rewrite EV. cbn [lift]. unfold bind at 1. cbn [ret].
  destruct (random_randint_val 23 30 (set_rnd_pos k (set_rnd_pos (S (rnd_pos w)) w))
              ltac:(lia)) as (yy & Hyy & EY).
  unfold bind at 1. rewrite EY. unfold bind at 1.
  match goal with
  | |- context [random_randint 1 12 ?w1] =>
    destruct (random_randint_val 1 12 w1 ltac:(lia)) as (mm & Hmm & EM)
  end.
  rewrite EM.
  destruct (format_02_two yy ltac:(lia)) as [Ly Dy].
  destruct (format_02_two mm ltac:(lia)) as [Lm Dm].
  exists (ds ++ [c]), yy, mm.
  eexists. split; [reflexivity | idtac].
  split; [rewrite length_app, L1; reflexivity | idtac].
  split; [rewrite all_digits_app, D1; simpl; rewrite Hc; reflexivity | idtac].
  split; [rewrite app_assoc; exact EV | idtac].
  split; [exact Hyy | idtac]. split; [exact Hmm | idtac].
  split; [rewrite length_app, Ly, Lm; reflexivity | idtac].
  split; [rewrite all_digits_app, Dy, Dm; reflexivity | idtac].
  unfold print, modify, bind, ret. world_simpl.
  split.
  { cbn. rewrite <- !app_assoc. reflexivity. }
  split.
  { cbn. rewrite <- !app_assoc. reflexivity. }
  repeat split.
Qed.

(** ** More on the accumulation of the response *)

Lemma Qltb_true_inv (a b : Q) : Qltb a b = true -> (a < b)%Q.
Proof.
  unfold Qltb. intros H. apply Qnot_le_lt. intros L.
  apply Qle_bool_iff in L. rewrite L in H. discriminate.
Qed.

Lemma Qltb_false_inv (a b : Q) : Qltb a b = false -> (b <= a)%Q.
Proof.
  unfold Qltb. intros H. apply Qle_bool_iff.
  destruct (Qle_bool b a); [reflexivity | discriminate].
Qed.

Lemma read_loop_sound (d : Serial) (start timeout : Q) :
  forall fuel data0 w data w',
    Msre206_cc.read_loop fuel d start timeout data0 w = Val data w' ->
    exists k,
      k < fuel
      /\ data = data0 ++ List.concat (map (poll w) (seq 0 k))
      /\ (forall i, i < k ->
            (clock w (clock_pos w + i) - start < timeout)%Q /\ poll w i <> [])
      /\ ((timeout <= clock w (clock_pos w + k) - start)%Q \/ poll w k = [])
      /\ same_vars w w' /\ written w' = written w
      /\ List.length data <= List.length data0 + 1024 * k.
Proof.
  induction fuel as [|fuel IH]; intros data0 w data w' H.
  - discriminate.
  - cbn [Msre206_cc.read_loop] in H. unfold bind at 1, time_time in H.
    destruct (Qltb (clock w (clock_pos w) - start) timeout) eqn:Et.
    + unfold bind at 1, device_read in H. cbn [rx rx_pos set_clock_pos] in H.
      destruct (firstn 1024 (rx w (rx_pos w))) as [|b chunk] eqn:Ec.
      * injection H as <- <-. exists 0. rewrite app_nil_r.
        split; [lia | idtac]. split; [reflexivity | idtac].
        split; [intros i Hi; lia | idtac].
        split; [right; unfold poll; rewrite Nat.add_0_r; exact Ec | idtac].
        split; [repeat split | idtac]. split; [reflexivity | lia].
      * unfold bind at 1, print in H.
        apply IH in H.
        destruct H as (k & Hk & Hd & Hb & Hs & Hv & Hw & Hl).
        exists (S k). split; [lia | idtac].
        assert (P0 : poll w 0 = b :: chunk)
          by (unfold poll; rewrite Nat.add_0_r; exact Ec).
        assert (PS : forall i, poll (set_out (out (set_rx_pos (S (rx_pos w))
                                   (set_clock_pos (S (clock_pos w)) w))
                               ++ [py "Read chunk: " ++ hex (b :: chunk)])
                              (set_rx_pos (S (rx_pos w))
                                 (set_clock_pos (S (clock_pos w)) w))) i
                               = poll w (S i)).
        { intros i. unfold poll. world_simpl. rewrite Nat.add_succ_comm.
          reflexivity. }
        split.
        { rewrite Hd. cbn [seq map List.concat]. rewrite P0, <- app_assoc.
          apply (f_equal (app data0)). apply (f_equal (app (b :: chunk))).
          apply (f_equal (@List.concat byte)).
          rewrite <- seq_shift, map_map. apply map_ext. exact PS. }
        split.
        { intros i Hi. destruct i as [|i].
          - rewrite Nat.add_0_r, P0. split; [idtac | discriminate].
            apply Qltb_true_inv. exact Et.
          - destruct (Hb i ltac:(lia)) as [H1 H2]. rewrite PS in H2.
            world_simpl in H1. rewrite Nat.add_succ_comm in H1.
            split; assumption. }
        split.
        { rewrite PS in Hs. world_simpl in Hs.
          rewrite Nat.add_succ_comm in Hs. exact Hs. }
        split; [exact Hv | idtac]. split; [exact Hw | idtac].
        rewrite length_app in Hl.
        assert (Lc : List.length (b :: chunk) <= 1024)
          by (rewrite <- Ec; apply firstn_le_length).
        lia.
    + injection H as <- <-. exists 0. rewrite app_nil_r.
      split; [lia | idtac]. split; [reflexivity | idtac].
      split; [intros i Hi; lia | idtac].
      split.
      { left. rewrite Nat.add_0_r. apply Qltb_false_inv. exact Et. }
      split; [repeat split | idtac]. split; [reflexivity | lia].
Qed.

Lemma read_until_complete_inv (fuel : nat) (d : Serial) (w : world)
    (data : bytes) (w' : world) :
  Msre206_cc.read_until_complete fuel d w = Val data w' ->
  exists k,
    k < fuel
    /\ data = List.concat (map (poll w) (seq 0 k))
    /\ (forall i, i < k -> (elapsed w i < 5 # 1)%Q /\ poll w i <> [])
    /\ ((5 # 1 <= elapsed w k)%Q \/ poll w k = [])
    /\ List.length data <= 1024 * k
    /\ same_vars w w' /\ written w' = written w.
Proof.
  intros H. unfold Msre206_cc.read_until_complete, bind, time_time in H.
  apply read_loop_sound in H.
  destruct H as (k & Hk & Hd & Hb & Hs & Hv & Hw & Hl).
  exists k. split; [exact Hk | idtac].
  split; [exact Hd | idtac].
  split.
  { intros i Hi. destruct (Hb i Hi) as [H1 H2]. world_simpl in H1.
    unfold elapsed.
    replace (clock_pos w + 1 + i) with (S (clock_pos w) + i) by lia.
    split; assumption. }
  split.
  { world_simpl in Hs. unfold elapsed.
    replace (clock_pos w + 1 + k) with (S (clock_pos w) + k) by lia.
    exact Hs. }
  split; [simpl in Hl; lia | idtac].
  split; [exact Hv | exact Hw].
Qed.

(** X12: whatever [read_until_complete] returns is the concatenation of
    the first [k] polls, all of them within the window and not empty, for
    a [k] at which the window had elapsed or the poll was empty; it holds
    at most 1024 bytes per poll, and the Tk variables and the frames sent
    are as before. *)
Theorem read_until_complete_sound (fuel : nat) (d : Serial) (w : world)
    (data : bytes) (w' : world) :
  Msre206_cc.read_until_complete fuel d w = Val data w' ->
  exists k,
    k < fuel
    /\ data = List.concat (map (poll w) (seq 0 k))
    /\ (forall i, i < k -> (elapsed w i < 5 # 1)%Q /\ poll w i <> [])
    /\ ((5 # 1 <= elapsed w k)%Q \/ poll w k = [])
    /\ List.length data <= 1024 * k
    /\ same_vars w w' /\ written w' = written w.
Proof. exact (read_until_complete_inv fuel d w data w'). Qed.

(** The read that returns ABC. *)
Lemma read_until_complete_sound_witness :
  exists k,
    k < 5
    /\ [x41; x42; x43] = List.concat (map (poll world_chunks) (seq 0 k))
    /\ List.length [x41; x42; x43] <= 1024 * k.
Proof.
  eassert (H : Msre206_cc.read_until_complete 5 TtyUSB0 world_chunks
               = Val [x41; x42; x43] _) by (vm_compute; reflexivity).
  destruct (read_until_complete_sound _ _ _ _ _ H) as (k & Hk & Hd & _ & _ & Hl & _).
  exists k. repeat split; assumption.
Defined.

Lemma read_loop_returns (d : Serial) (start timeout : Q) :
  forall j fuel data0 w,
    j < fuel ->
    (timeout <= clock w (clock_pos w + j) - start)%Q ->
    exists data w', Msre206_cc.read_loop fuel d start timeout data0 w = Val data w'.
Proof.
  induction j as [|j IH]; intros fuel data0 w Hf Ht;
    (destruct fuel as [|fuel]; [lia | idtac]);
    cbn [Msre206_cc.read_loop]; unfold bind at 1, time_time.
  - rewrite Nat.add_0_r in Ht. rewrite (Qltb_false _ _ Ht).
    eexists. eexists. reflexivity.
  - destruct (Qltb (clock w (clock_pos w) - start) timeout);
      [idtac | eexists; eexists; reflexivity].
    unfold bind at 1, device_read. world_simpl.
    destruct (firstn 1024 (rx w (rx_pos w))) as [|b chunk];
      [eexists; eexists; reflexivity | idtac].
    unfold bind at 1, print. apply IH; [lia | idtac].
    world_simpl. rewrite Nat.add_succ_comm. exact Ht.
Qed.

(** X13: [read_until_complete] returns as soon as the clock shows that five
    seconds have elapsed: if that is so at the [j]-th test of the loop
    condition at the latest, the loop makes at most [j + 1] tests. *)
Theorem read_until_complete_returns (fuel : nat) (d : Serial) (w : world) (j : nat) :
  j < fuel ->
  (5 # 1 <= elapsed w j)%Q ->
  exists data w', Msre206_cc.read_until_complete fuel d w = Val data w'.
Proof.
  intros Hf Ht. unfold Msre206_cc.read_until_complete, bind, time_time.
  apply (read_loop_returns d _ _ j); [exact Hf | idtac].
  world_simpl. unfold elapsed in Ht.
  replace (S (clock_pos w) + j) with (clock_pos w + 1 + j) by lia. exact Ht.
Qed.

(** With a clock that advances by one second per reading, the fifth test
    finds the window elapsed. *)
Lemma read_until_complete_returns_witness :
  exists data w', Msre206_cc.read_until_complete 5 TtyUSB0 world_busy = Val data w'.
Proof.
  apply (read_until_complete_returns 5 TtyUSB0 world_busy 2).
  - lia.
  - discriminate.
Defined.

(** ** Raw data *)

Lemma send_command_explicit (d : Serial) (command : str) (frame : bytes) (w : world) :
  encode command = Ok frame ->
  Msre206_cc.send_command (Some d) command w
  = Val (rx w (rx_pos w))
        (set_out ((out w ++ [py "Sending command: " ++ hex frame])
                  ++ [py "Raw response: " ++ hex (rx w (rx_pos w))])
           (set_rx_pos (S (rx_pos w)) (set_written (written w ++ [frame]) w))).
Proof.
  intros He. unfold Msre206_cc.send_command. rewrite He. reflexivity.
Qed.

Lemma read_raw_data_run (fuel k : nat) (w : world) :
  port_fault w = None ->
  k < fuel ->
  (forall i, i < k -> (elapsed w i < 5 # 1)%Q /\ raw_poll w i <> []) ->
  ((5 # 1 <= elapsed w k)%Q \/ raw_poll w k = []) ->
  exists w',
    Msre206_cc.read_raw_data fuel w = Val tt w'
    /\ raw_data_var w'
       = (match k with
          | 0 => raw_data_var w
          | S _ => hex (List.concat (map (raw_poll w) (seq 0 k)))
          end)
    /\ last (out w') []
       = (match k with
          | 0 => py "No data received from the card."
          | S _ => py "Raw Response: "
                   ++ bytes_repr (List.concat (map (raw_poll w) (seq 0 k)))
          end)
    /\ track1_var w' = track1_var w /\ track2_var w' = track2_var w
    /\ track3_var w' = track3_var w
    /\ written w' = written w ++ [[x1b; x6d]].
Proof.
  intros Hp Hk Hb Hs. unfold Msre206_cc.read_raw_data.
  unfold bind at 1. rewrite (connect_ok w Hp).
  unfold bind at 1.
  rewrite (send_command_explicit TtyUSB0 Msre206_cc.read_raw_command [x1b; x6d] _
             eq_refl).
  unfold bind at 1.
  match goal with
  | |- context [Msre206_cc.read_until_complete fuel TtyUSB0 ?w1] => set (w1' := w1)
  end.
  assert (ER : exists w2,
             Msre206_cc.read_until_complete fuel TtyUSB0 w1'
             = Val (List.concat (map (raw_poll w) (seq 0 k))) w2).
  { unfold Msre206_cc.read_until_complete, bind, time_time.
    destruct (read_loop_spec TtyUSB0 (clock w1' (clock_pos w1'))
                Msre206_cc.DEFAULT_TIMEOUT k fuel []
                (set_clock_pos (S (clock_pos w1')) w1') Hk) as [w2 E].
    - intros i Hi. destruct (Hb i Hi) as [H1 H2]. split.
      + unfold elapsed in H1. subst w1'. world_simpl.
        replace (S (clock_pos w) + i) with (clock_pos w + 1 + i) by lia.
        exact H1.
      + exact H2.
    - destruct Hs as [H | H]; [left | right; exact H].
      unfold elapsed in H. subst w1'. world_simpl.
      replace (S (clock_pos w) + k) with (clock_pos w + 1 + k) by lia.
      exact H.
    - exists w2. rewrite E. reflexivity. }
  destruct ER as [w2 ER]. rewrite ER.
  destruct (read_until_complete_inv _ _ _ _ _ ER)
    as (_ & _ & _ & _ & _ & _ & Hv & Hw).
  destruct Hv as (V1 & V2 & V3 & V4 & _).
  subst w1'. world_simpl in V1. world_simpl in V2. world_simpl in V3.
  world_simpl in V4. world_simpl in Hw.
  destruct k as [|k].
  - cbn [seq map List.concat].
    unfold bind, print, modify, device_close, ret.
    eexists. split; [reflexivity | idtac]. world_simpl.
    split; [assumption || reflexivity | idtac].
    split; [apply (last_last _ _ []) | idtac].
    repeat split; assumption.
  - destruct (Hb 0 ltac:(lia)) as [_ Hne].
    cbn [seq map List.concat].
    destruct (raw_poll w 0) as [|b c] eqn:Ep; [congruence | idtac].
    cbn [app].
    unfold bind, print, modify, device_close, ret.
    eexists. split; [reflexivity | idtac]. world_simpl.
    split; [assumption || reflexivity | idtac].
    split; [apply (last_last _ _ []) | idtac].
    repeat split; assumption.
Qed.

Lemma read_raw_data_stops (fuel : nat) (w w' : world) :
  port_fault w = None ->
  Msre206_cc.read_raw_data fuel w = Val tt w' ->
  exists k,
    k < fuel
    /\ (forall i, i < k -> (elapsed w i < 5 # 1)%Q /\ raw_poll w i <> [])
    /\ ((5 # 1 <= elapsed w k)%Q \/ raw_poll w k = []).
Proof.
  intros Hp H. unfold Msre206_cc.read_raw_data in H.
  unfold bind at 1 in H. rewrite (connect_ok w Hp) in H.
  unfold bind at 1 in H.
  rewrite (send_command_explicit TtyUSB0 Msre206_cc.read_raw_command [x1b; x6d] _
             eq_refl) in H.
  unfold bind at 1 in H.
  match type of H with
  | context [Msre206_cc.read_until_complete fuel TtyUSB0 ?w1] =>
    destruct (Msre206_cc.read_until_complete fuel TtyUSB0 w1)
      as [response w2|e w2|] eqn:ER; [idtac | discriminate | discriminate]
  end.
  apply read_until_complete_inv in ER.
  destruct ER as (k & Hk & _ & Hb & Hs & _).
  exists k. split; [exact Hk | idtac]. split.
  - intros i Hi. destruct (Hb i Hi) as [H1 H2].
    unfold elapsed in H1. unfold poll in H2.
    world_simpl in H1. world_simpl in H2. split; assumption.
  - unfold elapsed, poll in Hs. world_simpl in Hs. exact Hs.
Qed.

(** X14: with a port that opens, [read_raw_data] sends the frame 1B 6D and
    then accumulates the polls that follow the reply to the command.  If
    the first [k] of them arrive inside the window of 5 seconds and are not
    empty, and the loop stops at the next one, the run returns with the
    tracks as they were; for [k] other than 0 the raw data field shows the
    concatenation of those [k] chunks in hexadecimal and the last line
    printed is the raw response, for [k = 0] the field keeps its value and
    the last line says that no data was received.  Every run that returns
    has such a [k]. *)
Theorem read_raw_data_shows_hex (fuel : nat) (w : world) :
  port_fault w = None ->
  (forall k,
     k < fuel ->
     (forall i, i < k -> (elapsed w i < 5 # 1)%Q /\ raw_poll w i <> []) ->
     ((5 # 1 <= elapsed w k)%Q \/ raw_poll w k = []) ->
     exists w',
       Msre206_cc.read_raw_data fuel w = Val tt w'
       /\ raw_data_var w'
          = (match k with
             | 0 => raw_data_var w
             | S _ => hex (List.concat (map (raw_poll w) (seq 0 k)))
             end)
       /\ last (out w') []
          = (match k with
             | 0 => py "No data received from the card."
             | S _ => py "Raw Response: "
                      ++ bytes_repr (List.concat (map (raw_poll w) (seq 0 k)))
             end)
       /\ track1_var w' = track1_var w /\ track2_var w' = track2_var w
       /\ track3_var w' = track3_var w
       /\ written w' = written w ++ [[x1b; x6d]])
  /\ (forall w',
        Msre206_cc.read_raw_data fuel w = Val tt w' ->
        exists k,
          k < fuel
          /\ (forall i, i < k -> (elapsed w i < 5 # 1)%Q /\ raw_poll w i <> [])
          /\ ((5 # 1 <= elapsed w k)%Q \/ raw_poll w k = [])).
Proof.
  intros Hp. split.
  - intros k Hk Hb Hs. exact (read_raw_data_run fuel k w Hp Hk Hb Hs).
  - intros w' H. exact (read_raw_data_stops fuel w w' Hp H).
Qed.

(** A raw read of the device that sends C after its answer, and one of a
    silent device over the field "old". *)
Lemma read_raw_data_shows_hex_witness :
  (exists w',
     Msre206_cc.read_raw_data 5 world_chunks = Val tt w'
     /\ raw_data_var w' = py "43"
     /\ last (out w') [] = py "Raw Response: b'C'")
  /\ (exists w',
        Msre206_cc.read_raw_data 5 (set_raw_data (py "old") world0) = Val tt w'
        /\ raw_data_var w' = py "old"
        /\ last (out w') [] = py "No data received from the card.").
Proof.
  split.
  - destruct (proj1 (read_raw_data_shows_hex 5 world_chunks eq_refl) 1)
      as (w' & E & R & O & _).
    + lia.
    + intros i Hi. destruct i as [|i]; [idtac | lia].
      split; [reflexivity | discriminate].
    + right. reflexivity.
    + exists w'. split; [exact E | split; [exact R | exact O]].
  - destruct (proj1 (read_raw_data_shows_hex 5 (set_raw_data (py "old") world0)
                       eq_refl) 0)
      as (w' & E & R & O & _).
    + lia.
    + intros i Hi. lia.
    + right. reflexivity.
    + exists w'. split; [exact E | split; [exact R | exact O]].
Defined.

Lemma hex_app (a b : bytes) : hex (a ++ b) = hex a ++ hex b.
Proof. unfold hex. apply flat_map_app. Qed.

Lemma hex_length (b : bytes) : List.length (hex b) = 2 * List.length b.
Proof.
  induction b as [|x b IH]; [reflexivity | idtac].
  change (hex (x :: b)) with (hex [x] ++ hex b).
  rewrite length_app, IH. simpl. lia.
Qed.

Lemma hex_inj (a : bytes) : forall b, hex a = hex b -> a = b.
Proof.
  induction a as [|x a IH]; intros b H.
  - destruct b as [|y b]; [reflexivity | discriminate].
  - destruct b as [|y b]; [discriminate | idtac].
    change (hex (x :: a)) with (hex [x] ++ hex a) in H.
    change (hex (y :: b)) with (hex [y] ++ hex b) in H.
    cbn [hex flat_map app] in H. injection H as H1 H2 H3.
    assert (Hxy : hex [x] = hex [y]).
    { unfold hex. cbn [flat_map app]. rewrite H1, H2. reflexivity. }
    apply hex_byte_inj in Hxy. subst y. f_equal. apply IH. exact H3.
Qed.

Lemma hex_digit_ascii (n : N) : (n < 16)%N -> (hex_digit n <? 128)%N = true.
Proof.
  intros H. unfold hex_digit. apply N.ltb_lt.
  destruct (N.ltb_spec n 10); lia.
Qed.

Lemma hex_ascii (b : bytes) : all_ascii (hex b) = true.
Proof.
  induction b as [|x b IH]; [reflexivity | idtac].
  change (hex (x :: b)) with (hex [x] ++ hex b).
  rewrite all_ascii_app, IH, andb_true_r.
  unfold hex. cbn [flat_map app all_ascii forallb].
  pose proof (Byte.to_N_bounded x) as Bx.
  rewrite !hex_digit_ascii; [reflexivity | apply N.mod_lt; lia
                            | apply N.Div0.div_lt_upper_bound; lia].
Qed.

(** X15: when the raw data field holds the hexadecimal display of a
    response, [write_raw_data] sends the characters of that display, two
    bytes for every byte of the response, between ESC 'n' and FS; for a
    response that is not empty these are not the bytes of the response.
    The display itself determines the response. *)
Theorem raw_write_sends_hex_text (w : world) (response : bytes) :
  port_fault w = None ->
  raw_data_var w = hex response ->
  exists w',
    Msre206_cc.write_raw_data w = Val tt w'
    /\ written w'
       = written w ++ [[x1b; x6e] ++ map byte_of_N (hex response) ++ [x1c]]
    /\ List.length (map byte_of_N (hex response)) = 2 * List.length response
    /\ (response <> [] -> map byte_of_N (hex response) <> response)
    /\ (forall other, hex other = hex response -> other = response).
Proof.
  intros Hp Hr.
  assert (He : encode (raw_data_var w) = Ok (map byte_of_N (hex response))).
  { rewrite Hr. apply encode_ascii. apply hex_ascii. }
  destruct (write_raw_data_run w _ Hp He) as (w' & E & W & _).
  exists w'. split; [exact E | idtac]. split; [exact W | idtac].
  assert (L : List.length (map byte_of_N (hex response)) = 2 * List.length response)
    by (rewrite length_map; apply hex_length).
  split; [exact L | idtac].
  split.
  - intros Hne Heq. rewrite Heq in L. destruct response; [congruence | simpl in L; lia].
  - intros other H. apply hex_inj. exact H.
Qed.

(** The bytes AB CD, shown as abcd and written back as 61 62 63 64. *)
Lemma raw_write_sends_hex_text_witness :
  exists w',
    Msre206_cc.write_raw_data (set_raw_data (hex [xab; xcd]) world0) = Val tt w'
    /\ written w' = [[x1b; x6e; x61; x62; x63; x64; x1c]].
Proof.
  destruct (raw_write_sends_hex_text (set_raw_data (hex [xab; xcd]) world0)
              [xab; xcd] eq_refl eq_refl) as (w' & E & W & _).
  exists w'. split; assumption.
Defined.

(** ** Cleaning and splitting the text of a read *)

Lemma clean_no_esc (s : str) : forall b, ~ In cESC (Msre206_cc.re_sub_control b s).
Proof.
  induction s as [|c s IH]; intros b; cbn [Msre206_cc.re_sub_control].
  - intros [].
  - destruct (N.eqb_spec c cESC) as [->|Hc]; [apply IH | idtac].
    destruct (b && Msre206_cc.in_pattern_set c); [apply IH | idtac].
    intros [H | H]; [congruence | exact (IH false H)].
Qed.

Lemma pattern_set_not_printable (c : N) :
  Msre206_cc.in_pattern_set c = true -> is_printable c = false.
Proof.
  unfold Msre206_cc.in_pattern_set, is_printable.
  destruct (in_range 32 126 c); [idtac | reflexivity].
  rewrite !orb_true_r. discriminate.
Qed.

Lemma clean_keeps_printable (s : str) :
  forall b, filter is_printable (Msre206_cc.re_sub_control b s)
            = filter is_printable s.
Proof.
  induction s as [|c s IH]; intros b; cbn [Msre206_cc.re_sub_control filter].
  - reflexivity.
  - destruct (N.eqb_spec c cESC) as [->|Hc].
    + change (is_printable cESC) with false. apply IH.
    + destruct (b && Msre206_cc.in_pattern_set c) eqn:E.
      * apply andb_prop in E. destruct E as [_ E].
        rewrite (pattern_set_not_printable c E). apply IH.
      * cbn [filter]. rewrite IH. reflexivity.
Qed.

Lemma clean_identity (s : str) :
  ~ In cESC s -> Msre206_cc.re_sub_control false s = s.
Proof.
  induction s as [|c s IH]; intros H; cbn [Msre206_cc.re_sub_control].
  - reflexivity.
  - destruct (N.eqb_spec c cESC) as [->|Hc]; [exfalso; apply H; left; reflexivity | idtac].
    cbn [andb]. rewrite IH; [reflexivity | intros Hin; apply H; right; exact Hin].
Qed.

(** X16: the cleaning of [read_card] leaves no ESC in the text, removes no
    printable ASCII character, and leaves a text without ESC as it is. *)
Theorem cleaning_removes_escapes_only (s : str) :
  (forall b, ~ In cESC (Msre206_cc.re_sub_control b s))
  /\ (forall b, filter is_printable (Msre206_cc.re_sub_control b s)
                = filter is_printable s)
  /\ (~ In cESC s -> Msre206_cc.re_sub_control false s = s).
Proof.
  split; [exact (clean_no_esc s) | idtac].
  split; [exact (clean_keeps_printable s) | exact (clean_identity s)].
Qed.

(** A text without ESC. *)
Lemma cleaning_removes_escapes_only_witness :
  Msre206_cc.re_sub_control false (py "%B4?;4?") = py "%B4?;4?".
Proof.
  apply (proj2 (proj2 (cleaning_removes_escapes_only (py "%B4?;4?")))).
  intros H. simpl in H.
  repeat (destruct H as [H | H]; [discriminate H | idtac]). exact H.
Defined.

Lemma lstrip_incl (s : str) (x : N) : In x (lstrip s) -> In x s.
Proof.
  induction s as [|c s IH]; cbn [lstrip]; [trivial | idtac].
  destruct (isspace c); [intros H; right; exact (IH H) | trivial].
Qed.

Lemma strip_incl (s : str) (x : N) : In x (strip s) -> In x s.
Proof.
  unfold strip. intros H. apply in_rev in H. apply lstrip_incl in H.
  apply in_rev in H. apply lstrip_incl in H. exact H.
Qed.

Lemma split_fields (sep : N) (s : str) :
  forall f, In f (split sep s) -> forall x, In x f -> In x s /\ x <> sep.
Proof.
  induction s as [|c s IH]; cbn [split]; intros f Hf x Hx.
  - destruct Hf as [<- | []]. destruct Hx.
  - destruct (N.eqb_spec c sep) as [->|Hc].
    + destruct Hf as [<- | Hf]; [destruct Hx | idtac].
      destruct (IH f Hf x Hx) as [H1 H2]. split; [right; exact H1 | exact H2].
    + destruct (split sep s) as [|h t] eqn:E.
      * destruct Hf as [<- | []]. destruct Hx as [<- | []].
        split; [left; reflexivity | exact Hc].
      * destruct Hf as [<- | Hf].
        { destruct Hx as [<- | Hx]; [split; [left; reflexivity | exact Hc] | idtac].
          destruct (IH h (or_introl eq_refl) x Hx) as [H1 H2].
          split; [right; exact H1 | exact H2]. }
        { destruct (IH f (or_intror Hf) x Hx) as [H1 H2].
          split; [right; exact H1 | exact H2]. }
Qed.

Lemma nth_field_clean (text : str) (i : nat) (x : N) :
  In x (strip (nth i (split cQM (Msre206_cc.re_sub_control false text)) [])) ->
  x <> cESC /\ x <> cQM.
Proof.
  intros H. apply strip_incl in H.
  destruct (nth_in_or_default i (split cQM (Msre206_cc.re_sub_control false text)) [])
    as [Hin | Hd].
  - destruct (split_fields _ _ _ Hin x H) as [H1 H2].
    split; [idtac | exact H2].
    intros ->. exact (clean_no_esc text false H1).
  - rewrite Hd in H. destruct H.
Qed.

(** X17: a track that [read_card] installs from a decodable response holds
    neither ESC nor '?'; a track it does not install keeps its value. *)
Theorem read_tracks_have_no_delimiter (r : bytes) (text : str) (w w' : world) :
  r <> [] -> decode r = Some text ->
  Msre206_cc.read_card_response r w = Val tt w' ->
  (~ In cESC (track1_var w') /\ ~ In cQM (track1_var w'))
  /\ (track2_var w' = track2_var w
      \/ (~ In cESC (track2_var w') /\ ~ In cQM (track2_var w')))
  /\ (track3_var w' = track3_var w
      \/ (~ In cESC (track3_var w') /\ ~ In cQM (track3_var w'))).
Proof.
  intros Hr Hd H.
  destruct (read_card_response_decoded r text w Hr Hd)
    as (w1 & E & T1 & T2 & T3 & _).
  rewrite E in H. injection H as <-.
  split.
  - rewrite T1. split; intros Hin; apply nth_field_clean in Hin;
      destruct Hin as [A B]; congruence.
  - split.
    + destruct (2 <=? List.length _)%nat; [right | left; exact T2].
      rewrite T2. split; intros Hin; apply nth_field_clean in Hin;
        destruct Hin as [A B]; congruence.
    + destruct (3 <=? List.length _)%nat; [right | left; exact T3].
      rewrite T3. split; intros Hin; apply nth_field_clean in Hin;
        destruct Hin as [A B]; congruence.
Qed.

(** A response with the tokens of the device between the tracks. *)
Lemma read_tracks_have_no_delimiter_witness :
  exists w',
    Msre206_cc.read_card_response
      ([x1b; x01] ++ ascii_bytes "%B4?" ++ [x1b; x02] ++ ascii_bytes ";4?") world0
    = Val tt w'
    /\ ~ In cESC (track1_var w') /\ ~ In cQM (track1_var w').
Proof.
  eassert (H : Msre206_cc.read_card_response
                 ([x1b; x01] ++ ascii_bytes "%B4?" ++ [x1b; x02] ++ ascii_bytes ";4?")
                 world0 = Val tt _) by (vm_compute; reflexivity).
  eexists. split; [exact H | idtac].
  refine (proj1 (read_tracks_have_no_delimiter _ _ world0 _ _ _ H)).
  - discriminate.
  - vm_compute. reflexivity.
Defined.

(** ** The cleaning patterns of the two variants *)

Lemma pattern_sets_agree (c : N) :
  c <> 226%N -> c <> 8250%N ->
  Msre206_debug.in_pattern_set c = Msre206_cc.in_pattern_set c.
Proof.
  intros H1 H2. unfold Msre206_debug.in_pattern_set, Msre206_cc.in_pattern_set.
  destruct (N.eqb_spec c 226); [congruence | idtac].
  destruct (N.eqb_spec c 8250); [congruence | idtac].
  destruct (in_range 32 126 c) eqn:E.
  - rewrite !orb_true_r. reflexivity.
  - destruct (N.eqb_spec c 120); [subst c; discriminate E | idtac].
    destruct (N.eqb_spec c 49); [subst c; discriminate E | idtac].
    destruct (N.eqb_spec c 66); [subst c; discriminate E | idtac].
    destruct (N.eqb_spec c 32); [subst c; discriminate E | idtac].
    destruct (N.eqb_spec c 91); [subst c; discriminate E | idtac].
    destruct (N.eqb_spec c 94); [subst c; discriminate E | idtac].
    destruct (c =? 27)%N; reflexivity.
Qed.

Lemma cleanings_agree (s : str) :
  ~ In 226%N s -> ~ In 8250%N s ->
  forall b, Msre206_debug.re_sub_control b s = Msre206_cc.re_sub_control b s.
Proof.
  induction s as [|c s IH]; intros H1 H2 b;
    cbn [Msre206_debug.re_sub_control Msre206_cc.re_sub_control].
  - reflexivity.
  - assert (I1 : ~ In 226%N s) by (intros H; apply H1; right; exact H).
    assert (I2 : ~ In 8250%N s) by (intros H; apply H2; right; exact H).
    rewrite (pattern_sets_agree c);
      [idtac | intros ->; apply H1; left; reflexivity
             | intros ->; apply H2; left; reflexivity].
    rewrite !(IH I1 I2). reflexivity.
Qed.

Lemma variants_read_alike_lemma (r : bytes) (w : world) :
  (forall text, decode r = Some text -> ~ In 226%N text /\ ~ In 8250%N text) ->
  Msre206_debug.read_card_response r w = Msre206_cc.read_card_response r w.
Proof.
  intros H. destruct r as [|b r]; [reflexivity | idtac].
  unfold Msre206_debug.read_card_response, Msre206_cc.read_card_response,
    Msre206_debug.log_debug_message, try_except.
  unfold bind at 1. unfold bind at 5.
  unfold print at 1. unfold print at 4.
  unfold bind at 1. unfold bind at 5.
  destruct (decode (b :: r)) as [text|] eqn:E; [idtac | reflexivity].
  destruct (H text eq_refl) as [H1 H2].
  unfold ret at 1. unfold ret at 1. cbv beta iota.
  rewrite (cleanings_agree text H1 H2 false). reflexivity.
Qed.

(** X18: the cleaning pattern of msre206_debug.py differs from the one of
    msre206_cc.py only on the characters U+00E2 and U+203A: on a response
    whose text has neither, the two variants of [read_card] do the same;
    inside a run that follows an ESC, the debug variant keeps such a
    character and ends the run where the other variant removes it. *)
Theorem variants_read_alike :
  (forall r w,
     (forall text, decode r = Some text -> ~ In 226%N text /\ ~ In 8250%N text) ->
     Msre206_debug.read_card_response r w = Msre206_cc.read_card_response r w)
  /\ (forall s b,
        ~ In 226%N s -> ~ In 8250%N s ->
        Msre206_debug.re_sub_control b s = Msre206_cc.re_sub_control b s)
  /\ (forall c s,
        c = 226%N \/ c = 8250%N ->
        Msre206_debug.re_sub_control true (c :: s)
        = c :: Msre206_debug.re_sub_control false s
        /\ Msre206_cc.re_sub_control true (c :: s)
           = Msre206_cc.re_sub_control true s).
Proof.
  split; [exact variants_read_alike_lemma | idtac].
  split; [intros s b H1 H2; apply cleanings_agree; assumption | idtac].
  intros c s [-> | ->]; split; reflexivity.
Qed.

(** An ASCII response. *)
Lemma variants_read_alike_witness :
  Msre206_debug.read_card_response (ascii_bytes "%B4?;4?") world0
  = Msre206_cc.read_card_response (ascii_bytes "%B4?;4?") world0.
Proof.
  apply (proj1 variants_read_alike).
  intros text H. vm_compute in H. injection H as <-.
  split; intros H; simpl in H;
    repeat (destruct H as [H | H]; [discriminate H | idtac]); exact H.
Defined.

(** ** Framing of the write command *)

Lemma first_mark_splits (e : N) (a : str) :
  forall b x y,
    ~ In e a -> ~ In e b -> a ++ e :: x = b ++ e :: y -> a = b /\ x = y.
Proof.
  induction a as [|c a IH]; intros b x y Ha Hb H.
  - destruct b as [|d b].
    + injection H as ->. split; reflexivity.
    + injection H as <- _. exfalso. apply Hb. left. reflexivity.
  - destruct b as [|d b].
    + injection H as -> _. exfalso. apply Ha. left. reflexivity.
    + injection H as -> H.
      destruct (IH b x y) as [-> ->];
        [intros Hin; apply Ha; right; exact Hin
        | intros Hin; apply Hb; right; exact Hin
        | exact H | split; reflexivity].
Qed.

(** X19: the write command determines its three tracks when tracks 1 and 2
    hold no ESC; without that condition it does not: a track 1 that
    starts with ESC 02 and an empty track 2 give the same command as an
    empty track 1 and a track 2 that ends with ESC 02. *)
Theorem write_command_framing :
  (forall t1 t2 t3 u1 u2 u3,
     ~ In cESC t1 -> ~ In cESC t2 -> ~ In cESC u1 -> ~ In cESC u2 ->
     Msre206_cc.write_command t1 t2 t3 = Msre206_cc.write_command u1 u2 u3 ->
     t1 = u1 /\ t2 = u2 /\ t3 = u3)
  /\ (forall x t3,
        Msre206_cc.write_command ([cESC; 2%N] ++ x) [] t3
        = Msre206_cc.write_command [] (x ++ [cESC; 2%N]) t3).
Proof.
  split.
  - intros t1 t2 t3 u1 u2 u3 A1 A2 B1 B2 H.
    unfold Msre206_cc.write_command in H.
    repeat (apply app_inv_head in H).
    change ([cESC; 2%N] ++ t2 ++ [cESC; 3%N] ++ t3 ++ py "?" ++ [cFS])
      with (cESC :: (2%N :: t2 ++ [cESC; 3%N] ++ t3 ++ py "?" ++ [cFS])) in H.
    change ([cESC; 2%N] ++ u2 ++ [cESC; 3%N] ++ u3 ++ py "?" ++ [cFS])
      with (cESC :: (2%N :: u2 ++ [cESC; 3%N] ++ u3 ++ py "?" ++ [cFS])) in H.
    apply first_mark_splits in H; [idtac | exact A1 | exact B1].
    destruct H as [-> H]. injection H as H.
    change ([cESC; 3%N] ++ t3 ++ py "?" ++ [cFS])
      with (cESC :: (3%N :: t3 ++ py "?" ++ [cFS])) in H.
    change ([cESC; 3%N] ++ u3 ++ py "?" ++ [cFS])
      with (cESC :: (3%N :: u3 ++ py "?" ++ [cFS])) in H.
    apply first_mark_splits in H; [idtac | exact A2 | exact B2].
    destruct H as [-> H]. injection H as H.
    apply app_inv_tail in H. subst. repeat split.
  - intros x t3. unfold Msre206_cc.write_command.
    cbn [app]. rewrite <- !app_assoc. reflexivity.
Qed.

(** Two commands for tracks without ESC. *)
Lemma write_command_framing_witness :
  py "A" = py "A" /\ py "B" = py "B" /\ py "C" = py "C".
Proof.
  apply (proj1 write_command_framing (py "A") (py "B") (py "C")
           (py "A") (py "B") (py "C")).
  - intros H. simpl in H. destruct H as [H | []]. discriminate H.
  - intros H. simpl in H. destruct H as [H | []]. discriminate H.
  - intros H. simpl in H. destruct H as [H | []]. discriminate H.
  - intros H. simpl in H. destruct H as [H | []]. discriminate H.
  - reflexivity.
Defined.

(** ** Which replies count as a success *)

Lemma status_table_success (b : byte) : status_table b = Success -> b = x30.
Proof. destruct b; intros H; try discriminate H; reflexivity. Qed.

Lemma classify_success_iff (r : bytes) :
  classify r = Success
  <-> (hd_error r = Some x1b /\ last r x00 = x30 /\ 2 <= List.length r).
Proof.
  destruct r as [|a r].
  - split; [discriminate | intros (H & _); discriminate H].
  - unfold classify. cbn [starts_with_esc hd_error].
    destruct (Byte.eqb a x1b) eqn:Ea.
    + apply byte_dec_bl in Ea. subst a. cbn [andb].
      destruct (ends_with_esc_zero (x1b :: r)) eqn:Ee.
      * split; [intros _ | reflexivity].
        destruct (ends_with_esc_zero_last _ Ee) as [H1 H2].
        split; [reflexivity | split; assumption].
      * destruct (Nat.ltb_spec 2 (List.length (x1b :: r))) as [Hl | Hl].
        { split.
          - intros H. apply status_table_success in H.
            split; [reflexivity | split; [exact H | lia]].
          - intros (_ & H & _). rewrite H. reflexivity. }
        { split; [discriminate | idtac].
          intros (_ & H1 & H2).
          destruct r as [|b [|c r]]; simpl in H2, Hl; try lia.
          simpl in H1. subst b. discriminate Ee. }
    + cbn [andb]. split; [discriminate | idtac].
      intros (H & _). injection H as ->. discriminate Ea.
Qed.

(** X20: [parse_response] answers "Operation successful." exactly for the
    replies of at least two bytes that start with ESC and end with '0',
    whatever lies between. *)
Theorem success_replies (r : bytes) (w : world) :
  value_of (Msre206_cc.parse_response r w) = Some (py "Operation successful.")
  <-> (hd_error r = Some x1b /\ last r x00 = x30 /\ 2 <= List.length r).
Proof.
  destruct (parse_response_classify r w) as [w' E]. rewrite E. cbn [value_of].
  rewrite <- classify_success_iff. split.
  - intros H. injection H as H. apply (message_inj _ Success). exact H.
  - intros ->. reflexivity.
Qed.

(** The reply ESC 'A' '0'. *)
Lemma success_replies_witness :
  value_of (Msre206_cc.parse_response [x1b; x41; x30] world0)
  = Some (py "Operation successful.").
Proof.
  apply (proj2 (success_replies [x1b; x41; x30] world0)).
  split; [reflexivity | split; [reflexivity | simpl; lia]].
Defined.

(** ** The only exception of the debug generator *)

Lemma append_check_digit_ok (s : str) :
  all_digits s = true ->
  exists n, Msre206_debug.append_check_digit s = Ok n /\ all_digits n = true.
Proof.
  intros H. unfold Msre206_debug.append_check_digit.
  rewrite (debug_checksum_eq s H), (luhn_checksum_digits s H). unfold pbind.
  eexists. split; [reflexivity | idtac].
  match goal with
  | |- context [str_of_int ?g] =>
    assert (Hg : (0 <= g < 10)%Z) by (apply Z.mod_pos_bound; lia);
    rewrite (str_of_int_digit g Hg), all_digits_app, H;
    unfold all_digits; cbn [forallb];
    rewrite (proj1 (digit_of_int g Hg)); reflexivity
  end.
Qed.

Lemma verify_ok (s : str) :
  all_digits s = true -> exists b, Luhn.verify s = Ok b.
Proof.
  intros H. unfold Luhn.verify. rewrite (luhn_checksum_digits s H).
  eexists. reflexivity.
Qed.

Lemma generate_loop_no_raise (prefix : str) (length : Z) :
  all_digits prefix = true ->
  forall fuel w e w',
    Msre206_debug.generate_loop fuel prefix length w <> Exc e w'.
Proof.
  intros Hp. induction fuel as [|fuel IH]; intros w e w'.
  - discriminate.
  - cbn [Msre206_debug.generate_loop].
    destruct (join_range_digits _ randint_digit
                (Z.to_nat (length - Z.of_nat (List.length prefix) - 1)) w)
      as (ds & k & E & L & D).
    unfold bind at 1. rewrite E.
    assert (Hd : all_digits (prefix ++ ds) = true)
      by (rewrite all_digits_app, Hp, D; reflexivity).
    destruct (append_check_digit_ok _ Hd) as (cn & EA & Dn).
    unfold bind at 1. rewrite EA. cbn [lift ret].
    destruct (verify_ok cn Dn) as [valid EV].
    unfold bind at 1. rewrite EV. cbn [lift ret].
    destruct valid; [discriminate | apply IH].
Qed.

(** X21: the only exception the generator of msre206_debug.py raises is the
    ValueError for a card type that is not in the table, raised in the
    world it was called in. *)
Theorem debug_generator_raises_only_unsupported (fuel : nat) (card_type : str)
    (w : world) (e : exn) (w' : world) :
  Msre206_debug.generate_credit_card fuel card_type w = Exc e w' ->
  e = ValueError (py "Unsupported card type.")
  /\ dict_find Msre206_debug.prefixes card_type = None
  /\ w' = w.
Proof.
  unfold Msre206_debug.generate_credit_card, dict_getitem.
  destruct (dict_find Msre206_debug.prefixes card_type) as [choices|] eqn:EF.
  - intros H. exfalso. cbn [lift] in H. unfold bind at 1 in H. cbn [ret] in H.
    pose proof (dict_find_in _ _ _ EF) as Hin. simpl in Hin.
    assert (Hne : choices <> [])
      by (repeat (destruct Hin as [<- | Hin]; [discriminate | idtac]);
          contradiction).
    destruct (random_choice_in choices w Hne) as (p & Hp & E).
    unfold bind at 1 in H. rewrite E in H.
    revert H. apply generate_loop_no_raise.
    repeat (destruct Hin as [<- | Hin];
            [simpl in Hp;
             repeat (destruct Hp as [<- | Hp]; [reflexivity | idtac]);
             contradiction | idtac]).
    contradiction.
  - intros H. injection H as <- <-. repeat split.
Qed.

(** The card type Diners. *)
Lemma debug_generator_raises_only_unsupported_witness :
  ValueError (py "Unsupported card type.") = ValueError (py "Unsupported card type.")
  /\ dict_find Msre206_debug.prefixes (py "Diners") = None
  /\ world_diners = world_diners.
Proof.
  apply (debug_generator_raises_only_unsupported 2 (py "Diners") world_diners).
  reflexivity.
Defined.

(** ** UTF-8: what is encoded decodes to the same text *)

Lemma to_N_byte_of_N (n : N) : (n < 256)%N -> Byte.to_N (byte_of_N n) = n.
Proof.
  intros H. unfold byte_of_N. destruct (Byte.of_N n) as [b|] eqn:E.
  - apply Byte.to_of_N. exact E.
  - apply Byte.of_N_None_iff in E. lia.
Qed.

Lemma in_range_true (lo hi x : N) :
  (lo <= x)%N -> (x <= hi)%N -> in_range lo hi x = true.
Proof.
  intros H1 H2. unfold in_range.
  apply andb_true_intro. split; apply N.leb_le; assumption.
Qed.

Lemma in_range_low (lo hi x : N) : (x < lo)%N -> in_range lo hi x = false.
Proof.
  intros H. unfold in_range. apply andb_false_intro1. apply N.leb_gt. exact H.
Qed.

Lemma in_range_high (lo hi x : N) : (hi < x)%N -> in_range lo hi x = false.
Proof.
  intros H. unfold in_range. apply andb_false_intro2. apply N.leb_gt. exact H.
Qed.

Lemma decode_encode_cp (c : N) (rest : bytes) :
  valid_cp c = true ->
  exists bs, encode_cp c = Ok bs
             /\ decode (bs ++ rest) = option_map (cons c) (decode rest).
Proof.
  unfold valid_cp, is_surrogate. intros H. apply andb_prop in H.
  destruct H as [Hmax Hsur]. apply N.ltb_lt in Hmax.
  pose proof (N.div_mod c 64 ltac:(lia)) as D1.
  pose proof (N.mod_lt c 64 ltac:(lia)) as B1.
  pose proof (N.div_mod (c / 64) 64 ltac:(lia)) as D2.
  pose proof (N.mod_lt (c / 64) 64 ltac:(lia)) as B2.
  pose proof (N.div_mod (c / 64 / 64) 64 ltac:(lia)) as D3.
  pose proof (N.mod_lt (c / 64 / 64) 64 ltac:(lia)) as B3.
  assert (Q2 : (c / 4096 = c / 64 / 64)%N)
    by (rewrite N.Div0.div_div; reflexivity).
  assert (Q3 : (c / 262144 = c / 64 / 64 / 64)%N)
    by (rewrite !N.Div0.div_div; reflexivity).
  assert (Q4 : ((c / 4096) mod 64 = (c / 64 / 64) mod 64)%N)
    by (rewrite Q2; reflexivity).
  unfold encode_cp, is_surrogate. rewrite Q4, Q3, Q2. clear Q2 Q3 Q4.
  set (q1 := (c / 64)%N) in *. set (r1 := (c mod 64)%N) in *.
  set (q2 := (q1 / 64)%N) in *. set (r2 := (q1 mod 64)%N) in *.
  set (q3 := (q2 / 64)%N) in *. set (r3 := (q2 mod 64)%N) in *.
  clearbody q1 r1 q2 r2 q3 r3.
  destruct (N.ltb_spec c 128) as [L1 | L1].
  { eexists. split; [reflexivity | idtac].
    cbn [app decode]. rewrite (to_N_byte_of_N c) by lia.
    destruct (N.ltb_spec c 128); [reflexivity | lia]. }
  destruct (N.ltb_spec c 2048) as [L2 | L2].
  { eexists. split; [reflexivity | idtac].
    cbn [app decode].
    rewrite (to_N_byte_of_N (192 + q1)) by lia.
    rewrite (to_N_byte_of_N (128 + r1)) by lia.
    destruct (N.ltb_spec (192 + q1) 128); [lia | idtac].
    rewrite (in_range_true 194 223) by lia.
    unfold is_cont. rewrite (in_range_true 128 191) by lia.
    replace ((192 + q1 - 192) * 64 + (128 + r1 - 128))%N with c by lia.
    reflexivity. }
  destruct ((55296 <=? c)%N && (c <=? 57343)%N) eqn:Es; [discriminate Hsur | idtac].
  assert (Hns : (c < 55296 \/ 57343 < c)%N).
  { apply andb_false_iff in Es. destruct Es as [E | E]; apply N.leb_gt in E; lia. }
  destruct (N.ltb_spec c 65536) as [L3 | L3].
  { eexists. split; [reflexivity | idtac].
    cbn [app decode].
    rewrite (to_N_byte_of_N (224 + q2)) by lia.
    rewrite (to_N_byte_of_N (128 + r2)) by lia.
    rewrite (to_N_byte_of_N (128 + r1)) by lia.
    destruct (N.ltb_spec (224 + q2) 128); [lia | idtac].
    rewrite (in_range_high 194 223) by lia.
    rewrite (in_range_true 224 239) by lia.
    unfold is_cont. rewrite (in_range_true 128 191 (128 + r1)) by lia.
    assert (C1 : (if (224 + q2 =? 224)%N
                  then in_range 160 191 (128 + r2)
                  else if (224 + q2 =? 237)%N
                       then in_range 128 159 (128 + r2)
                       else in_range 128 191 (128 + r2)) = true).
    { destruct (N.eqb_spec (224 + q2) 224).
      - apply in_range_true; lia.
      - destruct (N.eqb_spec (224 + q2) 237); apply in_range_true; lia. }
    rewrite C1. cbn [andb].
    replace ((224 + q2 - 224) * 4096 + (128 + r2 - 128) * 64
             + (128 + r1 - 128))%N with c by lia.
    reflexivity. }
  destruct (N.ltb_spec c 1114112) as [L4 | L4]; [idtac | lia].
  eexists. split; [reflexivity | idtac].
  cbn [app decode].
  rewrite (to_N_byte_of_N (240 + q3)) by lia.
  rewrite (to_N_byte_of_N (128 + r3)) by lia.
  rewrite (to_N_byte_of_N (128 + r2)) by lia.
  rewrite (to_N_byte_of_N (128 + r1)) by lia.
  destruct (N.ltb_spec (240 + q3) 128); [lia | idtac].
  rewrite (in_range_high 194 223) by lia.
  rewrite (in_range_high 224 239) by lia.
  rewrite (in_range_true 240 244) by lia.
  unfold is_cont. rewrite (in_range_true 128 191 (128 + r1)) by lia.
  rewrite (in_range_true 128 191 (128 + r2)) by lia.
  assert (C1 : (if (240 + q3 =? 240)%N
                then in_range 144 191 (128 + r3)
                else if (240 + q3 =? 244)%N
                     then in_range 128 143 (128 + r3)
                     else in_range 128 191 (128 + r3)) = true).
  { destruct (N.eqb_spec (240 + q3) 240).
    - apply in_range_true; lia.
    - destruct (N.eqb_spec (240 + q3) 244); apply in_range_true; lia. }
  rewrite C1. cbn [andb].
  replace ((240 + q3 - 240) * 262144 + (128 + r3 - 128) * 4096
           + (128 + r2 - 128) * 64 + (128 + r1 - 128))%N
    with c by lia.
  reflexivity.
Qed.

Lemma encode_then_decode (s : str) :
  valid_str s = true -> exists b, encode s = Ok b /\ decode b = Some s.
Proof.
  induction s as [|c s IH]; intros H.
  - exists []. split; reflexivity.
  - cbn [valid_str forallb] in H. apply andb_prop in H. destruct H as [Hc Hs].
    destruct (IH Hs) as (b & Eb & Db).
    destruct (decode_encode_cp c b Hc) as (bs & Ec & Dc).
    exists (bs ++ b). cbn [encode]. rewrite Ec, Eb. split; [reflexivity | idtac].
    rewrite Dc, Db. reflexivity.
Qed.

Lemma encode_invalid (s : str) :
  valid_str s = false -> encode s = Err UnicodeEncodeError.
Proof.
  induction s as [|c s IH]; intros H; [discriminate | idtac].
  cbn [valid_str forallb] in H. cbn [encode].
  destruct (valid_cp c) eqn:Ec.
  - cbn [andb] in H. rewrite (IH H).
    destruct (decode_encode_cp c [] Ec) as (bs & E & _). rewrite E. reflexivity.
  - assert (E : encode_cp c = Err UnicodeEncodeError).
    { unfold valid_cp in Ec. unfold encode_cp.
      destruct (N.ltb_spec c 128) as [L1|L1].
      { exfalso. unfold is_surrogate in Ec.
        destruct (N.ltb_spec c 1114112); [idtac | lia].
        destruct (N.leb_spec 55296 c); [lia | discriminate Ec]. }
      destruct (N.ltb_spec c 2048) as [L2|L2].
      { exfalso. unfold is_surrogate in Ec.
        destruct (N.ltb_spec c 1114112); [idtac | lia].
        destruct (N.leb_spec 55296 c); [lia | discriminate Ec]. }
      destruct (is_surrogate c); [reflexivity | idtac].
      destruct (N.ltb_spec c 65536) as [L3|L3].
      { exfalso. destruct (N.ltb_spec c 1114112); [discriminate Ec | lia]. }
      destruct (N.ltb_spec c 1114112); [discriminate Ec | reflexivity]. }
    rewrite E. reflexivity.
Qed.

(** X22: for a command without surrogate, [send_command] writes one frame,
    the UTF-8 encoding from which the strict decoder gets the command text
    back, returns the next entry of the receive script and leaves the Tk
    variables alone; for a command that cannot be encoded, one that holds
    a surrogate, it raises UnicodeEncodeError before it writes or prints;
    without a device it returns the empty reply. *)
Theorem send_command_frame (d : Serial) (command : str) (w : world) :
  (valid_str command = true ->
   exists frame w',
     Msre206_cc.send_command (Some d) command w = Val (rx w (rx_pos w)) w'
     /\ written w' = written w ++ [frame]
     /\ decode frame = Some command
     /\ rx_pos w' = S (rx_pos w)
     /\ same_vars w w')
  /\ (valid_str command = false ->
      Msre206_cc.send_command (Some d) command w = Exc UnicodeEncodeError w)
  /\ Msre206_cc.send_command None command w = Val [] w.
Proof.
  split.
  - intros H. destruct (encode_then_decode command H) as (frame & E & D).
    exists frame. eexists.
    split; [apply (send_command_explicit d command frame w E) | idtac].
    world_simpl. repeat split. exact D.
  - split; [idtac | reflexivity].
    intros H. unfold Msre206_cc.send_command.
    rewrite (encode_invalid command H). reflexivity.
Qed.

(** A command with a character outside ASCII, and one with a surrogate. *)
Lemma send_command_frame_witness :
  (exists frame w',
     Msre206_cc.send_command (Some TtyUSB0) [cESC; 110; 8364]%N world0
     = Val (rx world0 (rx_pos world0)) w'
     /\ written w' = written world0 ++ [frame]
     /\ decode frame = Some [cESC; 110; 8364]%N)
  /\ Msre206_cc.send_command (Some TtyUSB0) [cESC; 55296]%N world0
     = Exc UnicodeEncodeError world0.
Proof.
  split.
  - destruct (proj1 (send_command_frame TtyUSB0 [cESC; 110; 8364]%N world0) eq_refl)
      as (frame & w' & E & W & D & _).
    exists frame, w'. repeat split; assumption.
  - exact (proj1 (proj2 (send_command_frame TtyUSB0 [cESC; 55296]%N world0)) eq_refl).
Defined.
